(** * Verification of the AI Product Manager core

    A shallow embedding of [core/llm_client.py], [core/models/run.py],
    [core/orchestration.py] and [backend/services/storage.py], and the
    properties of the five-stage agent pipeline proved over it. *)

From Stdlib Require Import Ascii String ZArith Lia DecimalString.
From stdpp Require Import base option list gmap strings.

Open Scope string_scope.
Open Scope list_scope.

Set Warnings "-register-all".

(** ** Python strings

    A [str] is modelled as a [string] of 8-bit characters.  The three
    operations the generation backend uses are [str.lower], the
    substring test [sub in s] and [str.replace(old, new)].  They are
    defined on character lists, where the list library applies, and
    lifted to [string]. *)

Module PyStr.

(** [s.startswith(p)] *)
Fixpoint starts_with (p s : list ascii) : bool :=
  match p, s with
  | [], _ => true
  | _ :: _, [] => false
  | a :: p', b :: s' => Ascii.eqb a b && starts_with p' s'
  end.

(** [sub in s]: [sub] occurs at some offset of [s]. *)
Fixpoint find_in (sub s : list ascii) : bool :=
  starts_with sub s ||
  match s with
  | [] => false
  | _ :: s' => find_in sub s'
  end.

(** [c in s] for one character. *)
Definition has_char (c : ascii) (s : list ascii) : bool :=
  existsb (Ascii.eqb c) s.

(** [str.lower] on a character of ASCII: the letters A-Z change. *)
Definition lower_char (c : ascii) : ascii :=
  let n := nat_of_ascii c in
  if (65 <=? n)%nat && (n <=? 90)%nat then ascii_of_nat (n + 32) else c.

(** [str.upper] on a character of ASCII: the letters a-z change. *)
Definition upper_char (c : ascii) : ascii :=
  let n := nat_of_ascii c in
  if (97 <=? n)%nat && (n <=? 122)%nat then ascii_of_nat (n - 32) else c.

(** [s.replace(old, new)] for a non-empty [old]: scan from the left;
    at an occurrence of [old] emit [new] and resume after it, otherwise
    copy one character.  The fuel bounds the number of scan steps. *)
Fixpoint replace_from (fuel : nat) (old new s : list ascii) : list ascii :=
  match fuel with
  | O => s
  | S fuel' =>
      if starts_with old s
      then new ++ replace_from fuel' old new (drop (length old) s)
      else match s with
           | [] => []
           | c :: s' => c :: replace_from fuel' old new s'
           end
  end.

(** [s.replace(old, new)]; an empty [old] matches before every
    character and at the end. *)
Definition replace_chars (old new s : list ascii) : list ascii :=
  match old with
  | [] => new ++ flat_map (fun c => c :: new) s
  | _ :: _ => replace_from (S (length s)) old new s
  end.

End PyStr.

Definition chars (s : string) : list ascii := list_ascii_of_string s.
Definition text (l : list ascii) : string := string_of_list_ascii l.

(** [s.lower()] for a text of ASCII; a character beyond the letters A-Z
    is left as it is. *)
Definition lower (s : string) : string :=
  text (map PyStr.lower_char (chars s)).

(** [sub in s] *)
Definition contains (sub s : string) : bool :=
  PyStr.find_in (chars sub) (chars s).

(** [s.replace(old, new)] *)
Definition replace (s old new : string) : string :=
  text (PyStr.replace_chars (chars old) (chars new) (chars s)).

(** [any(keyword in prompt.lower() for keyword in keywords)] *)
Definition any_keyword_in (keywords : list string) (prompt : string) : bool :=
  existsb (fun keyword => contains keyword (lower prompt)) keywords.

(** ** Data model, [core/models/run.py] *)

Inductive RunStatus := PENDING | RUNNING | COMPLETED | FAILED.

Inductive AgentRole :=
  STRATEGIST | ARCHITECT | UX_WRITER | MOCKUP_DESIGNER | SYNTHESIZER | USER | SYSTEM.

Global Instance RunStatus_eq_dec : EqDecision RunStatus.
Proof. solve_decision. Defined.

Global Instance AgentRole_eq_dec : EqDecision AgentRole.
Proof. solve_decision. Defined.

(** The [value] of the two string enums. *)
Definition RunStatus_value (s : RunStatus) : string :=
  match s with
  | PENDING => "pending"
  | RUNNING => "running"
  | COMPLETED => "completed"
  | FAILED => "failed"
  end.

Definition AgentRole_value (r : AgentRole) : string :=
  match r with
  | STRATEGIST => "strategist"
  | ARCHITECT => "architect"
  | UX_WRITER => "ux_writer"
  | MOCKUP_DESIGNER => "mockup_designer"
  | SYNTHESIZER => "synthesizer"
  | USER => "user"
  | SYSTEM => "system"
  end.

(** A [datetime] is a reading of the UTC clock. *)
Definition datetime := Z.

(** Values of [Dict[str, Any]] fields and of [json.loads]. *)
Inductive JSON :=
| JNull
| JBool (b : bool)
| JInt (n : Z)
| JFloat (repr : string)
| JStr (s : string)
| JList (items : list JSON)
| JDict (items : list (string * JSON)).

(** Keyword arguments of [get_agent_prompt] are strings or integers. *)
Inductive PyVal := PStr (s : string) | PInt (n : Z).

(** A [dict] with string keys, in insertion order. *)
Fixpoint dict_get {V} (d : list (string * V)) (key : string) : option V :=
  match d with
  | [] => None
  | (k, v) :: d' => if String.eqb k key then Some v else dict_get d' key
  end.

(** [d[key] = v]: overwrite in place, or append a new key. *)
Fixpoint dict_set {V} (d : list (string * V)) (key : string) (v : V) : list (string * V) :=
  match d with
  | [] => [(key, v)]
  | (k, v0) :: d' =>
      if String.eqb k key then (k, v) :: d' else (k, v0) :: dict_set d' key v
  end.

Module Message.
Record t := mk {
  id : string;
  role : AgentRole;
  content : string;
  timestamp : datetime;
  step : Z;
  metadata : list (string * JSON)
}.
End Message.

Module Run.
Record t := mk {
  id : string;
  idea : string;
  status : RunStatus;
  created_at : datetime;
  updated_at : datetime;
  completed_at : option datetime;
  messages : list Message.t;
  user_answers : list (string * string);
  assumptions : list string;
  artifacts : list (string * string);
  metadata : list (string * JSON)
}.

(** Attribute assignments [self.x = v]. *)
Definition set_status (v : RunStatus) (self : t) : t :=
  mk (id self) (idea self) v (created_at self) (updated_at self)
     (completed_at self) (messages self) (user_answers self)
     (assumptions self) (artifacts self) (metadata self).

Definition set_updated_at (v : datetime) (self : t) : t :=
  mk (id self) (idea self) (status self) (created_at self) v
     (completed_at self) (messages self) (user_answers self)
     (assumptions self) (artifacts self) (metadata self).

Definition set_completed_at (v : option datetime) (self : t) : t :=
  mk (id self) (idea self) (status self) (created_at self) (updated_at self)
     v (messages self) (user_answers self)
     (assumptions self) (artifacts self) (metadata self).

Definition set_messages (v : list Message.t) (self : t) : t :=
  mk (id self) (idea self) (status self) (created_at self) (updated_at self)
     (completed_at self) v (user_answers self)
     (assumptions self) (artifacts self) (metadata self).

Definition set_artifacts (v : list (string * string)) (self : t) : t :=
  mk (id self) (idea self) (status self) (created_at self) (updated_at self)
     (completed_at self) (messages self) (user_answers self)
     (assumptions self) v (metadata self).

(** [self.artifacts.get(artifact_type, default)] with the empty string as default *)
Definition get_artifact_path (self : t) (artifact_type : string) : string :=
  default EmptyString (dict_get (artifacts self) artifact_type).
End Run.

(** ** Exceptions and results

    Every constructor stands for a subclass of Python's [Exception], and
    a value built with it for an exception of exactly that class: a
    [ValueError] here is not a [JSONDecodeError], although the latter
    class derives from the former.  What is raised outside the class
    [Exception] (the cancellation of a task, an interrupt) is no outcome
    of a computation here. *)

Inductive Exception :=
| ValueError (msg : string)
| ImportError (msg : string)
| KeyError (key : string)
| OSError (msg : string)
| JSONDecodeError (msg : string)
| RecursionError (msg : string)
| OtherError (cls msg : string).

Inductive Result (A : Type) :=
| Ok (a : A)
| Raise (e : Exception).
Arguments Ok {A} a.
Arguments Raise {A} e.

(** ** The environment

    What the program cannot decide itself is read from oracles, each
    indexed by the number of earlier readings of its kind. *)

(** Outcome of writing a file; a failed write may leave the file
    truncated by [open(path, 'w')]. *)
Inductive IOResult := IoOk | IoError (truncated : bool).

(** What the document renderer did: its return value and the files it
    left behind. *)
Record Rendering := {
  render_ok : bool;
  render_files : list (string * string)
}.

Record Env := {
  utcnow_at : nat -> datetime;              (* datetime.utcnow() *)
  uuid4_at : nat -> string;                 (* str(uuid4()) *)
  io_at : nat -> IOResult;                  (* outcome of the n-th write *)
  render_at : nat -> string -> string -> Rendering;
                                            (* pdf_generator.generate_from_markdown *)
  runs_dir : string                         (* StorageService.runs_dir *)
}.

(** Functions the core imports: [core/prompts/templates.py] and the
    standard library's [json] and [datetime.isoformat]. *)
Record Deps := {
  (** Modelled from the spec: [get_agent_prompt] of the absent
      [core/prompts/templates.py], the PromptBuilder: a pure function
      from the stage name and the named context values to the prompt. *)
  get_agent_prompt : string -> list (string * PyVal) -> string;
  (** Modelled from the spec: [get_prd_template] of the absent
      [core/prompts/templates.py], the fixed document template. *)
  get_prd_template : string;
  (** Modelled from the spec: [get_stub_response] of the absent
      [core/prompts/templates.py], the canned per-stage template string. *)
  get_stub_response : string -> string;
  (** [json.dump(run.dict(), f)] of [_save_run] and its inverse
      [Run(json.load(f))] of [get_run], which fails on other text. *)
  encode_run : Run.t -> string;
  decode_run : string -> option Run.t;
  (** [json.loads(s)]: the value, or the exception it raises:
      [JSONDecodeError] for a text that is not JSON, and for a JSON text
      that the parser gives up on a plain [ValueError] (an integer of more
      than 4300 digits) or a [RecursionError] (nesting beyond the
      recursion limit). *)
  json_loads : string -> Result JSON;
  (** [json.dumps(v, indent=...)]: the text; the values printed are
      taken to be within the nesting that the printer handles. *)
  json_dumps : option nat -> JSON -> string;
  isoformat : datetime -> string
}.

(** The generation backend as the orchestrator sees it:
    [generate(prompt, agent_name)], whose n-th call returns a text or
    raises. *)
Module LLMClient.
Record t := mk {
  generate : nat -> string -> string -> Result string
}.
End LLMClient.
Abbreviation LLMClient := LLMClient.t.

(** ** Keyword replacement, [core/llm_client.py]

    Both client classes carry their own copy of the method; each copy is
    embedded from its own source text. *)

Module StubLLMClient.

Definition _apply_keyword_replacement (response prompt : string) : string :=
  if any_keyword_in ["fitness"; "workout"; "exercise"; "gym"] prompt then
    let response := replace response "[problem domain]" "fitness tracking" in
    let response := replace response "[main use case]" "workout planning" in
    let response := replace response "[item]" "workout" in
    let response := replace response "[Item]" "Workout" in
    let response := replace response "[Product]" "Fitness Tracker" in
    let response := replace response "[Product Name]" "Fitness Tracker" in
    response
  else if any_keyword_in ["finance"; "budget"; "money"; "investment"; "banking"] prompt then
    let response := replace response "[problem domain]" "personal finance management" in
    let response := replace response "[main use case]" "budget tracking" in
    let response := replace response "[item]" "transaction" in
    let response := replace response "[Item]" "Transaction" in
    let response := replace response "[Product]" "Finance Manager" in
    let response := replace response "[Product Name]" "Finance Manager" in
    response
  else if any_keyword_in ["meditation"; "mindfulness"; "relax"; "stress"; "mental"] prompt then
    let response := replace response "[problem domain]" "stress management and mental wellness" in
    let response := replace response "[main use case]" "meditation practice" in
    let response := replace response "[item]" "meditation session" in
    let response := replace response "[Item]" "Meditation Session" in
    let response := replace response "[Product]" "Mindfulness App" in
    let response := replace response "[Product Name]" "Mindfulness App" in
    response
  else if any_keyword_in ["productivity"; "task"; "todo"; "schedule"; "project"; "team"] prompt then
    let response := replace response "[problem domain]" "task management and productivity" in
    let response := replace response "[main use case]" "task organization" in
    let response := replace response "[item]" "task" in
    let response := replace response "[Item]" "Task" in
    let response := replace response "[Product]" "Productivity Manager" in
    let response := replace response "[Product Name]" "Productivity Manager" in
    response
  else
    let response := replace response "[problem domain]" "the problem domain" in
    let response := replace response "[main use case]" "the main use case" in
    let response := replace response "[item]" "item" in
    let response := replace response "[Item]" "Item" in
    let response := replace response "[Product]" "Product" in
    let response := replace response "[Product Name]" "Product Name" in
    response.

(** [generate]: the canned response of the agent, with keyword
    replacement.  The simulated delay has no counterpart here. *)
Definition generate (D : Deps) (prompt agent_name : string) : Result string :=
  let response := get_stub_response D agent_name in
  Ok (_apply_keyword_replacement response prompt).

Definition client (D : Deps) : LLMClient :=
  {| LLMClient.generate := fun _ => generate D |}.

End StubLLMClient.

Module AutoGenLLMClient.

Definition _apply_keyword_replacement (response prompt : string) : string :=
  if any_keyword_in ["fitness"; "workout"; "exercise"; "gym"] prompt then
    let response := replace response "[problem domain]" "fitness tracking" in
    let response := replace response "[main use case]" "workout planning" in
    let response := replace response "[item]" "workout" in
    let response := replace response "[Item]" "Workout" in
    let response := replace response "[Product]" "Fitness Tracker" in
    let response := replace response "[Product Name]" "Fitness Tracker" in
    response
  else if any_keyword_in ["finance"; "budget"; "money"; "investment"; "banking"] prompt then
    let response := replace response "[problem domain]" "personal finance management" in
    let response := replace response "[main use case]" "budget tracking" in
    let response := replace response "[item]" "transaction" in
    let response := replace response "[Item]" "Transaction" in
    let response := replace response "[Product]" "Finance Manager" in
    let response := replace response "[Product Name]" "Finance Manager" in
    response
  else if any_keyword_in ["meditation"; "mindfulness"; "relax"; "stress"; "mental"] prompt then
    let response := replace response "[problem domain]" "stress management and mental wellness" in
    let response := replace response "[main use case]" "meditation practice" in
    let response := replace response "[item]" "meditation session" in
    let response := replace response "[Item]" "Meditation Session" in
    let response := replace response "[Product]" "Mindfulness App" in
    let response := replace response "[Product Name]" "Mindfulness App" in
    response
  else if any_keyword_in ["productivity"; "task"; "todo"; "schedule"; "project"; "team"] prompt then
    let response := replace response "[problem domain]" "task management and productivity" in
    let response := replace response "[main use case]" "task organization" in
    let response := replace response "[item]" "task" in
    let response := replace response "[Item]" "Task" in
    let response := replace response "[Product]" "Productivity Manager" in
    let response := replace response "[Product Name]" "Productivity Manager" in
    response
  else
    let response := replace response "[problem domain]" "the problem domain" in
    let response := replace response "[main use case]" "the main use case" in
    let response := replace response "[item]" "item" in
    let response := replace response "[Item]" "Item" in
    let response := replace response "[Product]" "Product" in
    let response := replace response "[Product Name]" "Product Name" in
    response.

(** A value that a message of the remote library holds under a key:
    the content of a message is a string for a text answer, and it can
    be [None] or another object (a list of parts, say). *)
Inductive PyObject :=
| PyText (s : string)
| PyNone
| PyOther (repr : string).

(** What the AutoGen library does during one call of [generate]: one
    of its four entry points raises, or the chat ends and leaves
    [agent.chat_messages], a dict from names to lists of messages, each
    message a dict. *)
Inductive AutoGen :=
| InitializeRaises (e : Exception)       (* self._initialize_autogen() *)
| AssistantAgentRaises (e : Exception)   (* AssistantAgent(...) *)
| UserProxyAgentRaises (e : Exception)   (* UserProxyAgent(...) *)
| InitiateChatRaises (e : Exception)     (* user_proxy.initiate_chat(...) *)
| ChatMessages (chat_messages : list (string * list (list (string * PyObject)))).

(** The body of the [try] block up to its [return]: [Ok (Some c)] when
    it returns [c], [Ok None] when control leaves the [if] without
    returning. *)
Definition attempt (autogen : AutoGen) : Result (option PyObject) :=
  match autogen with
  | InitializeRaises e => Raise e
  | AssistantAgentRaises e => Raise e
  | UserProxyAgentRaises e => Raise e
  | InitiateChatRaises e => Raise e
  | ChatMessages chat_messages =>
      match chat_messages, dict_get chat_messages "user_proxy" with
      | _ :: _, Some messages =>
          match last messages with
          | Some message =>
              match dict_get message "content" with
              | Some content => Ok (Some content)
              | None => Raise (KeyError "content")
              end
          | None => Ok None
          end
      | _, _ => Ok None
      end
  end.

(** [generate]: the content of the last message as it is, whatever
    kind of value it is; the canned response with keyword replacement
    when the [try] block raises or ends without a [return]. *)
Definition generate (D : Deps) (autogen : AutoGen) (prompt agent_name : string)
  : Result PyObject :=
  match attempt autogen with
  | Ok (Some content) => Ok content
  | Ok None =>
      let response := get_stub_response D agent_name in
      Ok (PyText (_apply_keyword_replacement response prompt))
  | Raise e =>
      let response := get_stub_response D agent_name in
      Ok (PyText (_apply_keyword_replacement response prompt))
  end.

End AutoGenLLMClient.


(** ** Program state *)

(** [Run] objects live in a heap and are handled by reference, so that
    the object in [_runs_cache] and the orchestrator's [run] are one. *)
Record World := mkWorld {
  heap : nat -> Run.t;
  next_ref : nat;
  _runs_cache : gmap string nat;            (* StorageService._runs_cache *)
  files : gmap string string;               (* the files on disk, by path *)
  clock_reads : nat;
  uuid_draws : nat;
  llm_calls : nat;
  io_ops : nat;
  saved : list (string * string * string)   (* arguments of the save_artifact calls so far *)
}.

Definition M (A : Type) : Type := World -> Result A * World.

Global Instance M_ret : MRet M := fun A a w => (Ok a, w).

Global Instance M_bind : MBind M := fun A B k c w =>
  match c w with
  | (Ok a, w') => k a w'
  | (Raise e, w') => (Raise e, w')
  end.

Definition raise {A} (e : Exception) : M A := fun w => (Raise e, w).

(** [try: body  except Exception as e: handler e] *)
Definition try_except {A} (body : M A) (handler : Exception -> M A) : M A :=
  fun w =>
    match body w with
    | (Ok a, w') => (Ok a, w')
    | (Raise e, w') => handler e w'
    end.

(** [try: body  except C as e: handler e] for one exception class. *)
Definition try_except_class {A} (is_C : Exception -> bool)
    (body : M A) (handler : Exception -> M A) : M A :=
  fun w =>
    match body w with
    | (Ok a, w') => (Ok a, w')
    | (Raise e, w') => if is_C e then handler e w' else (Raise e, w')
    end.

Definition is_JSONDecodeError (e : Exception) : bool :=
  match e with
  | JSONDecodeError _ => true
  | _ => false
  end.

Definition gets {A} (f : World -> A) : M A := fun w => (Ok (f w), w).

Definition get_obj (ref : nat) : M Run.t := gets (fun w => heap w ref).

(** Mutation of the object behind [ref]. *)
Definition modify_obj (ref : nat) (f : Run.t -> Run.t) : M unit := fun w =>
  (Ok tt,
   mkWorld (fun l => if Nat.eqb l ref then f (heap w l) else heap w l)
           (next_ref w) (_runs_cache w) (files w)
           (clock_reads w) (uuid_draws w) (llm_calls w) (io_ops w) (saved w)).

(** A new object. *)
Definition alloc (r : Run.t) : M nat := fun w =>
  (Ok (next_ref w),
   mkWorld (fun l => if Nat.eqb l (next_ref w) then r else heap w l)
           (S (next_ref w)) (_runs_cache w) (files w)
           (clock_reads w) (uuid_draws w) (llm_calls w) (io_ops w) (saved w)).

Definition cache_put (key : string) (ref : nat) : M unit := fun w =>
  (Ok tt,
   mkWorld (heap w) (next_ref w) (<[key := ref]> (_runs_cache w))
           (files w) (clock_reads w) (uuid_draws w) (llm_calls w) (io_ops w)
           (saved w)).

Definition put_file (path content : string) : M unit := fun w =>
  (Ok tt,
   mkWorld (heap w) (next_ref w) (_runs_cache w)
           (<[path := content]> (files w)) (clock_reads w) (uuid_draws w)
           (llm_calls w) (io_ops w) (saved w)).

Definition note_saved (call : string * string * string) : M unit := fun w =>
  (Ok tt,
   mkWorld (heap w) (next_ref w) (_runs_cache w) (files w)
           (clock_reads w) (uuid_draws w) (llm_calls w) (io_ops w)
           (saved w ++ [call])).

Definition tick_clock : M nat := fun w =>
  (Ok (clock_reads w),
   mkWorld (heap w) (next_ref w) (_runs_cache w) (files w)
           (S (clock_reads w)) (uuid_draws w) (llm_calls w) (io_ops w) (saved w)).

Definition tick_uuid : M nat := fun w =>
  (Ok (uuid_draws w),
   mkWorld (heap w) (next_ref w) (_runs_cache w) (files w)
           (clock_reads w) (S (uuid_draws w)) (llm_calls w) (io_ops w) (saved w)).

Definition tick_llm : M nat := fun w =>
  (Ok (llm_calls w),
   mkWorld (heap w) (next_ref w) (_runs_cache w) (files w)
           (clock_reads w) (uuid_draws w) (S (llm_calls w)) (io_ops w) (saved w)).

Definition tick_io : M nat := fun w =>
  (Ok (io_ops w),
   mkWorld (heap w) (next_ref w) (_runs_cache w) (files w)
           (clock_reads w) (uuid_draws w) (llm_calls w) (S (io_ops w)) (saved w)).

(** [str(n)] for an [int]. *)
Definition str_int (n : Z) : string := NilZero.string_of_int (Z.to_int n).

(** [s.upper()] for a text of ASCII; a character beyond the letters a-z
    is left as it is. *)
Definition upper (s : string) : string :=
  text (map PyStr.upper_char (chars s)).

Definition newline : string := String (ascii_of_nat 10) EmptyString.

(** [Path(s)]: the empty path is the current directory. *)
Definition Path (s : string) : string :=
  if String.eqb s EmptyString then "." else s.

Section Core.

Context (D : Deps) (E : Env).

(** [datetime.utcnow()] and [str(uuid4())] *)
Definition utcnow : M datetime := n ← tick_clock; mret (utcnow_at E n).
Definition uuid4 : M string := n ← tick_uuid; mret (uuid4_at E n).

(** ** Methods of [Run], on the object behind [self] *)

Definition add_message (self : nat) (role : AgentRole) (content : string)
    (step : Z) (metadata : option (list (string * JSON))) : M Message.t :=
  id ← uuid4;
  timestamp ← utcnow;
  let message := Message.mk id role content timestamp step (default [] metadata) in
  modify_obj self (fun r => Run.set_messages (Run.messages r ++ [message]) r);;
  now ← utcnow;
  modify_obj self (Run.set_updated_at now);;
  mret message.

Definition update_status (self : nat) (status : RunStatus) : M unit :=
  modify_obj self (Run.set_status status);;
  now ← utcnow;
  modify_obj self (Run.set_updated_at now);;
  if decide (status = COMPLETED) then
    now ← utcnow;
    modify_obj self (Run.set_completed_at (Some now))
  else mret tt.

Definition set_artifact_path (self : nat) (artifact_type path : string) : M unit :=
  modify_obj self (fun r => Run.set_artifacts (dict_set (Run.artifacts r) artifact_type path) r);;
  now ← utcnow;
  modify_obj self (Run.set_updated_at now).

(** ** [StorageService], [backend/services/storage.py] *)

(** [open(path, 'w')] followed by the write: the current directory
    cannot be opened; otherwise the environment decides. *)
Definition write_file (path content : string) : M unit :=
  if String.eqb path "." then raise (OSError "Is a directory")
  else
    n ← tick_io;
    match io_at E n with
    | IoOk => put_file path content
    | IoError truncated =>
        (if truncated then put_file path EmptyString else mret tt);;
        raise (OSError "write failed")
    end.

Definition run_path (run_id : string) : string :=
  runs_dir E +:+ "/" +:+ run_id +:+ "/run.json".

(** [_save_run]: the run is serialized and written to its [run.json]. *)
Definition _save_run (run : nat) : M unit :=
  r ← get_obj run;
  write_file (run_path (Run.id r)) (encode_run D r).

(** [Run(idea=idea)] draws the id and the two time stamps; the five
    artifact paths are set and the run is saved.  The new object is not
    put into the cache. *)
Definition create_run (idea : string) : M nat :=
  id ← uuid4;
  created_at ← utcnow;
  updated_at ← utcnow;
  run ← alloc (Run.mk id idea PENDING created_at updated_at None [] [] [] [] []);
  let run_dir := runs_dir E +:+ "/" +:+ id in
  set_artifact_path run "prd_markdown" (run_dir +:+ "/PRD.md");;
  set_artifact_path run "prd_pdf" (run_dir +:+ "/PRD.pdf");;
  set_artifact_path run "conversation" (run_dir +:+ "/conversation.json");;
  set_artifact_path run "mockup_json" (run_dir +:+ "/mockup.json");;
  set_artifact_path run "bundle" (run_dir +:+ "/bundle.zip");;
  _save_run run;;
  mret run.

(** The cache first, then [run.json]: a file that decodes becomes a new
    object, which is cached; a missing file or one that does not decode
    gives [None]. *)
Definition get_run (run_id : string) : M (option nat) :=
  cache ← gets _runs_cache;
  match cache !! run_id with
  | Some run => mret (Some run)
  | None =>
      disk ← gets files;
      match disk !! run_path run_id with
      | None => mret None
      | Some data =>
          match decode_run D data with
          | Some r =>
              run ← alloc r;
              cache_put run_id run;;
              mret (Some run)
          | None => mret None
          end
      end
  end.

(** Whatever [_save_run] raises is caught and turned into [False]. *)
Definition update_run (run : nat) : M bool :=
  try_except
    (_save_run run;;
     r ← get_obj run;
     cache_put (Run.id r) run;;
     mret true)
    (fun e => mret false).

(** The first step records the call in [saved].  A [Path] is never
    falsy, so the test [if not artifact_path] of the source never
    returns.  Only the type [conversation] is parsed and printed again;
    every other content is written as it is. *)
Definition save_artifact (run_id artifact_type content : string) : M bool :=
  note_saved (run_id, artifact_type, content);;
  run ← get_run run_id;
  match run with
  | None => mret false
  | Some run =>
      r ← get_obj run;
      let artifact_path := Path (Run.get_artifact_path r artifact_type) in
      try_except
        ((if String.eqb artifact_type "conversation" then
            match json_loads D content with
            | Ok data => write_file artifact_path (json_dumps D (Some 2%nat) data)
            | Raise e => raise e
            end
          else write_file artifact_path content);;
         mret true)
        (fun e => mret false)
  end.

(** [pdf_generator.generate_from_markdown]: the renderer leaves files
    and reports success or failure; it never raises. *)
Definition generate_from_markdown (markdown_content output_path : string) : M bool :=
  n ← tick_io;
  let rendering := render_at E n markdown_content output_path in
  foldr (fun f k => put_file f.1 f.2;; k) (mret tt) (render_files rendering);;
  mret (render_ok rendering).

(** ** [Orchestrator], [core/orchestration.py] *)

Record Orchestrator := { llm_client : LLMClient }.

Context (self : Orchestrator).

(** [await self.llm_client.generate(prompt, agent_name)] *)
Definition llm_generate (prompt agent_name : string) : M string :=
  n ← tick_llm;
  match LLMClient.generate (llm_client self) n prompt agent_name with
  | Ok response => mret response
  | Raise e => raise e
  end.

(** [settings.max_strategist_questions] *)
Definition max_strategist_questions : Z := 5.

Definition prompt_metadata (agent prompt : string) : option (list (string * JSON)) :=
  Some [("agent", JStr agent); ("prompt_length", JInt (Z.of_nat (String.length prompt)))].

(** [[m for m in run.messages if m.role == role][-1].content], or
    the empty string when there is none. *)
Definition last_content (role : AgentRole) (messages : list Message.t) : string :=
  match last (filter (fun m => Message.role m = role) messages) with
  | Some m => Message.content m
  | None => EmptyString
  end.

Definition _run_strategist (run : nat) : M unit :=
  r ← get_obj run;
  let prompt := get_agent_prompt D "strategist"
    [("idea", PStr (Run.idea r)); ("max_questions", PInt max_strategist_questions)] in
  response ← llm_generate prompt "strategist";
  add_message run STRATEGIST response 1 (prompt_metadata "strategist" prompt);;
  update_run run;;
  mret tt.

Definition json_of_answers (answers : list (string * string)) : JSON :=
  JDict (map (fun kv => (kv.1, JStr kv.2)) answers).

Definition _run_architect (run : nat) : M unit :=
  r ← get_obj run;
  let strategist_analysis := last_content STRATEGIST (Run.messages r) in
  let prompt := get_agent_prompt D "architect"
    [("idea", PStr (Run.idea r));
     ("strategist_analysis", PStr strategist_analysis);
     ("user_answers", PStr (json_dumps D None (json_of_answers (Run.user_answers r))))] in
  response ← llm_generate prompt "architect";
  add_message run ARCHITECT response 2 (prompt_metadata "architect" prompt);;
  update_run run;;
  mret tt.

Definition _run_ux_writer (run : nat) : M unit :=
  r ← get_obj run;
  let architect_analysis := last_content ARCHITECT (Run.messages r) in
  let prompt := get_agent_prompt D "ux_writer"
    [("idea", PStr (Run.idea r));
     ("architect_analysis", PStr architect_analysis)] in
  response ← llm_generate prompt "ux_writer";
  add_message run UX_WRITER response 3 (prompt_metadata "ux_writer" prompt);;
  update_run run;;
  mret tt.

Definition _run_mockup_designer (run : nat) : M unit :=
  r ← get_obj run;
  let ux_writer_analysis := last_content UX_WRITER (Run.messages r) in
  let architect_analysis := last_content ARCHITECT (Run.messages r) in
  let prompt := get_agent_prompt D "mockup_designer"
    [("idea", PStr (Run.idea r));
     ("architect_analysis", PStr architect_analysis);
     ("ux_writer_analysis", PStr ux_writer_analysis)] in
  response ← llm_generate prompt "mockup_designer";
  add_message run MOCKUP_DESIGNER response 4 (prompt_metadata "mockup_designer" prompt);;
  try_except_class is_JSONDecodeError
    (mockup_data ← match json_loads D response with
                   | Ok v => mret v
                   | Raise e => raise e
                   end;
     save_artifact (Run.id r) "mockup_json" (json_dumps D (Some 2%nat) mockup_data))
    (fun e => save_artifact (Run.id r) "mockup_json" response);;
  update_run run;;
  mret tt.

Definition _format_conversation_history (run : nat) : M string :=
  r ← get_obj run;
  let lines := flat_map (fun message =>
    ["=== " +:+ upper (AgentRole_value (Message.role message))
       +:+ " (Step " +:+ str_int (Message.step message) +:+ ") ===";
     Message.content message;
     EmptyString]) (Run.messages r) in
  mret (String.concat newline lines).

Definition _generate_pdf (run : nat) (prd_content : string) : M unit :=
  try_except
    (r ← get_obj run;
     let pdf_path := Run.get_artifact_path r "prd_pdf" in
     if String.eqb pdf_path EmptyString then mret tt
     else generate_from_markdown prd_content pdf_path;; mret tt)
    (fun e => mret tt).

Definition _run_synthesizer (run : nat) : M unit :=
  conversation_history ← _format_conversation_history run;
  let prd_template := get_prd_template D in
  let prompt := get_agent_prompt D "synthesizer"
    [("conversation_history", PStr conversation_history);
     ("prd_template", PStr prd_template)] in
  response ← llm_generate prompt "synthesizer";
  add_message run SYNTHESIZER response 5 (prompt_metadata "synthesizer" prompt);;
  r ← get_obj run;
  save_artifact (Run.id r) "prd_markdown" response;;
  _generate_pdf run response;;
  update_run run;;
  mret tt.

Definition json_of_message (msg : Message.t) : JSON :=
  JDict [("id", JStr (Message.id msg));
         ("role", JStr (AgentRole_value (Message.role msg)));
         ("content", JStr (Message.content msg));
         ("timestamp", JStr (isoformat D (Message.timestamp msg)));
         ("step", JInt (Message.step msg));
         ("metadata", JDict (Message.metadata msg))].

Definition conversation_data (r : Run.t) : JSON :=
  JDict [("run_id", JStr (Run.id r));
         ("idea", JStr (Run.idea r));
         ("status", JStr (RunStatus_value (Run.status r)));
         ("created_at", JStr (isoformat D (Run.created_at r)));
         ("completed_at", match Run.completed_at r with
                          | Some t => JStr (isoformat D t)
                          | None => JNull
                          end);
         ("messages", JList (map json_of_message (Run.messages r)));
         ("user_answers", json_of_answers (Run.user_answers r));
         ("assumptions", JList (map JStr (Run.assumptions r)));
         ("artifacts", json_of_answers (Run.artifacts r))].

Definition _save_conversation_artifact (run : nat) : M unit :=
  r ← get_obj run;
  save_artifact (Run.id r) "conversation"
    (json_dumps D (Some 2%nat) (conversation_data r));;
  mret tt.

(** The five stages and the closing steps: the body of the [try]. *)
Definition run_agents_body (run : nat) : M nat :=
  _run_strategist run;;
  _run_architect run;;
  _run_ux_writer run;;
  _run_mockup_designer run;;
  _run_synthesizer run;;
  update_status run COMPLETED;;
  update_run run;;
  _save_conversation_artifact run;;
  mret run.

(** [run_agents]: the result is the reference to the run. *)
Definition run_agents (run_id : string) : M nat :=
  run ← get_run run_id;
  match run with
  | None => raise (ValueError ("Run not found: " +:+ run_id))
  | Some run =>
      update_status run RUNNING;;
      update_run run;;
      try_except
        (run_agents_body run)
        (fun e =>
           update_status run FAILED;;
           update_run run;;
           raise e)
  end.

End Core.

(** ** The keyword table of the specification

    The four keyword sets in their priority order, the six placeholder
    tokens, and the phrases of each domain. *)

Inductive Domain := Fitness | Finance | Meditation | Productivity | Generic.

Global Instance Domain_eq_dec : EqDecision Domain.
Proof. solve_decision. Defined.

Definition keywords (d : Domain) : list string :=
  match d with
  | Fitness => ["fitness"; "workout"; "exercise"; "gym"]
  | Finance => ["finance"; "budget"; "money"; "investment"; "banking"]
  | Meditation => ["meditation"; "mindfulness"; "relax"; "stress"; "mental"]
  | Productivity => ["productivity"; "task"; "todo"; "schedule"; "project"; "team"]
  | Generic => []
  end.

Definition tokens : list string :=
  ["[problem domain]"; "[main use case]"; "[item]"; "[Item]"; "[Product]";
   "[Product Name]"].

(** The phrase of each token, in the order of [tokens]. *)
Definition phrases (d : Domain) : list string :=
  match d with
  | Fitness =>
      ["fitness tracking"; "workout planning"; "workout"; "Workout";
       "Fitness Tracker"; "Fitness Tracker"]
  | Finance =>
      ["personal finance management"; "budget tracking"; "transaction";
       "Transaction"; "Finance Manager"; "Finance Manager"]
  | Meditation =>
      ["stress management and mental wellness"; "meditation practice";
       "meditation session"; "Meditation Session"; "Mindfulness App";
       "Mindfulness App"]
  | Productivity =>
      ["task management and productivity"; "task organization"; "task";
       "Task"; "Productivity Manager"; "Productivity Manager"]
  | Generic =>
      ["the problem domain"; "the main use case"; "item"; "Item"; "Product";
       "Product Name"]
  end.

(** First match wins, in the priority order; no match is [Generic]. *)
Definition detect_domain (prompt : string) : Domain :=
  default Generic
    (List.find (fun d => any_keyword_in (keywords d) prompt)
               [Fitness; Finance; Meditation; Productivity]).

(** Substitute the tokens one after the other by the domain's phrases. *)
Definition substitute (d : Domain) (response : string) : string :=
  fold_left (fun r tp => replace r tp.1 tp.2) (zip tokens (phrases d)) response.

Definition keyword_substitution (response prompt : string) : string :=
  substitute (detect_domain prompt) response.

(** [l = m ++ [b]] *)
Fixpoint unsnoc (l : list ascii) : option (list ascii * ascii) :=
  match l with
  | [] => None
  | a :: l' =>
      match unsnoc l' with
      | Some (m, b) => Some (a :: m, b)
      | None => Some ([], a)
      end
  end.

(** [new] cannot be part of an occurrence of the token [t]: it holds
    neither the first nor the last character of [t], and does not occur
    in [t]. *)
Definition inert (new t : list ascii) : bool :=
  match t with
  | [] => false
  | h :: t' =>
      match unsnoc t' with
      | None => false
      | Some (m, b) =>
          negb (PyStr.has_char h new) && negb (PyStr.has_char b new)
          && negb (PyStr.find_in new (h :: m))
      end
  end.

(** Some replacement of the sequence removes [t], and no later one can
    bring it back. *)
Fixpoint cleans (reps : list (list ascii * list ascii)) (t : list ascii) : bool :=
  match reps with
  | [] => false
  | r :: rest =>
      (bool_decide (r.1 = t) && inert r.2 t
       && forallb (fun r' => negb (bool_decide (r'.1 = [])) && inert r'.2 t) rest)
      || cleans rest t
  end.

(** The replacements of a sequence, one after the other. *)
Definition replace_all (reps : list (list ascii * list ascii)) (s : list ascii)
  : list ascii :=
  fold_left (fun s r => PyStr.replace_chars r.1 r.2 s) reps s.

(** [old] and [x] differ at a position that both have. *)
Fixpoint clash (old x : list ascii) : bool :=
  match old, x with
  | a :: old', b :: x' => negb (Ascii.eqb a b) || clash old' x'
  | _, _ => false
  end.

(** No occurrence of [old] can overlap an occurrence of [old]: its first
    character does not come again. *)
Definition self_solid (old : list ascii) : bool :=
  match old with
  | [] => false
  | h :: old' => negb (PyStr.has_char h old')
  end.

(** No occurrence of [old] can overlap the segment [x] of a text: [x] is
    a phrase that cannot be part of [old], or another token. *)
Definition solid (old x : list ascii) : bool :=
  inert x old
  || match old, x with
     | h :: old', h' :: x' =>
         clash old x && negb (PyStr.has_char h x') && negb (PyStr.has_char h' old')
     | _, _ => false
     end.

(** What the segment [x] of a text has become after the replacements,
    when none of them can overlap it except by replacing it as a whole. *)
Fixpoint carried (reps : list (list ascii * list ascii)) (x : list ascii)
  : option (list ascii) :=
  match reps with
  | [] => Some x
  | r :: rest =>
      if bool_decide (r.1 = x)
      then (if self_solid r.1 then carried rest r.2 else None)
      else (if solid r.1 x then carried rest x else None)
  end.

(** No occurrence of [old] begins inside the segment [x]. *)
Definition no_start_inside (old x : list ascii) : Prop :=
  forall p c x' b, x = p ++ c :: x' -> PyStr.starts_with old (c :: x' ++ b) = false.

(** No occurrence of [old] begins before the segment [x] and ends in it
    or after it. *)
Definition no_reach_into (old x : list ascii) : Prop :=
  forall a b, a <> [] -> length a < length old ->
    PyStr.starts_with old (a ++ x ++ b) = false.

(** ** Relations between program states *)

(** [w'] comes from [w] by steps that leave every existing object and
    the count of generation calls as they are, and the object [l] under
    the keys it has in the cache. *)
Definition keeps (l : nat) (w w' : World) : Prop :=
  next_ref w <= next_ref w'
  /\ (forall l', l' < next_ref w -> heap w' l' = heap w l')
  /\ llm_calls w' = llm_calls w
  /\ (forall key, _runs_cache w !! key = Some l -> _runs_cache w' !! key = Some l).

(** Every reference in the cache is to an object of the heap. *)
Definition cache_valid (w : World) : Prop :=
  forall run_id l, _runs_cache w !! run_id = Some l -> l < next_ref w.

(** [r'] is [r] with the message [m] appended, some time later. *)
Definition appended (m : Message.t) (r r' : Run.t) : Prop :=
  exists now, r' = Run.set_updated_at now (Run.set_messages (Run.messages r ++ [m]) r).

(** The object [l] exists and is the one the cache holds under [key],
    [c] generation calls were made, and [lg] is the list of artifacts
    handed to the store. *)
Definition at_obj (key : string) (l : nat) (w : World) (c : nat)
    (lg : list (string * string * string)) : Prop :=
  l < next_ref w /\ llm_calls w = c /\ saved w = lg
  /\ _runs_cache w !! key = Some l.

(** What stage 4 hands to the store for a response. *)
Definition mockup_payload (D : Deps) (response : string) : string :=
  match json_loads D response with
  | Ok mockup_data => json_dumps D (Some 2%nat) mockup_data
  | Raise e => response
  end.

(** The exception that leaves the [try] of stage 4 for a response: what
    [json.loads] raises there, unless it is a [JSONDecodeError], the one
    class that the [except] clause names. *)
Definition parse_escapes (D : Deps) (response : string) : option Exception :=
  match json_loads D response with
  | Ok mockup_data => None
  | Raise e => if is_JSONDecodeError e then None else Some e
  end.

(** Every text that the generation call number [n] can return is parsed,
    or refused with a [JSONDecodeError]. *)
Definition parse_is_handled (D : Deps) (client : LLMClient) (n : nat) : Prop :=
  forall prompt agent_name response,
    LLMClient.generate client n prompt agent_name = Ok response ->
    parse_escapes D response = None.

(** The generation calls number [from], ..., [from + n - 1] return,
    whatever the prompt and the agent. *)
Definition generation_succeeds (client : LLMClient) (from n : nat) : Prop :=
  forall k, k < n -> forall prompt agent_name,
    exists response, LLMClient.generate client (k + from) prompt agent_name = Ok response.

(** The message [m] is the one of the stage [role], numbered [step]. *)
Definition stage_message (role : AgentRole) (step : Z) (m : Message.t) : Prop :=
  Message.role m = role /\ Message.step m = step.

(** The response of the remote service, when it gave one: the content
    of the last message of the chat with [user_proxy]. *)
Definition remote_response (autogen : AutoGenLLMClient.AutoGen)
  : option AutoGenLLMClient.PyObject :=
  match autogen with
  | AutoGenLLMClient.ChatMessages chat_messages =>
      messages ← dict_get chat_messages "user_proxy";
      message ← last messages;
      dict_get message "content"
  | _ => None
  end.

(** A text that the stub client returns, as the value that the AutoGen
    client returns for it. *)
Definition as_object (r : Result string) : Result AutoGenLLMClient.PyObject :=
  match r with
  | Ok response => Ok (AutoGenLLMClient.PyText response)
  | Raise e => Raise e
  end.

(** ** Sample inputs *)

Definition render_context (context : list (string * PyVal)) : string :=
  String.concat "; "
    (map (fun kv => kv.1 +:+ "=" +:+ match kv.2 with
                                      | PStr s => s
                                      | PInt n => str_int n
                                      end) context).

Definition sample_deps : Deps := {|
  get_agent_prompt := fun stage context =>
    "You are the " +:+ stage +:+ ". " +:+ render_context context;
  get_prd_template := "# PRD for [Product Name]";
  get_stub_response := fun agent_name =>
    "[Product]: notes of the " +:+ agent_name +:+ " on [problem domain]";
  encode_run := fun r => "run:" +:+ Run.id r;
  decode_run := fun _ => None;
  json_loads := fun s => if String.eqb s "{}" then Ok (JDict [])
                         else Raise (JSONDecodeError "Expecting value");
  json_dumps := fun _ v => match v with
                           | JDict [] => "{}"
                           | _ => "{...}"
                           end;
  isoformat := str_int
|}.

Definition sample_env (io : nat -> IOResult) : Env := {|
  utcnow_at := fun n => (1000 + Z.of_nat n)%Z;
  uuid4_at := fun n => "uuid-" +:+ str_int (Z.of_nat n);
  io_at := io;
  render_at := fun _ _ path =>
    {| render_ok := true; render_files := [(path, "%PDF")] |};
  runs_dir := "data/runs"
|}.

(** A client that answers from a list, as the [AsyncMock] of the tests
    with its [side_effect]. *)
Definition mock_client (side_effect : list (Result string)) : LLMClient :=
  LLMClient.mk (fun n _ _ =>
    default (Raise (OtherError "StopAsyncIteration" EmptyString)) (side_effect !! n)).

Definition sample_artifacts : list (string * string) :=
  [("prd_markdown", "data/runs/run-1/PRD.md");
   ("prd_pdf", "data/runs/run-1/PRD.pdf");
   ("conversation", "data/runs/run-1/conversation.json");
   ("mockup_json", "data/runs/run-1/mockup.json");
   ("bundle", "data/runs/run-1/bundle.zip")].

(** A run as [create_run] leaves it. *)
Definition pending_run : Run.t :=
  Run.mk "run-1" "fitness app" PENDING 10%Z 10%Z None [] [] [] sample_artifacts [].

(** A run that completed at time 50 with one message on record. *)
Definition completed_run : Run.t :=
  Run.mk "run-1" "fitness app" COMPLETED 10%Z 50%Z (Some 50%Z)
    [Message.mk "m-1" SYNTHESIZER "# PRD" 49%Z 5%Z []] [] [] sample_artifacts [].

(** The store with one run in its cache. *)
Definition world_with (r : Run.t) : World :=
  mkWorld (fun _ => r) 1 {[ Run.id r := 0 ]} ∅ 0 0 0 0 [].

(** The store without any run. *)
Definition empty_world : World :=
  mkWorld (fun _ => pending_run) 0 ∅ ∅ 0 0 0 0 [].

Definition five_responses : list (Result string) :=
  [Ok "Strategist response"; Ok "Architect response"; Ok "UX Writer response";
   Ok "{}"; Ok "# Test PRD"].

Definition failing_third : list (Result string) :=
  [Ok "Strategist response"; Ok "Architect response";
   Raise (OtherError "RuntimeError" "backend raised")].

Definition sample_orchestrator (side_effect : list (Result string)) : Orchestrator :=
  {| llm_client := mock_client side_effect |}.

(** ** Further sample inputs *)

(** A codec whose files all decode to the given run. *)
Definition fixed_codec (r : Run.t) : Deps := {|
  get_agent_prompt := get_agent_prompt sample_deps;
  get_prd_template := get_prd_template sample_deps;
  get_stub_response := get_stub_response sample_deps;
  encode_run := fun r => "run:" +:+ Run.id r;
  decode_run := fun _ => Some r;
  json_loads := json_loads sample_deps;
  json_dumps := json_dumps sample_deps;
  isoformat := isoformat sample_deps
|}.

(** A text of [n] times the digit 1. *)
Definition ones (n : nat) : string := text (repeat "1"%char n).

Definition is_digit (c : ascii) : bool :=
  let n := nat_of_ascii c in (48 <=? n)%nat && (n <=? 57)%nat.

(** The text of an integer of more than 4300 digits: digits only, the
    first of them not 0. *)
Definition is_long_integer (s : string) : bool :=
  forallb is_digit (chars s)
  && match chars s with
     | c :: _ => negb (Ascii.eqb c "0"%char)
     | [] => false
     end
  && (4300 <? length (chars s))%nat.

(** The message of the [ValueError] that [int] raises for a text of [n]
    digits, more than the limit. *)
Definition digits_limit_message (n : nat) : string :=
  "Exceeds the limit (4300 digits) for integer string conversion: value has "
  +:+ str_int (Z.of_nat n)
  +:+ " digits; use sys.set_int_max_str_digits() to increase the limit".

(** The codec of the samples with the limit that [json.loads] puts on
    integers: the text of an integer of more than 4300 digits is
    refused with a plain [ValueError], any other text that is not JSON
    with a [JSONDecodeError]. *)
Definition limited_codec : Deps := {|
  get_agent_prompt := get_agent_prompt sample_deps;
  get_prd_template := get_prd_template sample_deps;
  get_stub_response := get_stub_response sample_deps;
  encode_run := encode_run sample_deps;
  decode_run := decode_run sample_deps;
  json_loads := fun s =>
    if String.eqb s "{}" then Ok (JDict [])
    else if is_long_integer s
    then Raise (ValueError (digits_limit_message (length (chars s))))
    else Raise (JSONDecodeError "Expecting value");
  json_dumps := json_dumps sample_deps;
  isoformat := isoformat sample_deps
|}.

(** Five answers, the fourth an integer of 4301 digits. *)
Definition long_integer_fourth : list (Result string) :=
  [Ok "Strategist response"; Ok "Architect response"; Ok "UX Writer response";
   Ok (ones 4301); Ok "# Test PRD"].

(** [run_agents] on the run of the samples with these answers. *)
Definition long_integer_run : Result nat * World :=
  run_agents limited_codec (sample_env (fun _ => IoOk))
    (sample_orchestrator long_integer_fourth) "run-1" (world_with pending_run).

(** The run that [create_run] makes in the empty store of the samples. *)
Definition created_run : Run.t :=
  Run.mk "uuid-0" "fitness app" PENDING 1000%Z 1006%Z None [] [] []
    [("prd_markdown", "data/runs/uuid-0/PRD.md");
     ("prd_pdf", "data/runs/uuid-0/PRD.pdf");
     ("conversation", "data/runs/uuid-0/conversation.json");
     ("mockup_json", "data/runs/uuid-0/mockup.json");
     ("bundle", "data/runs/uuid-0/bundle.zip")] [].

(** ** Further relations between program states *)

(** The attributes that no method of [Run] assigns. *)
Definition same_fixed_fields (r r' : Run.t) : Prop :=
  Run.id r' = Run.id r /\ Run.idea r' = Run.idea r
  /\ Run.created_at r' = Run.created_at r
  /\ Run.user_answers r' = Run.user_answers r
  /\ Run.assumptions r' = Run.assumptions r
  /\ Run.metadata r' = Run.metadata r.

(** The store knows no run of this id: none is cached, and its
    [run.json] is missing or does not decode. *)
Definition unknown_run (D : Deps) (E : Env) (run_id : string) (w : World) : Prop :=
  _runs_cache w !! run_id = None
  /\ (files w !! run_path E run_id ≫= decode_run D) = None.

(** The disk, the objects and the cache are the same in both states. *)
Definition same_store (w w' : World) : Prop :=
  files w' = files w /\ heap w' = heap w /\ _runs_cache w' = _runs_cache w.

(** ** The stages of the pipeline, [core/orchestration.py]

    The prompt that each stage function builds from the run it is
    given, and the transcript that the last stage hands over. *)

Definition strategist_prompt (D : Deps) (r : Run.t) : string :=
  get_agent_prompt D "strategist"
    [("idea", PStr (Run.idea r)); ("max_questions", PInt max_strategist_questions)].

Definition architect_prompt (D : Deps) (r : Run.t) : string :=
  get_agent_prompt D "architect"
    [("idea", PStr (Run.idea r));
     ("strategist_analysis", PStr (last_content STRATEGIST (Run.messages r)));
     ("user_answers", PStr (json_dumps D None (json_of_answers (Run.user_answers r))))].

Definition ux_writer_prompt (D : Deps) (r : Run.t) : string :=
  get_agent_prompt D "ux_writer"
    [("idea", PStr (Run.idea r));
     ("architect_analysis", PStr (last_content ARCHITECT (Run.messages r)))].

Definition mockup_designer_prompt (D : Deps) (r : Run.t) : string :=
  get_agent_prompt D "mockup_designer"
    [("idea", PStr (Run.idea r));
     ("architect_analysis", PStr (last_content ARCHITECT (Run.messages r)));
     ("ux_writer_analysis", PStr (last_content UX_WRITER (Run.messages r)))].

(** The lines of [_format_conversation_history], joined. *)
Definition transcript (messages : list Message.t) : string :=
  String.concat newline
    (flat_map (fun message =>
       ["=== " +:+ upper (AgentRole_value (Message.role message))
          +:+ " (Step " +:+ str_int (Message.step message) +:+ ") ===";
        Message.content message;
        EmptyString]) messages).

Definition synthesizer_prompt (D : Deps) (r : Run.t) : string :=
  get_agent_prompt D "synthesizer"
    [("conversation_history", PStr (transcript (Run.messages r)));
     ("prd_template", PStr (get_prd_template D))].

(** A stage: the role and the step of its message, the agent name it
    generates under, its prompt, the exception that it raises for a
    response after it has appended the message, if any, and its
    function. *)
Record Stage := mkStage {
  stage_role : AgentRole;
  stage_step : Z;
  stage_agent : string;
  stage_prompt : Run.t -> string;
  stage_after : string -> option Exception;
  stage_run : nat -> M unit
}.

(** The five stages in the order in which [run_agents] calls them.
    Stage 4 alone can raise once its message is appended: what
    [json.loads] raises there and the [except] clause lets through. *)
Definition stages (D : Deps) (E : Env) (self : Orchestrator) : list Stage :=
  [mkStage STRATEGIST 1 "strategist" (strategist_prompt D) (fun _ => None)
     (_run_strategist D E self);
   mkStage ARCHITECT 2 "architect" (architect_prompt D) (fun _ => None)
     (_run_architect D E self);
   mkStage UX_WRITER 3 "ux_writer" (ux_writer_prompt D) (fun _ => None)
     (_run_ux_writer D E self);
   mkStage MOCKUP_DESIGNER 4 "mockup_designer" (mockup_designer_prompt D)
     (parse_escapes D) (_run_mockup_designer D E self);
   mkStage SYNTHESIZER 5 "synthesizer" (synthesizer_prompt D) (fun _ => None)
     (_run_synthesizer D E self)].

(** The five stage calls of the [try] block of [run_agents], in order. *)
Definition run_stages (D : Deps) (E : Env) (self : Orchestrator) (run : nat) : M unit :=
  _run_strategist D E self run;;
  _run_architect D E self run;;
  _run_ux_writer D E self run;;
  _run_mockup_designer D E self run;;
  _run_synthesizer D E self run;;
  mret tt.

(** The steps of [run_agents] after the five stages. *)
Definition closing_steps (D : Deps) (E : Env) (run : nat) : M nat :=
  update_status E run COMPLETED;;
  update_run D E run;;
  _save_conversation_artifact D E run;;
  mret run.

(** How a sequence of stages ends: every stage returned, a generation
    call raised, or a stage raised after it had appended its message. *)
Inductive Ending :=
| Finished
| CallRaised (e : Exception)
| StepRaised (e : Exception).

(** The number of generation calls behind the messages [new] of a
    sequence that ended with [res]. *)
Definition calls_made (new : list Message.t) (res : Ending) : nat :=
  match res with
  | CallRaised e => S (length new)
  | _ => length new
  end.

(** The generation calls of a sequence of stages, from the call number
    [c] and the run [r] on: each call that returns appends its response
    as the stage's message; the sequence ends with the first call that
    raises, or with the first stage that raises for its response.
    [new] are the messages appended, [res] is the ending. *)
Inductive stages_trace (client : LLMClient)
  : list Stage -> nat -> Run.t -> list Message.t -> Ending -> Prop :=
| trace_done (c : nat) (r : Run.t) : stages_trace client [] c r [] Finished
| trace_raise (st : Stage) (sts : list Stage) (c : nat) (r : Run.t) (e : Exception) :
    LLMClient.generate client c (stage_prompt st r) (stage_agent st) = Raise e ->
    stages_trace client (st :: sts) c r [] (CallRaised e)
| trace_abort (st : Stage) (sts : list Stage) (c : nat) (r r' : Run.t) (m : Message.t)
    (e : Exception) :
    LLMClient.generate client c (stage_prompt st r) (stage_agent st)
      = Ok (Message.content m) ->
    Message.role m = stage_role st ->
    Message.step m = stage_step st ->
    appended m r r' ->
    stage_after st (Message.content m) = Some e ->
    stages_trace client (st :: sts) c r [m] (StepRaised e)
| trace_step (st : Stage) (sts : list Stage) (c : nat) (r r' : Run.t) (m : Message.t)
    (new : list Message.t) (res : Ending) :
    LLMClient.generate client c (stage_prompt st r) (stage_agent st)
      = Ok (Message.content m) ->
    Message.role m = stage_role st ->
    Message.step m = stage_step st ->
    appended m r r' ->
    stage_after st (Message.content m) = None ->
    stages_trace client sts (S c) r' new res ->
    stages_trace client (st :: sts) c r (m :: new) res.

(** What a stage function does with the followed object [l]: it makes
    one generation call with the stage's prompt; a response becomes the
    stage's message, after which the stage returns or raises as
    [stage_after] says; an exception of the call leaves the stage at
    once. *)
Definition stage_spec (key : string) (self : Orchestrator) (st : Stage) : Prop :=
  forall l w c lg, at_obj key l w c lg ->
  exists res w' lg',
    stage_run st l w = (res, w')
    /\ at_obj key l w' (S c) lg'
    /\ match LLMClient.generate (llm_client self) c (stage_prompt st (heap w l))
               (stage_agent st) with
       | Ok response =>
           res = match stage_after st response with
                 | None => Ok tt
                 | Some e => Raise e
                 end
           /\ exists m, appended m (heap w l) (heap w' l)
                /\ Message.role m = stage_role st
                /\ Message.step m = stage_step st
                /\ Message.content m = response
       | Raise e => res = Raise e /\ heap w' l = heap w l
       end.

(** What a message says: its role, its step and its content. *)
Definition said (m : Message.t) : AgentRole * Z * string :=
  (Message.role m, Message.step m, Message.content m).

(** Runs that the stages cannot tell apart: the same idea, the same
    answers of the user, and messages that say the same. *)
Definition alike (r r' : Run.t) : Prop :=
  Run.idea r' = Run.idea r
  /\ Run.user_answers r' = Run.user_answers r
  /\ map said (Run.messages r') = map said (Run.messages r).

(** Stages that make the same generation call on runs that are alike,
    and raise for the same responses. *)
Definition same_calls (st st' : Stage) : Prop :=
  stage_role st' = stage_role st
  /\ stage_step st' = stage_step st
  /\ stage_agent st' = stage_agent st
  /\ stage_after st' = stage_after st
  /\ forall r r', alike r r' -> stage_prompt st' r' = stage_prompt st r.

(** The environment [E] with another disk: the outcomes of the writes
    are those of [io]. *)
Definition with_io (io : nat -> IOResult) (E : Env) : Env := {|
  utcnow_at := utcnow_at E;
  uuid4_at := uuid4_at E;
  io_at := io;
  render_at := render_at E;
  runs_dir := runs_dir E
|}.

(** The block of one message in the transcript: the header line, the
    content, and an empty line. *)
Definition message_block (message : Message.t) : string :=
  "=== " +:+ upper (AgentRole_value (Message.role message))
    +:+ " (Step " +:+ str_int (Message.step message) +:+ ") ==="
    +:+ newline +:+ Message.content message +:+ newline.

(** ** The choice of the client, [core/llm_client.py] and
    [backend/app/core/config.py] *)

Inductive LLMType := STUB | OPENAI | AUTOGEN.

(** The settings that the choice reads, with the defaults of [Settings]. *)
Record Settings := {
  openai_api_key : string;
  agent_seed : Z
}.

Definition default_settings : Settings :=
  {| openai_api_key := "your_openai_api_key_here"; agent_seed := 42 |}.

Inductive ClientClass := IsStubLLMClient | IsAutoGenLLMClient.

(** A client object: its class and the attributes that
    [LLMClient.__init__] sets. *)
Record ClientObject := {
  client_class : ClientClass;
  llm_type : LLMType;
  seed : Z
}.

(** [StubLLMClient(seed)] *)
Definition new_StubLLMClient (seed : Z) : ClientObject :=
  {| client_class := IsStubLLMClient; llm_type := STUB; seed := seed |}.

(** [AutoGenLLMClient(seed)]: the base class is initialised with
    [LLMType.OPENAI]; the constructor raises when [autogen] cannot be
    imported. *)
Definition new_AutoGenLLMClient (autogen_installed : bool) (seed : Z)
  : Result ClientObject :=
  if autogen_installed then
    Ok {| client_class := IsAutoGenLLMClient; llm_type := OPENAI; seed := seed |}
  else Raise (ImportError "AutoGen is not installed. Install with: pip install pyautogen").

(** [get_llm_client]: the AutoGen client when a key other than the
    placeholder is set and the client can be made, the stub otherwise. *)
Definition get_llm_client (settings : Settings) (autogen_installed : bool)
  : ClientObject :=
  if negb (String.eqb (openai_api_key settings) EmptyString)
     && negb (String.eqb (openai_api_key settings) "your_openai_api_key_here")
  then
    match new_AutoGenLLMClient autogen_installed (agent_seed settings) with
    | Ok client => client
    | Raise e => new_StubLLMClient (agent_seed settings)
    end
  else new_StubLLMClient (agent_seed settings).

(** ** Listing the runs, [backend/services/storage.py] *)

(** The place in a list of length [n] that an index of a slice stands
    for: a negative index counts from the end, and both ends are
    clipped. *)
Definition slice_index (n i : Z) : Z :=
  if (i <? 0)%Z then Z.max 0 (i + n) else Z.min i n.

(** [l[start:stop]] *)
Definition py_slice {A} (l : list A) (start stop : Z) : list A :=
  let n := Z.of_nat (length l) in
  let a := slice_index n start in
  let b := slice_index n stop in
  take (Z.to_nat (b - a)) (drop (Z.to_nat a) l).

(** [l.sort(key=key, reverse=True)]: descending by the key, elements
    of equal key in their original order. *)
Fixpoint insert_desc {A} (key : A -> Z) (x : A) (l : list A) : list A :=
  match l with
  | [] => [x]
  | y :: l' => if (key x <? key y)%Z then y :: insert_desc key x l' else x :: l
  end.

Definition sort_desc {A} (key : A -> Z) (l : list A) : list A :=
  foldr (insert_desc key) [] l.

Section ListRuns.

Context (D : Deps) (E : Env).

(** The loop of [list_runs] over the entries of the runs directory,
    each a name with the answer of [is_dir()]: the runs that [get_run]
    finds are appended to [runs]. *)
Fixpoint collect_runs (entries : list (string * bool)) (runs : list nat)
  : M (list nat) :=
  match entries with
  | [] => mret runs
  | (name, is_dir) :: rest =>
      if is_dir then
        run ← get_run D E name;
        match run with
        | Some run => collect_runs rest (runs ++ [run])
        | None => collect_runs rest runs
        end
      else collect_runs rest runs
  end.

(** [list_runs], given what [self.runs_dir.iterdir()] yields: the
    listing of a runs directory that exists, of runs whose creation
    times compare with one another. *)
Definition list_runs (entries : list (string * bool)) (limit offset : Z)
  : M (list nat) :=
  runs ← collect_runs entries [];
  objects ← gets heap;
  let runs := sort_desc (fun r => Run.created_at (objects r)) runs in
  mret (py_slice runs offset (offset + limit)).

End ListRuns.

(** No run of the list is older than a run after it. *)
Fixpoint newest_first (created_at : nat -> Z) (runs : list nat) : Prop :=
  match runs with
  | [] => True
  | r :: rest =>
      Forall (fun r' => (created_at r' <= created_at r)%Z) rest
      /\ newest_first created_at rest
  end.

(** ** Objects that a computation leaves alone *)

(** The computation [c] removes no object and leaves every object that
    exists, other than [l], as it is. *)
Definition others_kept {A} (l : nat) (c : M A) : Prop :=
  forall w,
    next_ref w <= next_ref (c w).2
    /\ forall l', l' < next_ref w -> l' <> l -> heap (c w).2 l' = heap w l'.

(** The store with two runs in its cache. *)
Definition two_runs_world : World :=
  mkWorld (fun l => if Nat.eqb l 0 then pending_run
                    else Run.mk "run-2" "budget app" COMPLETED 20%Z 60%Z (Some 60%Z)
                           [] [] [] [] [])
    2 {[ "run-1" := 0; "run-2" := 1 ]} ∅ 0 0 0 0 [].

(** * Properties *)

(** ** Facts about the string operations *)

Lemma starts_with_nil_r (p : list ascii) :
  PyStr.starts_with p [] = true -> p = [].
Proof. destruct p; [reflexivity | discriminate]. Qed.

Lemma starts_with_find_in (p s : list ascii) :
  PyStr.starts_with p s = true -> PyStr.find_in p s = true.
Proof. intros H. destruct s; simpl; rewrite H; reflexivity. Qed.

Lemma find_in_cons (t : list ascii) (c : ascii) (s : list ascii) :
  PyStr.find_in t s = true -> PyStr.find_in t (c :: s) = true.
Proof. intros H. simpl. rewrite H. apply orb_true_r. Qed.

Lemma find_in_drop (t : list ascii) (k : nat) (s : list ascii) :
  PyStr.find_in t (drop k s) = true -> PyStr.find_in t s = true.
Proof.
  revert s. induction k as [|k IH]; intros s H.
  - rewrite drop_0 in H. exact H.
  - destruct s as [|c s]; [exact H|].
    apply find_in_cons, IH. exact H.
Qed.

Lemma find_in_tail_false (t : list ascii) (c : ascii) (s : list ascii) :
  PyStr.find_in t (c :: s) = false -> PyStr.find_in t s = false.
Proof. simpl. intros H. apply orb_false_iff in H. tauto. Qed.

(** A match that begins inside [new] needs the first character of the
    token in [new]. *)
Lemma find_in_skip_new (h : ascii) (t0 new x : list ascii) :
  PyStr.has_char h new = false ->
  PyStr.find_in (h :: t0) (new ++ x) = true ->
  PyStr.find_in (h :: t0) x = true.
Proof.
  induction new as [|a new IH]; intros Hh H; [exact H|].
  unfold PyStr.has_char in Hh. simpl in Hh.
  apply orb_false_iff in Hh as [Ha Hh].
  change ((a :: new) ++ x) with (a :: (new ++ x)) in H.
  cbn [PyStr.find_in PyStr.starts_with] in H.
  rewrite Ha in H. simpl in H.
  apply IH; assumption.
Qed.

(** A token that ends in [b] and begins where [new] begins is longer
    than [new] when [b] is not in [new]. *)
Lemma starts_with_over_new (u : list ascii) (b : ascii) (new x : list ascii) :
  PyStr.has_char b new = false ->
  PyStr.starts_with (u ++ [b]) (new ++ x) = true ->
  PyStr.starts_with new u = true.
Proof.
  revert u. induction new as [|a new IH]; intros u Hb H; [reflexivity|].
  unfold PyStr.has_char in Hb. simpl in Hb.
  apply orb_false_iff in Hb as [Hba Hb].
  destruct u as [|c u]; simpl in H.
  - rewrite Hba in H. discriminate.
  - apply andb_true_iff in H as [Hca H].
    simpl. apply Ascii.eqb_eq in Hca. subst c.
    rewrite Ascii.eqb_refl. simpl. apply IH; assumption.
Qed.

Section Replace.

Variables (o : ascii) (old' new : list ascii).

Let old := o :: old'.

(** The scan does not depend on the fuel once it exceeds the length. *)
Lemma replace_from_fuel (n m : nat) (s : list ascii) :
  length s < n -> length s < m ->
  PyStr.replace_from n old new s = PyStr.replace_from m old new s.
Proof.
  revert m s. induction n as [|n IH]; intros m s Hn Hm; [lia|].
  destruct m as [|m]; [lia|]. cbn [PyStr.replace_from].
  destruct (PyStr.starts_with old s) eqn:Hs.
  - f_equal. destruct s as [|c s]; [discriminate|].
    apply IH; rewrite length_drop; simpl in *; lia.
  - destruct s as [|c s]; [reflexivity|].
    f_equal. apply IH; simpl in *; lia.
Qed.

Lemma replace_chars_eq (s : list ascii) :
  PyStr.replace_chars old new s = PyStr.replace_from (S (length s)) old new s.
Proof. reflexivity. Qed.

Lemma replace_from_S (n : nat) (s : list ascii) :
  PyStr.replace_from (S n) old new s
  = if PyStr.starts_with old s
    then new ++ PyStr.replace_from n old new (drop (length old) s)
    else match s with
         | [] => []
         | c :: s' => c :: PyStr.replace_from n old new s'
         end.
Proof. reflexivity. Qed.

Lemma replace_chars_nil : PyStr.replace_chars old new [] = [].
Proof. reflexivity. Qed.

Lemma replace_chars_hit (s : list ascii) :
  PyStr.starts_with old s = true ->
  PyStr.replace_chars old new s
  = new ++ PyStr.replace_chars old new (drop (length old) s).
Proof.
  intros Hs. rewrite !replace_chars_eq, (replace_from_S (length s) s), Hs.
  f_equal. destruct s as [|c s]; [discriminate|].
  apply replace_from_fuel; rewrite length_drop; simpl; lia.
Qed.

Lemma replace_chars_miss (c : ascii) (s : list ascii) :
  PyStr.starts_with old (c :: s) = false ->
  PyStr.replace_chars old new (c :: s) = c :: PyStr.replace_chars old new s.
Proof.
  intros Hs.
  rewrite !replace_chars_eq, (replace_from_S (length (c :: s)) (c :: s)), Hs.
  reflexivity.
Qed.

(** The token [u ++ [b]]: [b] is not in [new], and [new] does not occur
    in [u].  If the token begins the result, it begins the input. *)
Lemma replace_keeps_prefix (b : ascii) (s u : list ascii) :
  PyStr.has_char b new = false ->
  PyStr.find_in new u = false ->
  PyStr.starts_with (u ++ [b]) (PyStr.replace_chars old new s) = true ->
  PyStr.starts_with (u ++ [b]) s = true.
Proof.
  intros Hb. revert u. induction s as [|c s IH]; intros u Hu H.
  - rewrite replace_chars_nil in H. apply starts_with_nil_r in H.
    destruct u; discriminate.
  - destruct (PyStr.starts_with old (c :: s)) eqn:Hs.
    + rewrite replace_chars_hit in H by exact Hs.
      apply starts_with_over_new in H; [|exact Hb].
      apply starts_with_find_in in H. congruence.
    + rewrite replace_chars_miss in H by exact Hs.
      destruct u as [|d u]; simpl in H |- *.
      * apply andb_true_iff in H as [H _]. rewrite H. reflexivity.
      * apply andb_true_iff in H as [Hd H]. rewrite Hd. simpl.
        apply IH; [|exact H]. eapply find_in_tail_false, Hu.
Qed.

(** Replacing [old] does not create an occurrence of a token that [new]
    cannot be part of. *)
Lemma replace_creates_none (h b : ascii) (m s : list ascii) :
  PyStr.has_char h new = false ->
  PyStr.has_char b new = false ->
  PyStr.find_in new (h :: m) = false ->
  PyStr.find_in (h :: m ++ [b]) (PyStr.replace_chars old new s) = true ->
  PyStr.find_in (h :: m ++ [b]) s = true.
Proof.
  intros Hh Hb Hm.
  remember (length s) as n eqn:Hn.
  revert s Hn. induction n as [n IH] using lt_wf_ind. intros s Hn H.
  destruct s as [|c s].
  - rewrite replace_chars_nil in H. discriminate.
  - destruct (PyStr.starts_with old (c :: s)) eqn:Hs.
    + rewrite replace_chars_hit in H by exact Hs.
      apply find_in_skip_new in H; [|exact Hh].
      eapply find_in_drop, (IH _ _ _ eq_refl), H.
    + rewrite replace_chars_miss in H by exact Hs.
      change (PyStr.find_in (h :: m ++ [b]) (c :: s))
        with (PyStr.starts_with (h :: m ++ [b]) (c :: s) || PyStr.find_in (h :: m ++ [b]) s).
      change (PyStr.find_in (h :: m ++ [b]) (c :: PyStr.replace_chars old new s))
        with (PyStr.starts_with (h :: m ++ [b]) (c :: PyStr.replace_chars old new s)
              || PyStr.find_in (h :: m ++ [b]) (PyStr.replace_chars old new s)) in H.
      apply orb_true_iff in H as [H|H]; apply orb_true_iff.
      * left. rewrite <- replace_chars_miss in H by exact Hs.
        apply (replace_keeps_prefix b (c :: s) (h :: m)); assumption.
      * right. eapply (IH _ _ _ eq_refl), H.
  Unshelve. all: subst n; simpl; try rewrite length_drop; simpl; lia.
Qed.

(** After the replacement no occurrence of [old] is left, when [new]
    cannot be part of one. *)
Lemma replace_leaves_none (b : ascii) (m s : list ascii) :
  old' = m ++ [b] ->
  PyStr.has_char o new = false ->
  PyStr.has_char b new = false ->
  PyStr.find_in new (o :: m) = false ->
  PyStr.find_in old (PyStr.replace_chars old new s) = false.
Proof.
  intros Hold Ho Hb Hm.
  remember (length s) as n eqn:Hn.
  revert s Hn. induction n as [n IH] using lt_wf_ind. intros s Hn.
  destruct s as [|c s]; [reflexivity|].
  destruct (PyStr.starts_with old (c :: s)) eqn:Hs.
  - rewrite replace_chars_hit by exact Hs.
    destruct (PyStr.find_in old (new ++ _)) eqn:H; [|reflexivity].
    apply find_in_skip_new in H; [|exact Ho].
    rewrite (IH (length (drop (length old) (c :: s)))) in H; [discriminate| |reflexivity].
    subst n. rewrite length_drop. simpl. lia.
  - rewrite replace_chars_miss by exact Hs.
    change (PyStr.find_in old (c :: PyStr.replace_chars old new s))
      with (PyStr.starts_with old (c :: PyStr.replace_chars old new s)
            || PyStr.find_in old (PyStr.replace_chars old new s)).
    apply orb_false_iff. split.
    + destruct (PyStr.starts_with old (c :: PyStr.replace_chars old new s)) eqn:H;
        [|reflexivity].
      rewrite <- replace_chars_miss in H by exact Hs.
      unfold old in H at 1. rewrite Hold in H.
      apply (replace_keeps_prefix b (c :: s) (o :: m)) in H; try assumption.
      unfold old in Hs. rewrite Hold in Hs. simpl in H, Hs. congruence.
    + apply (IH (length s)); [subst n; simpl; lia | reflexivity].
Qed.

End Replace.

Lemma unsnoc_Some (l m : list ascii) (b : ascii) :
  unsnoc l = Some (m, b) -> l = m ++ [b].
Proof.
  revert m. induction l as [|a l IH]; intros m H; [discriminate|].
  simpl in H. destruct (unsnoc l) as [[m' b']|] eqn:Hl.
  - inversion H; subst. simpl. f_equal. apply IH. reflexivity.
  - inversion H; subst. destruct l as [|a' l]; [reflexivity|].
    simpl in Hl. destruct (unsnoc l) as [[? ?]|]; discriminate.
Qed.

Lemma inert_spec (new t : list ascii) :
  inert new t = true ->
  exists h m b, t = h :: m ++ [b]
    /\ PyStr.has_char h new = false
    /\ PyStr.has_char b new = false
    /\ PyStr.find_in new (h :: m) = false.
Proof.
  unfold inert. destruct t as [|h t']; [discriminate|].
  destruct (unsnoc t') as [[m b]|] eqn:Hu; [|discriminate].
  intros H. apply andb_true_iff in H as [H H3].
  apply andb_true_iff in H as [H1 H2].
  apply negb_true_iff in H1, H2, H3.
  exists h, m, b. rewrite (unsnoc_Some _ _ _ Hu). auto.
Qed.

Lemma replace_all_keeps_clean (reps : list (list ascii * list ascii)) (t s : list ascii) :
  forallb (fun r' => negb (bool_decide (r'.1 = [])) && inert r'.2 t) reps = true ->
  PyStr.find_in t s = false ->
  PyStr.find_in t (replace_all reps s) = false.
Proof.
  revert s. induction reps as [|[old new] reps IH]; intros s Hall Hs; [exact Hs|].
  simpl in Hall. apply andb_true_iff in Hall as [Hr Hall].
  apply andb_true_iff in Hr as [Hne Hin].
  apply negb_true_iff, bool_decide_eq_false in Hne.
  destruct old as [|o old']; [congruence|].
  destruct (inert_spec _ _ Hin) as (h & m & b & -> & Hh & Hb & Hm).
  change (replace_all ((o :: old', new) :: reps) s)
    with (replace_all reps (PyStr.replace_chars (o :: old') new s)).
  apply IH; [exact Hall|].
  destruct (PyStr.find_in (h :: m ++ [b]) (PyStr.replace_chars (o :: old') new s)) eqn:H;
    [|reflexivity].
  apply replace_creates_none in H; try assumption. congruence.
Qed.

Lemma cleans_sound (reps : list (list ascii * list ascii)) (t s : list ascii) :
  cleans reps t = true ->
  PyStr.find_in t (replace_all reps s) = false.
Proof.
  revert s. induction reps as [|[old new] reps IH]; intros s H; [discriminate|].
  simpl in H. apply orb_true_iff in H as [H|H]; [|apply IH, H].
  apply andb_true_iff in H as [H Hall].
  apply andb_true_iff in H as [Heq Hin].
  apply bool_decide_eq_true in Heq. subst old.
  destruct (inert_spec _ _ Hin) as (h & m & b & -> & Hh & Hb & Hm).
  change (replace_all ((h :: m ++ [b], new) :: reps) s)
    with (replace_all reps (PyStr.replace_chars (h :: m ++ [b]) new s)).
  apply replace_all_keeps_clean; [exact Hall|].
  apply (replace_leaves_none h (m ++ [b]) new b m); auto.
Qed.

Lemma chars_text (l : list ascii) : chars (text l) = l.
Proof. apply list_ascii_of_string_of_list_ascii. Qed.

Lemma text_chars (s : string) : text (chars s) = s.
Proof. apply string_of_list_ascii_of_string. Qed.

Lemma chars_fold_replace (l : list (string * string)) (s : string) :
  chars (fold_left (fun r tp => replace r tp.1 tp.2) l s)
  = replace_all (map (fun tp => (chars tp.1, chars tp.2)) l) (chars s).
Proof.
  revert s. induction l as [|[tok ph] l IH]; intros s; [reflexivity|].
  simpl. rewrite IH. unfold replace. rewrite chars_text. reflexivity.
Qed.

(** The sequence of a keyword domain leaves none of the six tokens. *)
Lemma substitute_leaves_no_token (d : Domain) (response tok : string) :
  d <> Generic -> In tok tokens ->
  contains tok (substitute d response) = false.
Proof.
  intros Hd Htok. unfold contains, substitute.
  rewrite chars_fold_replace. apply cleans_sound.
  destruct d; [| | | |congruence];
    simpl in Htok; intuition (subst; vm_compute; reflexivity).
Qed.

(** ** Replacement and concatenation *)

Lemma starts_with_app_l (p a y : list ascii) :
  PyStr.starts_with p a = true -> PyStr.starts_with p (a ++ y) = true.
Proof.
  revert a. induction p as [|c p IH]; intros a H; [reflexivity|].
  destruct a as [|d a]; [discriminate|]. simpl in *.
  apply andb_true_iff in H as [H1 H2]. rewrite H1. simpl. apply IH, H2.
Qed.

Lemma starts_with_app_le (p a y : list ascii) :
  length p <= length a ->
  PyStr.starts_with p (a ++ y) = true -> PyStr.starts_with p a = true.
Proof.
  revert a. induction p as [|c p IH]; intros a Hl H; [reflexivity|].
  destruct a as [|d a]; [simpl in Hl; lia|]. simpl in *.
  apply andb_true_iff in H as [H1 H2]. rewrite H1. simpl. apply IH; [lia | exact H2].
Qed.

Lemma starts_with_self_app (p y : list ascii) : PyStr.starts_with p (p ++ y) = true.
Proof.
  induction p as [|c p IH]; [reflexivity|]. simpl.
  rewrite Ascii.eqb_refl. exact IH.
Qed.

(** A prefix longer than [a] goes on after [a]. *)
Lemma starts_with_split (p a y : list ascii) :
  length a < length p ->
  PyStr.starts_with p (a ++ y) = true ->
  exists p2, p = a ++ p2 /\ p2 <> [] /\ PyStr.starts_with p2 y = true.
Proof.
  revert p. induction a as [|d a IH]; intros p Hl H.
  - exists p. repeat split; [|exact H]. destruct p; [simpl in Hl; lia | discriminate].
  - destruct p as [|c p]; [simpl in Hl; lia|]. simpl in H.
    apply andb_true_iff in H as [H1 H2]. apply Ascii.eqb_eq in H1. subst d.
    destruct (IH p) as (p2 & -> & Hne & Hp2); [simpl in Hl; lia | exact H2 |].
    exists p2. auto.
Qed.

Lemma starts_with_head (h c : ascii) (p s : list ascii) :
  PyStr.starts_with (h :: p) (c :: s) = true -> c = h.
Proof.
  simpl. intros H. apply andb_true_iff in H as [H _].
  apply Ascii.eqb_eq in H. auto.
Qed.

Lemma has_char_false_app (c : ascii) (p x : list ascii) (d : ascii) :
  PyStr.has_char c (p ++ d :: x) = false -> d <> c.
Proof.
  unfold PyStr.has_char. rewrite existsb_app. simpl. intros H Hd. subst d.
  rewrite Ascii.eqb_refl in H. simpl in H.
  rewrite orb_true_r in H. discriminate.
Qed.

Lemma find_in_app_r (t a s : list ascii) :
  PyStr.find_in t s = true -> PyStr.find_in t (a ++ s) = true.
Proof.
  intros H. induction a as [|c a IH]; [exact H|].
  change ((c :: a) ++ s) with (c :: (a ++ s)). apply find_in_cons, IH.
Qed.

Lemma clash_no_prefix (old x b : list ascii) :
  clash old x = true -> PyStr.starts_with old (x ++ b) = false.
Proof.
  revert x. induction old as [|a old IH]; intros x H; [destruct x; discriminate|].
  destruct x as [|c x]; [discriminate|]. simpl in *.
  destruct (Ascii.eqb a c); simpl in *; [apply IH, H | reflexivity].
Qed.

Section ReplaceSegment.

Variables (o : ascii) (old' new : list ascii).

Local Abbreviation old := (o :: old').

Lemma replace_chars_inside (x : list ascii) (p x' b : list ascii) :
  no_start_inside old x -> x = p ++ x' ->
  PyStr.replace_chars old new (x' ++ b) = x' ++ PyStr.replace_chars old new b.
Proof.
  intros Hx. revert p. induction x' as [|c x' IH]; intros p Hp; [reflexivity|].
  change ((c :: x') ++ b) with (c :: x' ++ b).
  rewrite (replace_chars_miss o old' new) by (eapply Hx, Hp).
  simpl. f_equal. apply (IH (p ++ [c])). rewrite <- app_assoc. exact Hp.
Qed.

(** A segment that no occurrence of [old] overlaps is left as it is, and
    the texts before and after it are replaced on their own. *)
Lemma replace_chars_around (x : list ascii) (a b : list ascii) :
  no_start_inside old x -> no_reach_into old x ->
  PyStr.replace_chars old new (a ++ x ++ b)
  = PyStr.replace_chars old new a ++ x ++ PyStr.replace_chars old new b.
Proof.
  intros H1 H2.
  remember (length a) as n eqn:Hn.
  revert a Hn. induction n as [n IH] using lt_wf_ind. intros a Hn.
  destruct a as [|c a].
  - rewrite (replace_chars_nil o old' new). cbn [app].
    apply (replace_chars_inside x [] x b H1 eq_refl).
  - destruct (PyStr.starts_with old ((c :: a) ++ x ++ b)) eqn:Hs.
    + assert (Hlen : length old <= length (c :: a)).
      { destruct (le_lt_dec (length old) (length (c :: a))) as [|Hlt]; [assumption|].
        rewrite (H2 (c :: a) b) in Hs; [discriminate | discriminate | exact Hlt]. }
      assert (Hsa : PyStr.starts_with old (c :: a) = true)
        by (eapply starts_with_app_le; eauto).
      rewrite (replace_chars_hit o old' new _ Hs), (replace_chars_hit o old' new _ Hsa).
      rewrite drop_app_le by exact Hlen.
      rewrite (IH (length (drop (length old) (c :: a)))); [|subst n|reflexivity].
      * rewrite <- app_assoc. reflexivity.
      * rewrite length_drop. simpl. lia.
    + assert (Hsa : PyStr.starts_with old (c :: a) = false).
      { destruct (PyStr.starts_with old (c :: a)) eqn:Hsa; [|reflexivity].
        rewrite (starts_with_app_l _ _ (x ++ b) Hsa) in Hs. discriminate. }
      change ((c :: a) ++ x ++ b) with (c :: (a ++ x ++ b)) in *.
      rewrite (replace_chars_miss o old' new _ _ Hs), (replace_chars_miss o old' new _ _ Hsa).
      rewrite (IH (length a)); [reflexivity | subst n; simpl; lia | reflexivity].
Qed.

(** An occurrence of [old] that no other occurrence overlaps is
    replaced by [new], and the texts around it are replaced on their own. *)
Lemma replace_chars_at (a b : list ascii) :
  no_reach_into old old ->
  PyStr.replace_chars old new (a ++ old ++ b)
  = PyStr.replace_chars old new a ++ new ++ PyStr.replace_chars old new b.
Proof.
  intros H2.
  remember (length a) as n eqn:Hn.
  revert a Hn. induction n as [n IH] using lt_wf_ind. intros a Hn.
  destruct a as [|c a].
  - rewrite (replace_chars_nil o old' new).
    change ([] ++ old ++ b) with (old ++ b).
    rewrite (replace_chars_hit o old' new (old ++ b) (starts_with_self_app old b)).
    rewrite drop_app_length. reflexivity.
  - destruct (PyStr.starts_with old ((c :: a) ++ old ++ b)) eqn:Hs.
    + assert (Hlen : length old <= length (c :: a)).
      { destruct (le_lt_dec (length old) (length (c :: a))) as [|Hlt]; [assumption|].
        rewrite (H2 (c :: a) b) in Hs; [discriminate | discriminate | exact Hlt]. }
      assert (Hsa : PyStr.starts_with old (c :: a) = true)
        by (eapply starts_with_app_le; eauto).
      rewrite (replace_chars_hit o old' new _ Hs), (replace_chars_hit o old' new _ Hsa).
      rewrite drop_app_le by exact Hlen.
      rewrite (IH (length (drop (length old) (c :: a)))); [|subst n|reflexivity].
      * rewrite <- app_assoc. reflexivity.
      * rewrite length_drop. simpl. lia.
    + assert (Hsa : PyStr.starts_with old (c :: a) = false).
      { destruct (PyStr.starts_with old (c :: a)) eqn:Hsa; [|reflexivity].
        rewrite (starts_with_app_l _ _ (old ++ b) Hsa) in Hs. discriminate. }
      change ((c :: a) ++ old ++ b) with (c :: (a ++ old ++ b)) in *.
      rewrite (replace_chars_miss o old' new _ _ Hs), (replace_chars_miss o old' new _ _ Hsa).
      rewrite (IH (length a)); [reflexivity | subst n; simpl; lia | reflexivity].
Qed.

End ReplaceSegment.

(** A segment whose first character does not come again in [old] is not
    reached by an occurrence of [old] that begins before it. *)
Lemma no_reach_by_head (o : ascii) (old' : list ascii) (h : ascii) (x' : list ascii) :
  PyStr.has_char h old' = false -> no_reach_into (o :: old') (h :: x').
Proof.
  intros Hh a b Ha Hlen.
  destruct (PyStr.starts_with (o :: old') (a ++ (h :: x') ++ b)) eqn:Hs; [|reflexivity].
  destruct (starts_with_split _ _ _ Hlen Hs) as (p2 & Hp & Hne & Hp2).
  destruct p2 as [|c p2]; [contradiction|].
  apply starts_with_head in Hp2. subst c.
  destruct a as [|d a]; [contradiction|].
  inversion Hp; subst. apply has_char_false_app in Hh. contradiction.
Qed.

Lemma solid_sound (o : ascii) (old' x : list ascii) :
  solid (o :: old') x = true ->
  no_start_inside (o :: old') x /\ no_reach_into (o :: old') x.
Proof.
  unfold solid. intros H. apply orb_true_iff in H as [H|H].
  - destruct (inert_spec _ _ H) as (h & m & e & Hold & Hh & He & Hm).
    inversion Hold; subst h old'; clear Hold. split.
    + intros p c x' b ->. simpl.
      destruct (Ascii.eqb_spec o c) as [->|]; [|reflexivity].
      unfold PyStr.has_char in Hh. rewrite existsb_app in Hh. simpl in Hh.
      rewrite Ascii.eqb_refl, orb_true_r in Hh. discriminate.
    + intros a b Ha Hlen.
      destruct (PyStr.starts_with (o :: m ++ [e]) (a ++ x ++ b)) eqn:Hs; [|reflexivity].
      destruct (starts_with_split _ _ _ Hlen Hs) as (p2 & Hp & Hne & Hp2).
      destruct (exists_last Hne) as (u2 & e' & ->).
      change (o :: m ++ [e]) with ((o :: m) ++ [e]) in Hp.
      rewrite app_assoc in Hp. apply app_inj_tail in Hp as [Hom <-].
      apply starts_with_over_new in Hp2; [|exact He].
      apply starts_with_find_in in Hp2.
      apply (find_in_app_r _ a) in Hp2. rewrite <- Hom in Hp2. congruence.
  - destruct x as [|h' x']; [discriminate|].
    apply andb_true_iff in H as [H H3]. apply andb_true_iff in H as [H1 H2].
    apply negb_true_iff in H2, H3. split.
    + intros p c x'' b Hx. destruct p as [|d p].
      * simpl in Hx. inversion Hx; subst c x''.
        change (h' :: x' ++ b) with ((h' :: x') ++ b). apply clash_no_prefix, H1.
      * inversion Hx; subst. simpl.
        destruct (Ascii.eqb_spec o c) as [->|]; [|reflexivity].
        apply has_char_false_app in H2. contradiction.
    + apply no_reach_by_head, H3.
Qed.

(** The segment [x] comes out of the replacements as [y], with the
    texts around it replaced on their own. *)
Lemma carried_sound (reps : list (list ascii * list ascii)) (x y : list ascii) :
  carried reps x = Some y ->
  forall a b,
    replace_all reps (a ++ x ++ b) = replace_all reps a ++ y ++ replace_all reps b.
Proof.
  revert x. induction reps as [|[old new] reps IH]; intros x H a b.
  - inversion H. reflexivity.
  - cbn [carried fst snd] in H.
    change (replace_all ((old, new) :: reps) (a ++ x ++ b))
      with (replace_all reps (PyStr.replace_chars old new (a ++ x ++ b))).
    change (replace_all ((old, new) :: reps) a)
      with (replace_all reps (PyStr.replace_chars old new a)).
    change (replace_all ((old, new) :: reps) b)
      with (replace_all reps (PyStr.replace_chars old new b)).
    destruct (bool_decide (old = x)) eqn:Heq.
    + apply bool_decide_eq_true in Heq. subst x.
      destruct (self_solid old) eqn:Hself; [|discriminate].
      destruct old as [|o old']; [discriminate|].
      apply negb_true_iff in Hself.
      rewrite (replace_chars_at o old' new a b (no_reach_by_head o old' o old' Hself)).
      apply IH, H.
    + destruct (solid old x) eqn:Hsolid; [|discriminate].
      destruct old as [|o old'].
      { unfold solid, inert in Hsolid. destruct x; discriminate. }
      destruct (solid_sound _ _ _ Hsolid) as [H1 H2].
      rewrite (replace_chars_around o old' new x a b H1 H2).
      apply IH, H.
Qed.

Lemma chars_app (s1 s2 : string) : chars (s1 +:+ s2) = chars s1 ++ chars s2.
Proof.
  induction s1 as [|c s1 IH]; [reflexivity|].
  unfold chars in *. simpl. rewrite IH. reflexivity.
Qed.

Lemma chars_inj (s1 s2 : string) : chars s1 = chars s2 -> s1 = s2.
Proof. intros H. rewrite <- (text_chars s1), <- (text_chars s2), H. reflexivity. Qed.

(** For the keyword domains, an occurrence of a token is replaced by the
    phrase of the token, and the texts around it are substituted on their
    own. *)
Lemma substitute_token (d : Domain) (tok ph a b : string) :
  d <> Generic -> In (tok, ph) (zip tokens (phrases d)) ->
  substitute d (a +:+ tok +:+ b) = substitute d a +:+ ph +:+ substitute d b.
Proof.
  intros Hd Hin. apply chars_inj.
  rewrite !chars_app. unfold substitute. rewrite !chars_fold_replace, !chars_app.
  apply carried_sound.
  destruct d; [| | | |congruence];
    simpl in Hin; intuition (match goal with
                             | H : (_, _) = (_, _) |- _ => inversion H; subst
                             end; vm_compute; reflexivity).
Qed.

(** ** The string operations on examples *)

Example replace_overlap : replace "aaaa" "aa" "b" = "bb".
Proof. reflexivity. Qed.

Example replace_empty_old : replace "abc" EmptyString "-" = "-a-b-c-".
Proof. reflexivity. Qed.

Example lower_mixed : lower "My WorkOut app!" = "my workout app!".
Proof. reflexivity. Qed.

Example stub_fitness :
  StubLLMClient._apply_keyword_replacement
    "[Product]: a [item] log for [problem domain]" "An app for my Workout"
  = "Fitness Tracker: a workout log for fitness tracking".
Proof. reflexivity. Qed.

Example stub_generic_keeps_token :
  StubLLMClient._apply_keyword_replacement "[[item]]" "a note app" = "[item]".
Proof. reflexivity. Qed.

(** ** The state and error monad *)

Lemma bind_ok {A B} (c : M A) (k : A -> M B) (w w' : World) (a : A) :
  c w = (Ok a, w') -> (c ≫= k) w = k a w'.
Proof. intros H. unfold mbind, M_bind. rewrite H. reflexivity. Qed.

Lemma bind_raise {A B} (c : M A) (k : A -> M B) (w w' : World) (e : Exception) :
  c w = (Raise e, w') -> (c ≫= k) w = (Raise e, w').
Proof. intros H. unfold mbind, M_bind. rewrite H. reflexivity. Qed.

Lemma keeps_refl (l : nat) (w : World) : keeps l w w.
Proof. unfold keeps. auto. Qed.

Lemma keeps_trans (l : nat) (w1 w2 w3 : World) :
  keeps l w1 w2 -> keeps l w2 w3 -> keeps l w1 w3.
Proof.
  intros (Hn & Hh & Hc & Hk) (Hn' & Hh' & Hc' & Hk'). unfold keeps. repeat split.
  - lia.
  - intros l' Hl. rewrite Hh' by lia. apply Hh, Hl.
  - congruence.
  - intros key Hkey. apply Hk', Hk, Hkey.
Qed.

(** Unfold the monad and the elementary steps. *)
Ltac unfold_monad :=
  unfold utcnow, uuid4, mbind, M_bind, mret, M_ret, tick_uuid, tick_clock,
    tick_io, tick_llm, modify_obj, get_obj, gets; cbn.

Section CoreFacts.

Context (D : Deps) (E : Env).

Section Frame.

(** The object that is followed through the steps. *)
Variable l : nat.

Lemma write_file_spec (path content : string) (w : World) :
  exists res w', write_file E path content w = (res, w')
    /\ keeps l w w' /\ saved w' = saved w.
Proof.
  unfold write_file. destruct (String.eqb path ".").
  - eexists _, _. split; [reflexivity|]. split; [apply keeps_refl | reflexivity].
  - unfold mbind, M_bind, tick_io. cbn.
    destruct (io_at E (io_ops w)) as [|[|]]; cbn;
      eexists _, _; (split; [reflexivity|]); unfold keeps; cbn; auto.
Qed.

Lemma get_run_spec (run_id : string) (w : World) :
  exists o w', get_run D E run_id w = (Ok o, w')
    /\ keeps l w w' /\ saved w' = saved w.
Proof.
  unfold get_run, mbind, M_bind, gets. cbn.
  destruct (_runs_cache w !! run_id) as [run|] eqn:Hmiss; cbn.
  { eexists _, _. split; [reflexivity|]. split; [apply keeps_refl | reflexivity]. }
  destruct (files w !! run_path E run_id) as [data|]; cbn.
  2:{ eexists _, _. split; [reflexivity|]. split; [apply keeps_refl | reflexivity]. }
  destruct (decode_run D data) as [r|]; cbn.
  2:{ eexists _, _. split; [reflexivity|]. split; [apply keeps_refl | reflexivity]. }
  eexists _, _. split; [reflexivity|]. unfold keeps; cbn. repeat split; auto.
  - intros l' Hl. destruct (Nat.eqb_spec l' (next_ref w)); [lia | reflexivity].
  - intros key Hkey. rewrite lookup_insert_ne; [exact Hkey | congruence].
Qed.

(** A run that is found is an object of the heap. *)
Lemma get_run_found (run_id : string) (w w' : World) (run : nat) :
  cache_valid w ->
  get_run D E run_id w = (Ok (Some run), w') ->
  run < next_ref w'.
Proof.
  intros Hv. unfold get_run, mbind, M_bind, mret, M_ret, gets. cbn.
  destruct (_runs_cache w !! run_id) as [l'|] eqn:Hc; cbn.
  { intros H. inversion H; subst. eapply Hv, Hc. }
  destruct (files w !! run_path E run_id) as [data|]; cbn; [|discriminate].
  destruct (decode_run D data) as [r|]; cbn; [|discriminate].
  intros H. inversion H; subst. cbn. lia.
Qed.

(** A run that is found is the object the cache holds under its key. *)
Lemma get_run_cached (run_id : string) (w w' : World) (run : nat) :
  get_run D E run_id w = (Ok (Some run), w') ->
  _runs_cache w' !! run_id = Some run.
Proof.
  unfold get_run, mbind, M_bind, mret, M_ret, gets. cbn.
  destruct (_runs_cache w !! run_id) as [l'|] eqn:Hc; cbn.
  { intros H. inversion H; subst. exact Hc. }
  destruct (files w !! run_path E run_id) as [data|]; cbn; [|discriminate].
  destruct (decode_run D data) as [r|]; cbn; [|discriminate].
  intros H. inversion H; subst. cbn. apply lookup_insert_eq.
Qed.

(** A run that is not found leaves the state as it is. *)
Lemma get_run_not_found (run_id : string) (w w' : World) :
  get_run D E run_id w = (Ok None, w') -> w' = w.
Proof.
  unfold get_run, mbind, M_bind, mret, M_ret, gets. cbn.
  destruct (_runs_cache w !! run_id) as [l'|]; cbn; [discriminate|].
  destruct (files w !! run_path E run_id) as [data|]; cbn; [|congruence].
  destruct (decode_run D data) as [r|]; cbn; [discriminate | congruence].
Qed.

(** Persisting the followed object. *)
Lemma update_run_spec (w : World) :
  exists b w', update_run D E l w = (Ok b, w')
    /\ keeps l w w' /\ saved w' = saved w.
Proof.
  unfold update_run, try_except, _save_run.
  unfold mbind at 1, M_bind at 1. unfold mbind at 1, M_bind at 1.
  unfold get_obj at 1, gets at 1. cbn beta iota.
  destruct (write_file_spec (run_path E (Run.id (heap w l)))
              (encode_run D (heap w l)) w) as (res & w1 & Hw & Hk & Hs).
  rewrite Hw. destruct res as [[]|e]; cbn.
  - eexists _, _. split; [reflexivity|]. split; [|exact Hs].
    destruct Hk as (? & ? & ? & Hkey). unfold keeps; cbn.
    repeat split; auto.
    intros key Hk0. apply Hkey in Hk0.
    destruct (decide (Run.id (heap w1 l) = key)) as [->|Hne].
    + apply lookup_insert_eq.
    + rewrite lookup_insert_ne; assumption.
  - eexists _, _. split; [reflexivity|]. split; assumption.
Qed.

Lemma save_artifact_spec (run_id artifact_type content : string) (w : World) :
  exists b w', save_artifact D E run_id artifact_type content w = (Ok b, w')
    /\ keeps l w w' /\ saved w' = saved w ++ [(run_id, artifact_type, content)].
Proof.
  unfold save_artifact.
  unfold mbind at 1, M_bind at 1. unfold note_saved at 1. cbn beta iota.
  set (w0 := mkWorld _ _ _ _ _ _ _ _ _).
  assert (Hk0 : keeps l w w0) by (unfold keeps; cbn; auto).
  change (saved w ++ [(run_id, artifact_type, content)]) with (saved w0).
  destruct (get_run_spec run_id w0) as (o & w1 & Hg & Hk1 & Hs1).
  rewrite (bind_ok _ _ _ _ _ Hg).
  destruct o as [run|].
  2:{ eexists _, _. split; [reflexivity|]. split; [|exact Hs1].
      exact (keeps_trans _ _ _ _ Hk0 Hk1). }
  unfold mbind at 1, M_bind at 1. unfold get_obj at 1, gets at 1. cbn beta iota.
  unfold try_except. unfold mbind at 1, M_bind at 1.
  set (path := Path _).
  assert (Hbody : exists res w2,
    (if String.eqb artifact_type "conversation"
     then match json_loads D content with
          | Ok data => write_file E path (json_dumps D (Some 2%nat) data)
          | Raise e => raise e
          end
     else write_file E path content) w1 = (res, w2)
    /\ keeps l w1 w2 /\ saved w2 = saved w1).
  { destruct (String.eqb artifact_type "conversation").
    - destruct (json_loads D content) as [data|e].
      + apply write_file_spec.
      + eexists _, _. split; [reflexivity|]. split; [apply keeps_refl | reflexivity].
    - apply write_file_spec. }
  destruct Hbody as (res & w2 & Hb & Hk2 & Hs2). rewrite Hb.
  assert (Hk : keeps l w w2)
    by exact (keeps_trans _ _ _ _ (keeps_trans _ _ _ _ Hk0 Hk1) Hk2).
  destruct res as [[]|e]; cbn;
    (eexists _, _; split; [reflexivity|]; split;
       [exact Hk | rewrite Hs2, Hs1; reflexivity]).
Qed.

Lemma put_files_spec (fs : list (string * string)) (w : World) :
  exists w', foldr (fun f k => put_file f.1 f.2 ;; k) (mret tt) fs w = (Ok tt, w')
    /\ keeps l w w' /\ saved w' = saved w.
Proof.
  revert w. induction fs as [|f fs IH]; intros w.
  - eexists. split; [reflexivity|]. split; [apply keeps_refl | reflexivity].
  - cbn [foldr]. unfold mbind at 1, M_bind at 1. unfold put_file at 1. cbn beta iota.
    set (w0 := mkWorld _ _ _ _ _ _ _ _ _).
    destruct (IH w0) as (w' & Hr & Hk & Hs).
    exists w'. split; [exact Hr|]. split; [|exact Hs].
    eapply keeps_trans; [|exact Hk]. unfold keeps; cbn; auto.
Qed.

Lemma generate_from_markdown_spec (markdown_content output_path : string) (w : World) :
  exists b w', generate_from_markdown E markdown_content output_path w = (Ok b, w')
    /\ keeps l w w' /\ saved w' = saved w.
Proof.
  unfold generate_from_markdown.
  rewrite (bind_ok tick_io _ w _ _ eq_refl).
  set (w0 := mkWorld _ _ _ _ _ _ _ _ _).
  destruct (put_files_spec
    (render_files (render_at E (io_ops w) markdown_content output_path)) w0)
    as (w' & Hr & Hk & Hs).
  rewrite (bind_ok _ _ _ _ _ Hr).
  eexists _, w'. split; [reflexivity|]. split; [|exact Hs].
  eapply keeps_trans; [|exact Hk]. unfold keeps; cbn; auto.
Qed.

End Frame.

(** The key under which the cache holds the followed object. *)
Variable key : string.

Lemma keeps_at (l : nat) (w w' : World) (c : nat) (lg lg' : list (string * string * string)) :
  at_obj key l w c lg -> keeps l w w' -> saved w' = saved w ++ lg' ->
  heap w' l = heap w l /\ at_obj key l w' c (lg ++ lg').
Proof.
  intros (Hl & Hc & Hs & Hk) (Hn & Hh & Hc' & Hk') Hs'. unfold at_obj.
  repeat split; [apply Hh, Hl | lia | congruence | congruence | apply Hk', Hk].
Qed.

Lemma update_run_at (l : nat) (w : World) (c : nat) (lg : list (string * string * string)) :
  at_obj key l w c lg ->
  exists b w', update_run D E l w = (Ok b, w')
    /\ heap w' l = heap w l /\ at_obj key l w' c lg.
Proof.
  intros Hat. destruct (update_run_spec l w) as (b & w' & Hr & Hk & Hs).
  exists b, w'. split; [exact Hr|].
  rewrite <- (app_nil_r lg). eapply keeps_at; eauto.
  rewrite Hs, app_nil_r. reflexivity.
Qed.

Lemma save_artifact_at (run_id artifact_type content : string) (l : nat) (w : World)
    (c : nat) (lg : list (string * string * string)) :
  at_obj key l w c lg ->
  exists b w', save_artifact D E run_id artifact_type content w = (Ok b, w')
    /\ heap w' l = heap w l
    /\ at_obj key l w' c (lg ++ [(run_id, artifact_type, content)]).
Proof.
  intros Hat.
  destruct (save_artifact_spec l run_id artifact_type content w)
    as (b & w' & Hr & Hk & Hs).
  exists b, w'. split; [exact Hr|]. eapply keeps_at; eauto.
Qed.

Lemma _generate_pdf_at (run : nat) (prd_content : string) (l : nat) (w : World)
    (c : nat) (lg : list (string * string * string)) :
  at_obj key l w c lg ->
  exists w', _generate_pdf E run prd_content w = (Ok tt, w')
    /\ heap w' l = heap w l /\ at_obj key l w' c lg.
Proof.
  intros Hat. unfold _generate_pdf, try_except.
  rewrite (bind_ok (get_obj run) _ w _ _ eq_refl).
  destruct (String.eqb (Run.get_artifact_path (heap w run) "prd_pdf") EmptyString).
  { exists w. split; [reflexivity|]. split; [reflexivity | exact Hat]. }
  destruct (generate_from_markdown_spec l prd_content
              (Run.get_artifact_path (heap w run) "prd_pdf") w)
    as (b & w' & Hr & Hk & Hs).
  rewrite (bind_ok _ _ _ _ _ Hr).
  exists w'. split; [reflexivity|].
  rewrite <- (app_nil_r lg). eapply keeps_at; [exact Hat|exact Hk|].
  rewrite Hs, app_nil_r. reflexivity.
Qed.

(** ** Methods of [Run] *)

Lemma add_message_spec (l : nat) (role : AgentRole) (content : string) (step : Z)
    (md : option (list (string * JSON))) (w : World) :
  exists m w', add_message E l role content step md w = (Ok m, w')
    /\ Message.role m = role /\ Message.content m = content /\ Message.step m = step
    /\ appended m (heap w l) (heap w' l)
    /\ (forall l', l' <> l -> heap w' l' = heap w l')
    /\ next_ref w' = next_ref w /\ llm_calls w' = llm_calls w /\ saved w' = saved w
    /\ _runs_cache w' = _runs_cache w.
Proof.
  unfold add_message. unfold_monad.
  eexists _, _. split; [reflexivity|]. cbn.
  rewrite Nat.eqb_refl. repeat split.
  - eexists. reflexivity.
  - intros l' Hl'. destruct (Nat.eqb_spec l' l); [contradiction | reflexivity].
Qed.

Lemma update_status_spec (l : nat) (status : RunStatus) (w : World) :
  exists w', update_status E l status w = (Ok tt, w')
    /\ heap w' l =
       (if decide (status = COMPLETED)
        then Run.set_completed_at (Some (utcnow_at E (S (clock_reads w))))
        else fun r => r)
         (Run.set_updated_at (utcnow_at E (clock_reads w))
            (Run.set_status status (heap w l)))
    /\ (forall l', l' <> l -> heap w' l' = heap w l')
    /\ next_ref w' = next_ref w /\ llm_calls w' = llm_calls w /\ saved w' = saved w
    /\ _runs_cache w' = _runs_cache w.
Proof.
  unfold update_status.
  destruct (decide (status = COMPLETED)) as [Hs|Hs]; unfold_monad.
  - eexists. split; [reflexivity|]. cbn. rewrite Nat.eqb_refl. repeat split.
    intros l' Hl'. destruct (Nat.eqb_spec l' l); [contradiction | reflexivity].
  - eexists. split; [reflexivity|]. cbn. rewrite Nat.eqb_refl. repeat split.
    intros l' Hl'. destruct (Nat.eqb_spec l' l); [contradiction | reflexivity].
Qed.

Lemma add_message_at (l : nat) (role : AgentRole) (content : string) (step : Z)
    (md : option (list (string * JSON))) (w : World) (c : nat)
    (lg : list (string * string * string)) :
  at_obj key l w c lg ->
  exists m w', add_message E l role content step md w = (Ok m, w')
    /\ Message.role m = role /\ Message.content m = content /\ Message.step m = step
    /\ appended m (heap w l) (heap w' l)
    /\ at_obj key l w' c lg.
Proof.
  intros (Hl & Hc & Hs & Hk).
  destruct (add_message_spec l role content step md w)
    as (m & w' & Hr & H1 & H2 & H3 & H4 & _ & Hn & Hc' & Hs' & Hk').
  exists m, w'. unfold at_obj. repeat split; try assumption; congruence.
Qed.

Lemma update_status_at (l : nat) (status : RunStatus) (w : World) (c : nat)
    (lg : list (string * string * string)) :
  at_obj key l w c lg ->
  exists w', update_status E l status w = (Ok tt, w')
    /\ Run.status (heap w' l) = status
    /\ Run.messages (heap w' l) = Run.messages (heap w l)
    /\ Run.id (heap w' l) = Run.id (heap w l)
    /\ Run.idea (heap w' l) = Run.idea (heap w l)
    /\ at_obj key l w' c lg.
Proof.
  intros (Hl & Hc & Hs & Hk).
  destruct (update_status_spec l status w)
    as (w' & Hr & Hh & _ & Hn & Hc' & Hs' & Hk').
  exists w'. unfold at_obj. rewrite Hh.
  destruct (decide (status = COMPLETED)); cbn;
    repeat split; try reflexivity; congruence.
Qed.

Section Stages.

Context (self : Orchestrator).

Lemma llm_generate_ok (prompt agent_name response : string) (l : nat) (w : World)
    (c : nat) (lg : list (string * string * string)) :
  at_obj key l w c lg ->
  LLMClient.generate (llm_client self) c prompt agent_name = Ok response ->
  exists w', llm_generate self prompt agent_name w = (Ok response, w')
    /\ heap w' l = heap w l /\ at_obj key l w' (S c) lg.
Proof.
  intros (Hl & Hc & Hs & Hk) Hg. unfold llm_generate.
  rewrite (bind_ok tick_llm _ w _ _ eq_refl). cbn [fst snd]. rewrite Hc, Hg.
  eexists. split; [reflexivity|]. unfold at_obj. cbn. auto.
Qed.

Lemma llm_generate_raise (prompt agent_name : string) (e : Exception) (l : nat)
    (w : World) (c : nat) (lg : list (string * string * string)) :
  at_obj key l w c lg ->
  LLMClient.generate (llm_client self) c prompt agent_name = Raise e ->
  exists w', llm_generate self prompt agent_name w = (Raise e, w')
    /\ heap w' l = heap w l /\ at_obj key l w' (S c) lg.
Proof.
  intros (Hl & Hc & Hs & Hk) Hg. unfold llm_generate.
  rewrite (bind_ok tick_llm _ w _ _ eq_refl). cbn [fst snd]. rewrite Hc, Hg.
  eexists. split; [reflexivity|]. unfold at_obj. cbn. auto.
Qed.

(** One stage: read the run, generate, append the message, then the
    stage's own steps, then persist. *)
Ltac stage_generate Hat Hgen agent l w c lg resp w1 Hh1 Hat1 :=
  rewrite (bind_ok (get_obj l) _ w _ _ eq_refl);
  match goal with
  | |- context [llm_generate self ?p agent] =>
      let Hresp := fresh "Hresp" in
      let H1 := fresh "H1" in
      destruct (Hgen p agent) as [resp Hresp];
      destruct (llm_generate_ok p agent resp l w c lg Hat Hresp)
        as (w1 & H1 & Hh1 & Hat1);
      rewrite (bind_ok _ _ _ _ _ H1)
  end.

Ltac stage_append Hat1 role step m w2 Hrole Hcontent Hstep Happ Hat2 :=
  match goal with
  | |- context [add_message E ?l role ?resp step ?md] =>
      let H2 := fresh "H2" in
      destruct (add_message_at l role resp step md _ _ _ Hat1)
        as (m & w2 & H2 & Hrole & Hcontent & Hstep & Happ & Hat2);
      rewrite (bind_ok _ _ _ _ _ H2)
  end.

Ltac stage_persist Hat2 l w3 Hh3 Hat3 :=
  let b := fresh "b" in
  let H3 := fresh "H3" in
  destruct (update_run_at l _ _ _ Hat2) as (b & w3 & H3 & Hh3 & Hat3);
  rewrite (bind_ok _ _ _ _ _ H3).

Lemma _run_strategist_ok (l : nat) (w : World) (c : nat)
    (lg : list (string * string * string)) :
  at_obj key l w c lg ->
  (forall p a, exists resp, LLMClient.generate (llm_client self) c p a = Ok resp) ->
  exists m w', _run_strategist D E self l w = (Ok tt, w')
    /\ appended m (heap w l) (heap w' l)
    /\ Message.role m = STRATEGIST /\ Message.step m = 1%Z
    /\ at_obj key l w' (S c) lg.
Proof.
  intros Hat Hgen. unfold _run_strategist.
  stage_generate Hat Hgen "strategist" l w c lg resp w1 Hh1 Hat1.
  stage_append Hat1 STRATEGIST 1%Z m w2 Hrole Hcontent Hstep Happ Hat2.
  stage_persist Hat2 l w3 Hh3 Hat3.
  exists m, w3. split; [reflexivity|].
  rewrite Hh1 in Happ. rewrite Hh3. auto.
Qed.

Lemma _run_architect_ok (l : nat) (w : World) (c : nat)
    (lg : list (string * string * string)) :
  at_obj key l w c lg ->
  (forall p a, exists resp, LLMClient.generate (llm_client self) c p a = Ok resp) ->
  exists m w', _run_architect D E self l w = (Ok tt, w')
    /\ appended m (heap w l) (heap w' l)
    /\ Message.role m = ARCHITECT /\ Message.step m = 2%Z
    /\ at_obj key l w' (S c) lg.
Proof.
  intros Hat Hgen. unfold _run_architect.
  stage_generate Hat Hgen "architect" l w c lg resp w1 Hh1 Hat1.
  stage_append Hat1 ARCHITECT 2%Z m w2 Hrole Hcontent Hstep Happ Hat2.
  stage_persist Hat2 l w3 Hh3 Hat3.
  exists m, w3. split; [reflexivity|].
  rewrite Hh1 in Happ. rewrite Hh3. auto.
Qed.

Lemma _run_ux_writer_ok (l : nat) (w : World) (c : nat)
    (lg : list (string * string * string)) :
  at_obj key l w c lg ->
  (forall p a, exists resp, LLMClient.generate (llm_client self) c p a = Ok resp) ->
  exists m w', _run_ux_writer D E self l w = (Ok tt, w')
    /\ appended m (heap w l) (heap w' l)
    /\ Message.role m = UX_WRITER /\ Message.step m = 3%Z
    /\ at_obj key l w' (S c) lg.
Proof.
  intros Hat Hgen. unfold _run_ux_writer.
  stage_generate Hat Hgen "ux_writer" l w c lg resp w1 Hh1 Hat1.
  stage_append Hat1 UX_WRITER 3%Z m w2 Hrole Hcontent Hstep Happ Hat2.
  stage_persist Hat2 l w3 Hh3 Hat3.
  exists m, w3. split; [reflexivity|].
  rewrite Hh1 in Happ. rewrite Hh3. auto.
Qed.

(** A generation call that raises leaves the stage before any message
    is appended. *)
Lemma _run_ux_writer_raise (l : nat) (w : World) (c : nat)
    (lg : list (string * string * string)) (e : Exception) :
  at_obj key l w c lg ->
  (forall p a, LLMClient.generate (llm_client self) c p a = Raise e) ->
  exists w', _run_ux_writer D E self l w = (Raise e, w')
    /\ heap w' l = heap w l /\ at_obj key l w' (S c) lg.
Proof.
  intros Hat Hgen. unfold _run_ux_writer.
  rewrite (bind_ok (get_obj l) _ w _ _ eq_refl).
  match goal with
  | |- context [llm_generate self ?p "ux_writer"] =>
      destruct (llm_generate_raise p "ux_writer" e l w c lg Hat (Hgen _ _))
        as (w1 & H1 & Hh1 & Hat1);
      rewrite (bind_raise _ _ _ _ _ H1)
  end.
  exists w1. auto.
Qed.

Lemma _run_mockup_designer_ok (l : nat) (w : World) (c : nat)
    (lg : list (string * string * string)) :
  at_obj key l w c lg ->
  (forall p a, exists resp, LLMClient.generate (llm_client self) c p a = Ok resp) ->
  parse_is_handled D (llm_client self) c ->
  exists m w', _run_mockup_designer D E self l w = (Ok tt, w')
    /\ appended m (heap w l) (heap w' l)
    /\ Message.role m = MOCKUP_DESIGNER /\ Message.step m = 4%Z
    /\ at_obj key l w' (S c)
         (lg ++ [(Run.id (heap w l), "mockup_json", mockup_payload D (Message.content m))]).
Proof.
  intros Hat Hgen Hparse. unfold _run_mockup_designer.
  rewrite (bind_ok (get_obj l) _ w _ _ eq_refl).
  match goal with
  | |- context [llm_generate self ?p "mockup_designer"] =>
      destruct (Hgen p "mockup_designer") as [resp Hresp];
      pose proof (Hparse p "mockup_designer" resp Hresp) as Hesc;
      destruct (llm_generate_ok p "mockup_designer" resp l w c lg Hat Hresp)
        as (w1 & H1 & Hh1 & Hat1);
      rewrite (bind_ok _ _ _ _ _ H1)
  end.
  stage_append Hat1 MOCKUP_DESIGNER 4%Z m w2 Hrole Hcontent Hstep Happ Hat2.
  destruct (save_artifact_at (Run.id (heap w l)) "mockup_json"
              (mockup_payload D resp) l w2 _ _ Hat2)
    as (b & w3 & H3 & Hh3 & Hat3).
  assert (Htry : try_except_class is_JSONDecodeError
    (mockup_data ← match json_loads D resp with
                   | Ok v => mret v
                   | Raise e => raise e
                   end;
     save_artifact D E (Run.id (heap w l)) "mockup_json"
       (json_dumps D (Some 2%nat) mockup_data))
    (fun _ => save_artifact D E (Run.id (heap w l)) "mockup_json" resp) w2
    = (Ok b, w3)).
  { unfold try_except_class, mockup_payload, parse_escapes in *.
    destruct (json_loads D resp) as [v|e].
    - rewrite (bind_ok (mret v) _ w2 _ _ eq_refl), H3. reflexivity.
    - rewrite (bind_raise (raise e) _ w2 _ _ eq_refl).
      destruct (is_JSONDecodeError e); [exact H3 | discriminate]. }
  rewrite (bind_ok _ _ _ _ _ Htry).
  stage_persist Hat3 l w4 Hh4 Hat4.
  exists m, w4. split; [reflexivity|].
  rewrite Hh1 in Happ. rewrite Hh4, Hh3, Hcontent. auto.
Qed.

Lemma _run_synthesizer_ok (l : nat) (w : World) (c : nat)
    (lg : list (string * string * string)) :
  at_obj key l w c lg ->
  (forall p a, exists resp, LLMClient.generate (llm_client self) c p a = Ok resp) ->
  exists m w', _run_synthesizer D E self l w = (Ok tt, w')
    /\ appended m (heap w l) (heap w' l)
    /\ Message.role m = SYNTHESIZER /\ Message.step m = 5%Z
    /\ at_obj key l w' (S c)
         (lg ++ [(Run.id (heap w l), "prd_markdown", Message.content m)]).
Proof.
  intros Hat Hgen. unfold _run_synthesizer, _format_conversation_history.
  rewrite (bind_ok (get_obj l ≫= _) _ w w _ eq_refl).
  match goal with
  | |- context [llm_generate self ?p "synthesizer"] =>
      destruct (Hgen p "synthesizer") as [resp Hresp];
      destruct (llm_generate_ok p "synthesizer" resp l w c lg Hat Hresp)
        as (w1 & H1 & Hh1 & Hat1);
      rewrite (bind_ok _ _ _ _ _ H1)
  end.
  stage_append Hat1 SYNTHESIZER 5%Z m w2 Hrole Hcontent Hstep Happ Hat2.
  rewrite (bind_ok (get_obj l) _ w2 _ _ eq_refl).
  destruct (save_artifact_at (Run.id (heap w2 l)) "prd_markdown" resp l w2 _ _ Hat2)
    as (b & w3 & H3 & Hh3 & Hat3).
  rewrite (bind_ok _ _ _ _ _ H3).
  destruct (_generate_pdf_at l resp l w3 _ _ Hat3) as (w4 & H4 & Hh4 & Hat4).
  rewrite (bind_ok _ _ _ _ _ H4).
  stage_persist Hat4 l w5 Hh5 Hat5.
  exists m, w5. split; [reflexivity|].
  rewrite Hh1 in Happ. rewrite Hh5, Hh4, Hh3, Hcontent.
  assert (Hid : Run.id (heap w2 l) = Run.id (heap w l))
    by (destruct Happ as [now ->]; reflexivity).
  rewrite Hid in Hat5. auto.
Qed.

Lemma appended_fields (m : Message.t) (r r' : Run.t) :
  appended m r r' ->
  Run.messages r' = Run.messages r ++ [m]
  /\ Run.status r' = Run.status r
  /\ Run.id r' = Run.id r
  /\ Run.idea r' = Run.idea r
  /\ Run.completed_at r' = Run.completed_at r.
Proof. intros [now ->]. cbn. auto. Qed.

Lemma _save_conversation_artifact_at (l : nat) (w : World) (c : nat)
    (lg : list (string * string * string)) :
  at_obj key l w c lg ->
  exists conv w', _save_conversation_artifact D E l w = (Ok tt, w')
    /\ heap w' l = heap w l
    /\ at_obj key l w' c (lg ++ [(Run.id (heap w l), "conversation", conv)]).
Proof.
  intros Hat. unfold _save_conversation_artifact.
  rewrite (bind_ok (get_obj l) _ w _ _ eq_refl).
  destruct (save_artifact_at (Run.id (heap w l)) "conversation"
              (json_dumps D (Some 2%nat) (conversation_data D (heap w l))) l w _ _ Hat)
    as (b & w' & H & Hh & Hat').
  rewrite (bind_ok _ _ _ _ _ H).
  eexists _, w'. split; [reflexivity|]. split; [exact Hh | exact Hat'].
Qed.

(** The body of the [try] when the five generation calls return and
    the answer of stage 4 is parsed or refused as not JSON. *)
Lemma run_agents_body_ok (l : nat) (w : World) (c : nat)
    (lg : list (string * string * string)) :
  at_obj key l w c lg ->
  generation_succeeds (llm_client self) c 5 ->
  parse_is_handled D (llm_client self) (3 + c) ->
  exists m1 m2 m3 m4 m5 conv w',
    run_agents_body D E self l w = (Ok l, w')
    /\ Run.status (heap w' l) = COMPLETED
    /\ Run.messages (heap w' l) = Run.messages (heap w l) ++ [m1; m2; m3; m4; m5]
    /\ Run.id (heap w' l) = Run.id (heap w l)
    /\ Run.idea (heap w' l) = Run.idea (heap w l)
    /\ stage_message STRATEGIST 1 m1
    /\ stage_message ARCHITECT 2 m2
    /\ stage_message UX_WRITER 3 m3
    /\ stage_message MOCKUP_DESIGNER 4 m4
    /\ stage_message SYNTHESIZER 5 m5
    /\ at_obj key l w' (5 + c)
         (lg ++ [(Run.id (heap w l), "mockup_json", mockup_payload D (Message.content m4));
                 (Run.id (heap w l), "prd_markdown", Message.content m5);
                 (Run.id (heap w l), "conversation", conv)]).
Proof.
  intros Hat Hgen Hparse. unfold run_agents_body.
  destruct (_run_strategist_ok l w c lg Hat (Hgen 0 ltac:(lia)))
    as (m1 & w1 & H1 & A1 & R1 & S1 & Hat1).
  rewrite (bind_ok _ _ _ _ _ H1).
  destruct (_run_architect_ok l w1 _ _ Hat1 (Hgen 1 ltac:(lia)))
    as (m2 & w2 & H2 & A2 & R2 & S2 & Hat2).
  rewrite (bind_ok _ _ _ _ _ H2).
  destruct (_run_ux_writer_ok l w2 _ _ Hat2 (Hgen 2 ltac:(lia)))
    as (m3 & w3 & H3 & A3 & R3 & S3 & Hat3).
  rewrite (bind_ok _ _ _ _ _ H3).
  destruct (_run_mockup_designer_ok l w3 _ _ Hat3 (Hgen 3 ltac:(lia)) Hparse)
    as (m4 & w4 & H4 & A4 & R4 & S4 & Hat4).
  rewrite (bind_ok _ _ _ _ _ H4).
  destruct (_run_synthesizer_ok l w4 _ _ Hat4 (Hgen 4 ltac:(lia)))
    as (m5 & w5 & H5 & A5 & R5 & S5 & Hat5).
  rewrite (bind_ok _ _ _ _ _ H5).
  destruct (update_status_at l COMPLETED w5 _ _ Hat5)
    as (w6 & H6 & St6 & Ms6 & Id6 & Ia6 & Hat6).
  rewrite (bind_ok _ _ _ _ _ H6).
  destruct (update_run_at l w6 _ _ Hat6) as (b & w7 & H7 & Hh7 & Hat7).
  rewrite (bind_ok _ _ _ _ _ H7).
  destruct (_save_conversation_artifact_at l w7 _ _ Hat7)
    as (conv & w8 & H8 & Hh8 & Hat8).
  rewrite (bind_ok _ _ _ _ _ H8).
  apply appended_fields in A1 as (M1 & _ & I1 & J1 & _).
  apply appended_fields in A2 as (M2 & _ & I2 & J2 & _).
  apply appended_fields in A3 as (M3 & _ & I3 & J3 & _).
  apply appended_fields in A4 as (M4 & _ & I4 & J4 & _).
  apply appended_fields in A5 as (M5 & _ & I5 & J5 & _).
  rewrite J1 in J2. rewrite J2 in J3. rewrite J3 in J4. rewrite J4 in J5.
  rewrite J5 in Ia6.
  rewrite I1 in I2. rewrite I2 in I3. rewrite I3 in I4. rewrite I4 in I5.
  rewrite I5 in Id6. rewrite M1 in M2. rewrite M2 in M3. rewrite M3 in M4.
  rewrite M4 in M5. rewrite M5 in Ms6.
  rewrite Hh7, Id6, I4, I3 in Hat8.
  exists m1, m2, m3, m4, m5, conv, w8. split; [reflexivity|].
  rewrite Hh8, Hh7, St6, Ms6, Id6, Ia6.
  rewrite <- !app_assoc in Hat8. rewrite <- !app_assoc. cbn [app] in *.
  unfold stage_message.
  repeat match goal with |- _ /\ _ => split end; try assumption; reflexivity.
Qed.

(** The five stages in turn, when the five generation calls return and
    the answer of stage 4 is parsed or refused as not JSON. *)
Lemma run_stages_ok (l : nat) (w : World) (c : nat)
    (lg : list (string * string * string)) :
  at_obj key l w c lg ->
  generation_succeeds (llm_client self) c 5 ->
  parse_is_handled D (llm_client self) (3 + c) ->
  exists w', run_stages D E self l w = (Ok tt, w').
Proof.
  intros Hat Hgen Hparse. unfold run_stages.
  destruct (_run_strategist_ok l w c lg Hat (Hgen 0 ltac:(lia)))
    as (m1 & w1 & H1 & _ & _ & _ & Hat1).
  rewrite (bind_ok _ _ _ _ _ H1).
  destruct (_run_architect_ok l w1 _ _ Hat1 (Hgen 1 ltac:(lia)))
    as (m2 & w2 & H2 & _ & _ & _ & Hat2).
  rewrite (bind_ok _ _ _ _ _ H2).
  destruct (_run_ux_writer_ok l w2 _ _ Hat2 (Hgen 2 ltac:(lia)))
    as (m3 & w3 & H3 & _ & _ & _ & Hat3).
  rewrite (bind_ok _ _ _ _ _ H3).
  destruct (_run_mockup_designer_ok l w3 _ _ Hat3 (Hgen 3 ltac:(lia)) Hparse)
    as (m4 & w4 & H4 & _ & _ & _ & Hat4).
  rewrite (bind_ok _ _ _ _ _ H4).
  destruct (_run_synthesizer_ok l w4 _ _ Hat4 (Hgen 4 ltac:(lia)))
    as (m5 & w5 & H5 & _).
  rewrite (bind_ok _ _ _ _ _ H5).
  exists w5. reflexivity.
Qed.

(** The body of the [try] when the third generation call raises. *)
Lemma run_agents_body_raise3 (l : nat) (w : World) (c : nat)
    (lg : list (string * string * string)) (e : Exception) :
  at_obj key l w c lg ->
  generation_succeeds (llm_client self) c 2 ->
  (forall p a, LLMClient.generate (llm_client self) (2 + c) p a = Raise e) ->
  exists m1 m2 w',
    run_agents_body D E self l w = (Raise e, w')
    /\ Run.messages (heap w' l) = Run.messages (heap w l) ++ [m1; m2]
    /\ stage_message STRATEGIST 1 m1
    /\ stage_message ARCHITECT 2 m2
    /\ at_obj key l w' (3 + c) lg.
Proof.
  intros Hat Hgen Hraise. unfold run_agents_body.
  destruct (_run_strategist_ok l w c lg Hat (Hgen 0 ltac:(lia)))
    as (m1 & w1 & H1 & A1 & R1 & S1 & Hat1).
  rewrite (bind_ok _ _ _ _ _ H1).
  destruct (_run_architect_ok l w1 _ _ Hat1 (Hgen 1 ltac:(lia)))
    as (m2 & w2 & H2 & A2 & R2 & S2 & Hat2).
  rewrite (bind_ok _ _ _ _ _ H2).
  destruct (_run_ux_writer_raise l w2 _ _ e Hat2 Hraise) as (w3 & H3 & Hh3 & Hat3).
  rewrite (bind_raise _ _ _ _ _ H3).
  apply appended_fields in A1 as (M1 & _).
  apply appended_fields in A2 as (M2 & _).
  exists m1, m2, w3. split; [reflexivity|].
  rewrite Hh3, M2, M1, <- app_assoc. unfold stage_message. auto.
Qed.

(** The steps of [run_agents] before the [try]. *)
Lemma run_agents_start (run : nat) (w w0 : World) :
  cache_valid w ->
  get_run D E key w = (Ok (Some run), w0) ->
  exists b w1,
    (update_status E run RUNNING ≫= fun _ => update_run D E run) w0 = (Ok b, w1)
    /\ run_agents D E self key w
       = try_except (run_agents_body D E self run)
           (fun e => update_status E run FAILED ;; update_run D E run ;; raise e) w1
    /\ Run.status (heap w1 run) = RUNNING
    /\ Run.messages (heap w1 run) = Run.messages (heap w0 run)
    /\ Run.id (heap w1 run) = Run.id (heap w0 run)
    /\ Run.idea (heap w1 run) = Run.idea (heap w0 run)
    /\ at_obj key run w1 (llm_calls w) (saved w).
Proof.
  intros Hv Hg.
  assert (Hat0 : at_obj key run w0 (llm_calls w) (saved w)).
  { destruct (get_run_spec run key w) as (o & w0' & Hg' & (_ & _ & Hc & _) & Hs).
    rewrite Hg in Hg'. inversion Hg'; subst.
    split; [eapply get_run_found; eauto|].
    split; [exact Hc|]. split; [exact Hs|].
    eapply get_run_cached, Hg. }
  destruct (update_status_at run RUNNING w0 _ _ Hat0)
    as (wa & Ha & Sa & Ma & Ia & Ja & Hata).
  destruct (update_run_at run wa _ _ Hata) as (b & w1 & Hb & Hhb & Hatb).
  exists b, w1. split; [|split].
  - rewrite (bind_ok _ _ _ _ _ Ha). exact Hb.
  - unfold run_agents. rewrite (bind_ok _ _ _ _ _ Hg).
    rewrite (bind_ok _ _ _ _ _ Ha), (bind_ok _ _ _ _ _ Hb). reflexivity.
  - rewrite Hhb. auto.
Qed.

(** The [except] branch. *)
Lemma run_agents_handler (run : nat) (e : Exception) (w : World) (c : nat)
    (lg : list (string * string * string)) :
  at_obj key run w c lg ->
  exists w',
    (update_status E run FAILED ;; update_run D E run ;; raise e) w
      = (Raise e : Result nat, w')
    /\ Run.status (heap w' run) = FAILED
    /\ Run.messages (heap w' run) = Run.messages (heap w run)
    /\ at_obj key run w' c lg.
Proof.
  intros Hat.
  destruct (update_status_at run FAILED w _ _ Hat) as (wa & Ha & Sa & Ma & Ia & Ja & Hata).
  destruct (update_run_at run wa _ _ Hata) as (b & w1 & Hb & Hhb & Hatb).
  exists w1. rewrite (bind_ok _ _ _ _ _ Ha), (bind_ok _ _ _ _ _ Hb).
  split; [reflexivity|]. rewrite Hhb. auto.
Qed.

(** [run_agents] when the run exists, the five generation calls return
    and the answer of stage 4 is parsed or refused as not JSON. *)
Lemma run_agents_success (run : nat) (w w0 : World) :
  cache_valid w ->
  get_run D E key w = (Ok (Some run), w0) ->
  generation_succeeds (llm_client self) (llm_calls w) 5 ->
  parse_is_handled D (llm_client self) (3 + llm_calls w) ->
  exists m1 m2 m3 m4 m5 conv b w1 w',
    (update_status E run RUNNING ≫= fun _ => update_run D E run) w0 = (Ok b, w1)
    /\ Run.status (heap w1 run) = RUNNING
    /\ run_agents_body D E self run w1 = (Ok run, w')
    /\ run_agents D E self key w = (Ok run, w')
    /\ Run.status (heap w' run) = COMPLETED
    /\ Run.idea (heap w' run) = Run.idea (heap w0 run)
    /\ _runs_cache w' !! key = Some run
    /\ Run.messages (heap w' run) = Run.messages (heap w0 run) ++ [m1; m2; m3; m4; m5]
    /\ stage_message STRATEGIST 1 m1
    /\ stage_message ARCHITECT 2 m2
    /\ stage_message UX_WRITER 3 m3
    /\ stage_message MOCKUP_DESIGNER 4 m4
    /\ stage_message SYNTHESIZER 5 m5
    /\ saved w' = saved w ++
         [(Run.id (heap w0 run), "mockup_json", mockup_payload D (Message.content m4));
          (Run.id (heap w0 run), "prd_markdown", Message.content m5);
          (Run.id (heap w0 run), "conversation", conv)].
Proof.
  intros Hv Hg Hgen Hparse.
  destruct (run_agents_start run w w0 Hv Hg)
    as (b & w1 & Hpre & Hrun & S1 & M1 & I1 & J1 & Hat1).
  destruct (run_agents_body_ok run w1 _ _ Hat1 Hgen Hparse)
    as (m1 & m2 & m3 & m4 & m5 & conv & w' & Hb & St & Ms & Id & Ia & P1 & P2 & P3 & P4
        & P5 & (_ & _ & Hs & Hca)).
  exists m1, m2, m3, m4, m5, conv, b, w1, w'.
  rewrite Hrun. unfold try_except. rewrite Hb, Ms, M1, Hs, I1, Ia, J1.
  repeat match goal with |- _ /\ _ => split end; try assumption; reflexivity.
Qed.

(** [run_agents] when the run exists and the third generation call
    raises. *)
Lemma run_agents_failure3 (run : nat) (w w0 : World) (e : Exception) :
  cache_valid w ->
  get_run D E key w = (Ok (Some run), w0) ->
  generation_succeeds (llm_client self) (llm_calls w) 2 ->
  (forall p a, LLMClient.generate (llm_client self) (2 + llm_calls w) p a = Raise e) ->
  exists m1 m2 w',
    run_agents D E self key w = (Raise e, w')
    /\ Run.status (heap w' run) = FAILED
    /\ _runs_cache w' !! key = Some run
    /\ Run.messages (heap w' run) = Run.messages (heap w0 run) ++ [m1; m2]
    /\ stage_message STRATEGIST 1 m1
    /\ stage_message ARCHITECT 2 m2.
Proof.
  intros Hv Hg Hgen Hraise.
  destruct (run_agents_start run w w0 Hv Hg)
    as (b & w1 & _ & Hrun & S1 & M1 & I1 & J1 & Hat1).
  destruct (run_agents_body_raise3 run w1 _ _ e Hat1 Hgen Hraise)
    as (m1 & m2 & w2 & Hb & Ms & P1 & P2 & Hat2).
  destruct (run_agents_handler run e w2 _ _ Hat2)
    as (w' & Hh & St & Ms' & (_ & _ & _ & Hca)).
  exists m1, m2, w'.
  rewrite Hrun. unfold try_except. rewrite Hb, Hh, Ms', Ms, M1.
  repeat match goal with |- _ /\ _ => split end; try assumption; reflexivity.
Qed.

End Stages.

End CoreFacts.

(** ** Runs as [create_run] leaves them *)

Lemma set_artifact_path_spec (E : Env) (l : nat) (artifact_type path : string)
    (w : World) :
  exists w', set_artifact_path E l artifact_type path w = (Ok tt, w')
    /\ Run.artifacts (heap w' l) = dict_set (Run.artifacts (heap w l)) artifact_type path
    /\ Run.id (heap w' l) = Run.id (heap w l)
    /\ Run.idea (heap w' l) = Run.idea (heap w l)
    /\ Run.status (heap w' l) = Run.status (heap w l)
    /\ Run.messages (heap w' l) = Run.messages (heap w l)
    /\ Run.completed_at (heap w' l) = Run.completed_at (heap w l)
    /\ next_ref w' = next_ref w /\ llm_calls w' = llm_calls w
    /\ _runs_cache w' = _runs_cache w /\ files w' = files w.
Proof.
  unfold set_artifact_path. unfold_monad.
  eexists. split; [reflexivity|]. cbn. rewrite Nat.eqb_refl. cbn.
  repeat match goal with |- _ /\ _ => split end; reflexivity.
Qed.

(** A write that returns has put the content under the path and has left
    the objects and the cache alone. *)
Lemma write_file_written (E : Env) (path content : string) (w w' : World) :
  write_file E path content w = (Ok tt, w') ->
  files w' !! path = Some content
  /\ heap w' = heap w /\ next_ref w' = next_ref w
  /\ llm_calls w' = llm_calls w /\ _runs_cache w' = _runs_cache w.
Proof.
  unfold write_file. destruct (String.eqb path "."); [discriminate|].
  unfold_monad. destruct (io_at E (io_ops w)) as [|[|]]; cbn; try discriminate.
  intros H. inversion H; subst; clear H. cbn.
  repeat match goal with |- _ /\ _ => split end; try reflexivity.
  apply lookup_insert_eq.
Qed.

(** A run that [create_run] returns is pending, holds the idea and no
    message, and is written to its [run.json]; the cache is as before. *)
Lemma create_run_fresh (D : Deps) (E : Env) (idea : string) (w w' : World) (run : nat) :
  create_run D E idea w = (Ok run, w') ->
  Run.idea (heap w' run) = idea
  /\ Run.status (heap w' run) = PENDING
  /\ Run.messages (heap w' run) = []
  /\ Run.completed_at (heap w' run) = None
  /\ map fst (Run.artifacts (heap w' run))
     = ["prd_markdown"; "prd_pdf"; "conversation"; "mockup_json"; "bundle"]
  /\ files w' !! run_path E (Run.id (heap w' run)) = Some (encode_run D (heap w' run))
  /\ _runs_cache w' = _runs_cache w
  /\ next_ref w' = S (next_ref w)
  /\ run = next_ref w
  /\ llm_calls w' = llm_calls w.
Proof.
  unfold create_run.
  rewrite (bind_ok (uuid4 E) _ w _ _ eq_refl).
  rewrite (bind_ok (utcnow E) _ _ _ _ eq_refl).
  rewrite (bind_ok (utcnow E) _ _ _ _ eq_refl).
  rewrite (bind_ok (alloc _) _ _ _ _ eq_refl).
  cbn [next_ref].
  set (l := next_ref w).
  set (w0 := mkWorld _ _ _ _ _ _ _ _ _).
  assert (H0 : heap w0 l
    = Run.mk (uuid4_at E (uuid_draws w)) idea PENDING
        (utcnow_at E (clock_reads w)) (utcnow_at E (S (clock_reads w)))
        None [] [] [] [] []).
  { subst w0. cbn. rewrite Nat.eqb_refl. reflexivity. }
  assert (F0 : next_ref w0 = S l /\ llm_calls w0 = llm_calls w
               /\ _runs_cache w0 = _runs_cache w) by (subst w0; cbn; auto).
  clearbody w0.
  set (run_dir := runs_dir E +:+ "/" +:+ uuid4_at E (uuid_draws w)).
  destruct (set_artifact_path_spec E l "prd_markdown" (run_dir +:+ "/PRD.md") w0)
    as (w1 & R1 & A1 & I1 & J1 & S1 & M1 & C1 & N1 & L1 & K1 & _).
  rewrite (bind_ok _ _ _ _ _ R1).
  destruct (set_artifact_path_spec E l "prd_pdf" (run_dir +:+ "/PRD.pdf") w1)
    as (w2 & R2 & A2 & I2 & J2 & S2 & M2 & C2 & N2 & L2 & K2 & _).
  rewrite (bind_ok _ _ _ _ _ R2).
  destruct (set_artifact_path_spec E l "conversation"
              (run_dir +:+ "/conversation.json") w2)
    as (w3 & R3 & A3 & I3 & J3 & S3 & M3 & C3 & N3 & L3 & K3 & _).
  rewrite (bind_ok _ _ _ _ _ R3).
  destruct (set_artifact_path_spec E l "mockup_json" (run_dir +:+ "/mockup.json") w3)
    as (w4 & R4 & A4 & I4 & J4 & S4 & M4 & C4 & N4 & L4 & K4 & _).
  rewrite (bind_ok _ _ _ _ _ R4).
  destruct (set_artifact_path_spec E l "bundle" (run_dir +:+ "/bundle.zip") w4)
    as (w5 & R5 & A5 & I5 & J5 & S5 & M5 & C5 & N5 & L5 & K5 & _).
  rewrite (bind_ok _ _ _ _ _ R5).
  assert (Hsave : _save_run D E l w5
    = write_file E (run_path E (Run.id (heap w5 l))) (encode_run D (heap w5 l)) w5)
    by reflexivity.
  destruct (_save_run D E l w5) as [[[]|e] w6] eqn:Hw.
  2:{ rewrite (bind_raise _ _ _ _ _ Hw). discriminate. }
  rewrite (bind_ok _ _ _ _ _ Hw). intros H. inversion H; subst run w6; clear H.
  symmetry in Hsave. apply write_file_written in Hsave as (Hf & Hh & Hn & Hl & Hk).
  rewrite Hh, Hf, Hn, Hl, Hk.
  rewrite J5, J4, J3, J2, J1, S5, S4, S3, S2, S1, M5, M4, M3, M2, M1.
  rewrite C5, C4, C3, C2, C1, A5, A4, A3, A2, A1, N5, N4, N3, N2, N1.
  rewrite L5, L4, L3, L2, L1, K5, K4, K3, K2, K1, H0.
  destruct F0 as (F1 & F2 & F3). rewrite F1, F2, F3. cbn.
  repeat match goal with |- _ /\ _ => split end; reflexivity.
Qed.

(** The scenario of the tests: a run is created for an idea and handed
    to [run_agents] by its id.  When the id is new to the cache, the
    written [run.json] reads back as the run, the five generation
    calls return and the answer of stage 4 is parsed or refused as not
    JSON, the run comes back completed with the five messages. *)
Lemma create_run_then_run_agents (D : Deps) (E : Env) (self : Orchestrator)
    (idea : string) (w w1 : World) (created : nat) :
  cache_valid w ->
  (forall r, decode_run D (encode_run D r) = Some r) ->
  create_run D E idea w = (Ok created, w1) ->
  _runs_cache w !! Run.id (heap w1 created) = None ->
  generation_succeeds (llm_client self) (llm_calls w) 5 ->
  parse_is_handled D (llm_client self) (3 + llm_calls w) ->
  exists run w',
    run_agents D E self (Run.id (heap w1 created)) w1 = (Ok run, w')
    /\ Run.idea (heap w' run) = idea
    /\ Run.status (heap w' run) = COMPLETED
    /\ map Message.step (Run.messages (heap w' run)) = [1; 2; 3; 4; 5]%Z
    /\ map Message.role (Run.messages (heap w' run))
       = [STRATEGIST; ARCHITECT; UX_WRITER; MOCKUP_DESIGNER; SYNTHESIZER].
Proof.
  intros Hv Hrt Hc Hnew Hgen Hparse.
  destruct (create_run_fresh D E idea w w1 created Hc)
    as (Hidea & _ & Hnil & _ & _ & Hfile & Hcache & Hnext & _ & Hllm).
  set (run_id := Run.id (heap w1 created)) in *.
  assert (Hv1 : cache_valid w1).
  { intros k l Hk. rewrite Hcache in Hk. apply Hv in Hk. lia. }
  assert (Hg : exists w2,
    get_run D E run_id w1 = (Ok (Some (next_ref w1)), w2)
    /\ heap w2 (next_ref w1) = heap w1 created).
  { unfold get_run. unfold_monad. rewrite Hcache, Hnew, Hfile, Hrt. cbn.
    eexists. split; [reflexivity|]. cbn. rewrite Nat.eqb_refl. reflexivity. }
  destruct Hg as (w2 & Hg & Hobj).
  rewrite <- Hllm in Hgen, Hparse.
  destruct (run_agents_success D E run_id self (next_ref w1) w1 w2 Hv1 Hg Hgen Hparse)
    as (m1 & m2 & m3 & m4 & m5 & conv & b & w3 & w' & _ & _ & _ & Hrun & St & Ia & _
        & Ms & [R1 S1] & [R2 S2] & [R3 S3] & [R4 S4] & [R5 S5] & _).
  exists (next_ref w1), w'. rewrite Ms, Ia, Hobj, Hnil, Hidea. cbn.
  rewrite R1, R2, R3, R4, R5, S1, S2, S3, S4, S5.
  repeat match goal with |- _ /\ _ => split end; try assumption; reflexivity.
Qed.

(** ** Facts about the sample inputs *)

Lemma cache_valid_world_with (r : Run.t) : cache_valid (world_with r).
Proof.
  intros run_id l H. cbn in H.
  apply lookup_singleton_Some in H as [_ <-]. cbn. lia.
Qed.

Lemma cache_valid_empty_world : cache_valid empty_world.
Proof. intros run_id l H. cbn in H. rewrite lookup_empty in H. discriminate. Qed.

Lemma five_responses_succeed :
  generation_succeeds (mock_client five_responses) 0 5.
Proof.
  intros k Hk p a.
  do 5 (destruct k as [|k]; [eexists; reflexivity|]). lia.
Qed.

Lemma five_responses_parsed :
  parse_is_handled sample_deps (mock_client five_responses) 3.
Proof. intros p a response H. cbn in H. injection H as <-. reflexivity. Qed.

Lemma failing_third_succeeds_twice :
  generation_succeeds (mock_client failing_third) 0 2.
Proof.
  intros k Hk p a.
  do 2 (destruct k as [|k]; [eexists; reflexivity|]). lia.
Qed.

(** * The pipeline *)

(** C1.  The claim does not hold of the code when the answer of stage 4
    is a text that [json.loads] refuses with an exception other than
    [JSONDecodeError].  Here every generation call returns, and the
    fourth answer is an integer of 4301 digits: [json.loads] raises a
    plain [ValueError], the [except json.JSONDecodeError] of stage 4
    lets it through, and [run_agents] raises it again.  The run is
    failed, not completed, and holds the four messages of the steps 1
    to 4, not five. *)
Theorem long_integer_answer_fails_the_run :
  generation_succeeds (mock_client long_integer_fourth)
    (llm_calls (world_with pending_run)) 5
  /\ long_integer_run.1 = Raise (ValueError (digits_limit_message 4301))
  /\ Run.status (heap long_integer_run.2 0) = FAILED
  /\ map Message.step (Run.messages (heap long_integer_run.2 0)) = [1; 2; 3; 4]%Z
  /\ map Message.role (Run.messages (heap long_integer_run.2 0))
     = [STRATEGIST; ARCHITECT; UX_WRITER; MOCKUP_DESIGNER].
Proof.
  split.
  { intros k Hk p a. cbn [llm_calls world_with]. rewrite Nat.add_0_r.
    do 5 (destruct k as [|k]; [eexists; reflexivity|]). lia. }
  repeat split; vm_compute; reflexivity.
Qed.

(** C2. If the generation backend raises during stage 3 and the
    exception reaches the orchestrator, [run_agents] leaves the run with
    status failed and with the two messages of stages 1 and 2, steps 1
    and 2, appended and none for stage 3, and raises the same exception
    to its caller.  A run that held no message holds exactly two. *)
Theorem run_agents_stage_three_raises (D : Deps) (E : Env) (self : Orchestrator)
    (run_id : string) (run : nat) (w w0 : World) (e : Exception) :
  cache_valid w ->
  get_run D E run_id w = (Ok (Some run), w0) ->
  generation_succeeds (llm_client self) (llm_calls w) 2 ->
  (forall prompt agent_name,
     LLMClient.generate (llm_client self) (2 + llm_calls w) prompt agent_name = Raise e) ->
  exists m1 m2 w',
    run_agents D E self run_id w = (Raise e, w')
    /\ _runs_cache w' !! run_id = Some run
    /\ Run.status (heap w' run) = FAILED
    /\ Run.messages (heap w' run) = Run.messages (heap w0 run) ++ [m1; m2]
    /\ stage_message STRATEGIST 1 m1
    /\ stage_message ARCHITECT 2 m2
    /\ (Run.messages (heap w0 run) = [] ->
        length (Run.messages (heap w' run)) = 2
        /\ map Message.step (Run.messages (heap w' run)) = [1; 2]%Z).
Proof.
  intros Hv Hg Hgen Hraise.
  destruct (run_agents_failure3 D E run_id self run w w0 e Hv Hg Hgen Hraise)
    as (m1 & m2 & w' & Hrun & St & Hca & Ms & P1 & P2).
  exists m1, m2, w'. repeat match goal with |- _ /\ _ => split end; try assumption.
  intros Hnil. rewrite Ms, Hnil. destruct P1 as [_ S1], P2 as [_ S2].
  cbn. rewrite S1, S2. auto.
Qed.

Lemma run_agents_stage_three_raises_witness :
  exists m1 m2 w',
    run_agents sample_deps (sample_env (fun _ => IoOk))
      (sample_orchestrator failing_third) "run-1" (world_with pending_run)
    = (Raise (OtherError "RuntimeError" "backend raised"), w')
    /\ Run.status (heap w' 0) = FAILED
    /\ Run.messages (heap w' 0) = [m1; m2].
Proof.
  destruct (run_agents_stage_three_raises sample_deps (sample_env (fun _ => IoOk))
              (sample_orchestrator failing_third) "run-1" 0
              (world_with pending_run) (world_with pending_run)
              (OtherError "RuntimeError" "backend raised")
              (cache_valid_world_with pending_run) eq_refl
              failing_third_succeeds_twice (fun _ _ => eq_refl))
    as (m1 & m2 & w' & Hrun & _ & St & Ms & _).
  exists m1, m2, w'. auto.
Defined.

(** C6.  The claim does not hold of the code for an answer of stage 4
    that [json.loads] refuses with an exception other than
    [JSONDecodeError]: that parse outcome aborts the pipeline.  For the
    integer of 4301 digits the plain [ValueError] leaves stage 4 before
    [save_artifact] is called: nothing is handed to the store, under
    [mockup_json] or any other type, no [mockup.json] is written, and
    [run_agents] raises the exception. *)
Theorem long_integer_answer_reaches_no_sink :
  json_loads limited_codec (ones 4301) = Raise (ValueError (digits_limit_message 4301))
  /\ parse_escapes limited_codec (ones 4301) = Some (ValueError (digits_limit_message 4301))
  /\ (exists e, long_integer_run.1 = Raise e)
  /\ saved long_integer_run.2 = []
  /\ files long_integer_run.2 !! "data/runs/run-1/mockup.json" = None.
Proof.
  split; [vm_compute; reflexivity|].
  split; [vm_compute; reflexivity|].
  split; [eexists; vm_compute; reflexivity|].
  split; vm_compute; reflexivity.
Qed.

(** C7. When the store holds no run for [run_id], neither in its cache
    nor as a readable file, [run_agents] raises [ValueError("Run not
    found: ...")] to its caller and leaves the state as it was. *)
Theorem run_agents_unknown_run (D : Deps) (E : Env) (self : Orchestrator)
    (run_id : string) (w : World) :
  _runs_cache w !! run_id = None ->
  (forall data, files w !! run_path E run_id = Some data -> decode_run D data = None) ->
  run_agents D E self run_id w
  = (Raise (ValueError ("Run not found: " +:+ run_id)), w).
Proof.
  intros Hc Hf.
  assert (Hg : get_run D E run_id w = (Ok None, w)).
  { unfold get_run. unfold_monad. rewrite Hc.
    destruct (files w !! run_path E run_id) as [data|]; [|reflexivity].
    rewrite (Hf data eq_refl). reflexivity. }
  unfold run_agents. rewrite (bind_ok _ _ _ _ _ Hg). reflexivity.
Qed.

Lemma run_agents_unknown_run_witness :
  run_agents sample_deps (sample_env (fun _ => IoOk))
    (sample_orchestrator five_responses) "no-such-run" empty_world
  = (Raise (ValueError "Run not found: no-such-run"), empty_world).
Proof.
  apply (run_agents_unknown_run sample_deps (sample_env (fun _ => IoOk))
           (sample_orchestrator five_responses) "no-such-run" empty_world).
  - reflexivity.
  - intros data H. reflexivity.
Defined.

(** C9 as the code has it.  [update_status] sets the requested status
    from any current status, completed and failed included.  Every call
    with [COMPLETED] stamps [completed_at] with the clock reading of
    that call, also on a run that is completed already; a call with
    another status leaves [completed_at] as it is, and so does
    [add_message], which leaves the status too.  [run_agents] asks
    nothing of the status of the run it finds: it sets it to running and
    goes on to the stages from there. *)
Theorem update_status_stamps_each_completion (D : Deps) (E : Env)
    (orchestrator : Orchestrator) (run_id : string) (self : nat)
    (status : RunStatus) (w : World) :
  (exists w',
     update_status E self status w = (Ok tt, w')
     /\ Run.status (heap w' self) = status
     /\ Run.completed_at (heap w' self)
        = if decide (status = COMPLETED)
          then Some (utcnow_at E (S (clock_reads w)))
          else Run.completed_at (heap w self))
  /\ (forall role content step metadata,
        exists m w',
          add_message E self role content step metadata w = (Ok m, w')
          /\ Run.status (heap w' self) = Run.status (heap w self)
          /\ Run.completed_at (heap w' self) = Run.completed_at (heap w self))
  /\ (forall w0,
        cache_valid w ->
        get_run D E run_id w = (Ok (Some self), w0) ->
        exists b w1,
          (update_status E self RUNNING ≫= fun _ => update_run D E self) w0 = (Ok b, w1)
          /\ Run.status (heap w1 self) = RUNNING
          /\ run_agents D E orchestrator run_id w
             = try_except (run_agents_body D E orchestrator self)
                 (fun e => update_status E self FAILED ;; update_run D E self ;; raise e)
                 w1).
Proof.
  split; [|split].
  - destruct (update_status_spec E self status w) as (w' & Hr & Hh & _).
    exists w'. split; [exact Hr|]. rewrite Hh.
    destruct (decide (status = COMPLETED)); cbn; auto.
  - intros role content step metadata.
    destruct (add_message_spec E self role content step metadata w)
      as (m & w' & Hr & _ & _ & _ & Happ & _).
    apply appended_fields in Happ as (_ & St & _ & _ & Ca).
    exists m, w'. auto.
  - intros w0 Hv Hg.
    destruct (run_agents_start D E run_id orchestrator self w w0 Hv Hg)
      as (b & w1 & Hpre & Hrun & St & _).
    exists b, w1. auto.
Qed.

Lemma update_status_stamps_each_completion_witness :
  Run.status (heap (world_with completed_run) 0) = COMPLETED
  /\ exists b w1,
       (update_status (sample_env (fun _ => IoOk)) 0 RUNNING
          ≫= fun _ => update_run sample_deps (sample_env (fun _ => IoOk)) 0)
         (world_with completed_run) = (Ok b, w1)
       /\ Run.status (heap w1 0) = RUNNING.
Proof.
  split; [reflexivity|].
  destruct (update_status_stamps_each_completion sample_deps (sample_env (fun _ => IoOk))
              (sample_orchestrator five_responses) "run-1" 0 RUNNING
              (world_with completed_run)) as (_ & _ & H).
  destruct (H (world_with completed_run) (cache_valid_world_with completed_run) eq_refl)
    as (b & w1 & Hpre & St & _).
  exists b, w1. auto.
Defined.

(** C9 fails as stated: on a run that completed at time 50, a second
    [update_status(COMPLETED)] overwrites [completed_at], and
    [update_status(RUNNING)] moves the run out of the completed state. *)
Lemma completed_run_is_restamped_and_reopened :
  let E := sample_env (fun _ => IoOk) in
  let w := world_with completed_run in
  Run.status (heap w 0) = COMPLETED
  /\ Run.completed_at (heap w 0) = Some 50%Z
  /\ Run.completed_at (heap (update_status E 0 COMPLETED w).2 0) = Some 1001%Z
  /\ Run.completed_at (heap (update_status E 0 COMPLETED w).2 0)
     <> Run.completed_at (heap w 0)
  /\ Run.status (heap (update_status E 0 RUNNING w).2 0) = RUNNING
  /\ Run.status (heap (update_status E 0 RUNNING w).2 0) <> Run.status (heap w 0).
Proof.
  cbv zeta. repeat split; try (vm_compute; reflexivity); vm_compute; discriminate.
Qed.

(** * The generation backend *)

(** C3 as the code has it.  Whatever the remote service does, [generate]
    of the AutoGen client returns and does not raise.  When a step of
    the remote call raises (initialisation, construction of an agent or
    the chat), or the chat leaves no response (no entry for
    [user_proxy], no message, or a last message without content), the
    result is the canned response of the stage with keyword replacement
    applied, the same text as the stub client returns.  A last message
    that has a content is answered with that content as it is, be it
    the empty text, [None] or an object that is no text. *)
Theorem autogen_generate_falls_back (D : Deps) (autogen : AutoGenLLMClient.AutoGen)
    (prompt agent_name : string) :
  (exists response,
     AutoGenLLMClient.generate D autogen prompt agent_name = Ok response)
  /\ (remote_response autogen = None ->
      AutoGenLLMClient.generate D autogen prompt agent_name
      = Ok (AutoGenLLMClient.PyText
              (StubLLMClient._apply_keyword_replacement
                 (get_stub_response D agent_name) prompt))
      /\ AutoGenLLMClient.generate D autogen prompt agent_name
         = as_object (StubLLMClient.generate D prompt agent_name))
  /\ (forall content, remote_response autogen = Some content ->
      AutoGenLLMClient.generate D autogen prompt agent_name = Ok content).
Proof.
  destruct autogen as [e|e|e|e|chat_messages];
    try (split; [eexists; reflexivity | split; [split; reflexivity | discriminate]]).
  destruct chat_messages as [|entry rest].
  { split; [eexists; reflexivity | split; [split; reflexivity | discriminate]]. }
  unfold AutoGenLLMClient.generate, StubLLMClient.generate, as_object,
    AutoGenLLMClient.attempt, remote_response.
  destruct (dict_get (entry :: rest) "user_proxy") as [messages|].
  2:{ split; [eexists; reflexivity | split; [split; reflexivity | discriminate]]. }
  cbn [mbind option_bind].
  destruct (last messages) as [message|].
  2:{ split; [eexists; reflexivity | split; [split; reflexivity | discriminate]]. }
  cbn [mbind option_bind].
  destruct (dict_get message "content") as [content|].
  - split; [eexists; reflexivity|]. split; [discriminate|].
    intros c Hc. inversion Hc. reflexivity.
  - split; [eexists; reflexivity | split; [split; reflexivity | discriminate]].
Qed.

Lemma autogen_generate_falls_back_witness :
  AutoGenLLMClient.generate sample_deps
    (AutoGenLLMClient.InitiateChatRaises (OSError "connection refused"))
    "An app for my workout" "strategist"
  = Ok (AutoGenLLMClient.PyText
          "Fitness Tracker: notes of the strategist on fitness tracking").
Proof.
  destruct (autogen_generate_falls_back sample_deps
              (AutoGenLLMClient.InitiateChatRaises (OSError "connection refused"))
              "An app for my workout" "strategist") as (_ & H & _).
  destruct (H eq_refl) as [H1 _]. rewrite H1. reflexivity.
Defined.

(** C3 fails as stated: an empty response of the remote service is not
    replaced by the canned response.  A chat whose last message has the
    empty text as content makes [generate] return the empty text, which
    is not what the stub client returns for the prompt; a content
    [None] is returned as [None]. *)
Lemma empty_remote_response_is_returned :
  let empty_answer := AutoGenLLMClient.ChatMessages
    [("user_proxy", [[("content", AutoGenLLMClient.PyText EmptyString);
                      ("role", AutoGenLLMClient.PyText "assistant")]])] in
  let none_answer := AutoGenLLMClient.ChatMessages
    [("user_proxy", [[("content", AutoGenLLMClient.PyNone);
                      ("role", AutoGenLLMClient.PyText "assistant")]])] in
  remote_response empty_answer = Some (AutoGenLLMClient.PyText EmptyString)
  /\ AutoGenLLMClient.generate sample_deps empty_answer "An app for my workout" "strategist"
     = Ok (AutoGenLLMClient.PyText EmptyString)
  /\ as_object (StubLLMClient.generate sample_deps "An app for my workout" "strategist")
     = Ok (AutoGenLLMClient.PyText
             "Fitness Tracker: notes of the strategist on fitness tracking")
  /\ AutoGenLLMClient.generate sample_deps empty_answer "An app for my workout" "strategist"
     <> as_object (StubLLMClient.generate sample_deps "An app for my workout" "strategist")
  /\ AutoGenLLMClient.generate sample_deps none_answer "An app for my workout" "strategist"
     = Ok AutoGenLLMClient.PyNone.
Proof.
  cbv zeta. split; [reflexivity|]. split; [reflexivity|].
  split; [vm_compute; reflexivity|].
  split; [vm_compute; discriminate | reflexivity].
Qed.

(** C4. Keyword replacement looks for the four keyword sets in the
    lower-cased prompt in the order fitness, finance, meditation,
    productivity; the first set with a keyword in the prompt decides the
    domain, and no match gives the generic phrases.  The result is the
    response with the six tokens replaced, one after the other, by the
    phrases of that domain.  For the four keyword domains every
    occurrence of a token is replaced by the phrase of the token, the
    text before and after it being treated on its own, and none of the
    six tokens is left in the result; a prompt with "workout" is of the
    fitness domain, which turns [Product] into "Fitness Tracker". *)
Theorem keyword_replacement_by_domain (response prompt : string) :
  let result := StubLLMClient._apply_keyword_replacement response prompt in
  result = substitute (detect_domain prompt) response
  /\ detect_domain prompt =
       (if any_keyword_in ["fitness"; "workout"; "exercise"; "gym"] prompt
        then Fitness
        else if any_keyword_in ["finance"; "budget"; "money"; "investment"; "banking"] prompt
        then Finance
        else if any_keyword_in ["meditation"; "mindfulness"; "relax"; "stress"; "mental"] prompt
        then Meditation
        else if any_keyword_in ["productivity"; "task"; "todo"; "schedule"; "project"; "team"] prompt
        then Productivity
        else Generic)
  /\ (detect_domain prompt <> Generic ->
      forall tok, In tok tokens -> contains tok result = false)
  /\ (detect_domain prompt <> Generic ->
      forall tok phrase before after,
        In (tok, phrase) (zip tokens (phrases (detect_domain prompt))) ->
        StubLLMClient._apply_keyword_replacement (before +:+ tok +:+ after) prompt
        = StubLLMClient._apply_keyword_replacement before prompt
          +:+ phrase +:+ StubLLMClient._apply_keyword_replacement after prompt)
  /\ (contains "workout" (lower prompt) = true ->
      detect_domain prompt = Fitness
      /\ substitute Fitness "[Product]" = "Fitness Tracker").
Proof.
  cbv zeta.
  assert (Hd : detect_domain prompt =
       (if any_keyword_in ["fitness"; "workout"; "exercise"; "gym"] prompt
        then Fitness
        else if any_keyword_in ["finance"; "budget"; "money"; "investment"; "banking"] prompt
        then Finance
        else if any_keyword_in ["meditation"; "mindfulness"; "relax"; "stress"; "mental"] prompt
        then Meditation
        else if any_keyword_in ["productivity"; "task"; "todo"; "schedule"; "project"; "team"] prompt
        then Productivity
        else Generic)).
  { unfold detect_domain. cbn [List.find keywords].
    repeat (destruct (any_keyword_in _ prompt); [reflexivity|]). reflexivity. }
  assert (Hr : forall r, StubLLMClient._apply_keyword_replacement r prompt
                         = substitute (detect_domain prompt) r).
  { intros r. rewrite Hd. unfold StubLLMClient._apply_keyword_replacement.
    repeat (destruct (any_keyword_in _ prompt); [reflexivity|]). reflexivity. }
  split; [apply Hr|]. split; [exact Hd|]. split; [|split].
  - intros Hg tok Htok. rewrite Hr. apply substitute_leaves_no_token; assumption.
  - intros Hg tok phrase before after Hin. rewrite !Hr.
    apply substitute_token; assumption.
  - intros Hw. split; [|reflexivity]. rewrite Hd.
    unfold any_keyword_in at 1. cbn [existsb]. rewrite Hw.
    rewrite orb_true_r. reflexivity.
Qed.

Lemma keyword_replacement_by_domain_witness :
  contains "[Product]"
    (StubLLMClient._apply_keyword_replacement
       "[Product] keeps every [item] of [problem domain]" "Plan my Workout")
  = false
  /\ detect_domain "Plan my Workout" = Fitness.
Proof.
  destruct (keyword_replacement_by_domain
              "[Product] keeps every [item] of [problem domain]" "Plan my Workout")
    as (_ & _ & Hclean & _ & Hw).
  split.
  - apply Hclean; [vm_compute; discriminate | cbn; tauto].
  - apply Hw. reflexivity.
Defined.

(** C5. The keyword replacement of the stub client and the one of the
    AutoGen client, used on its fallback path, return the same text for
    every response and prompt. *)
Theorem keyword_replacement_same_in_both_clients (response prompt : string) :
  StubLLMClient._apply_keyword_replacement response prompt
  = AutoGenLLMClient._apply_keyword_replacement response prompt.
Proof.
  unfold StubLLMClient._apply_keyword_replacement,
    AutoGenLLMClient._apply_keyword_replacement.
  repeat (destruct (any_keyword_in _ prompt); [reflexivity|]). reflexivity.
Qed.

(** * Further properties of the code *)

(** ** Keyword replacement *)

Lemma find_in_false_cons (t : list ascii) (c : ascii) (s : list ascii) :
  PyStr.find_in t (c :: s) = false ->
  PyStr.starts_with t (c :: s) = false /\ PyStr.find_in t s = false.
Proof. simpl. intros H. apply orb_false_iff in H. exact H. Qed.

(** Where [old] does not occur, [replace] changes nothing. *)
Lemma replace_chars_absent (o : ascii) (old' new s : list ascii) :
  PyStr.find_in (o :: old') s = false ->
  PyStr.replace_chars (o :: old') new s = s.
Proof.
  induction s as [|c s IH]; intros H; [reflexivity|].
  apply find_in_false_cons in H as [Hs Hf].
  rewrite (replace_chars_miss o old' new c s Hs), IH by exact Hf. reflexivity.
Qed.

Lemma find_in_needs_head (h : ascii) (t s : list ascii) :
  PyStr.find_in [h] s = false -> PyStr.find_in (h :: t) s = false.
Proof.
  induction s as [|c s IH]; intros H; [reflexivity|].
  apply find_in_false_cons in H as [Hs Hf].
  simpl in Hs |- *. rewrite andb_true_r in Hs. rewrite Hs, (IH Hf). reflexivity.
Qed.

Lemma replace_absent (s old new : string) :
  old <> EmptyString -> contains old s = false -> replace s old new = s.
Proof.
  unfold contains, replace. intros Hne H.
  destruct (chars old) as [|o old'] eqn:Ho.
  - exfalso. apply Hne. rewrite <- (text_chars old), Ho. reflexivity.
  - rewrite replace_chars_absent by exact H. apply text_chars.
Qed.

(** A sequence of replacements changes nothing where none of its tokens
    occurs. *)
Lemma fold_replace_absent (reps : list (string * string)) (s : string) :
  Forall (fun tp => tp.1 <> EmptyString /\ contains tp.1 s = false) reps ->
  fold_left (fun r tp => replace r tp.1 tp.2) reps s = s.
Proof.
  induction reps as [|[tok ph] reps IH]; intros H; [reflexivity|].
  inversion H as [|? ? [Hne Hc] Hrest]; subst. cbn [fold_left fst snd] in *.
  rewrite (replace_absent s tok ph Hne Hc). apply IH, Hrest.
Qed.

Lemma stub_replacement_is_substitute (response prompt : string) :
  StubLLMClient._apply_keyword_replacement response prompt
  = substitute (detect_domain prompt) response.
Proof.
  unfold detect_domain. cbn [List.find keywords].
  unfold StubLLMClient._apply_keyword_replacement.
  repeat (destruct (any_keyword_in _ prompt); [reflexivity|]). reflexivity.
Qed.

Lemma tokens_of_zip (d : Domain) : map fst (zip tokens (phrases d)) = tokens.
Proof. destruct d; reflexivity. Qed.

Lemma tokens_nonempty (tok : string) : In tok tokens -> tok <> EmptyString.
Proof. simpl. intuition (subst; discriminate). Qed.

Lemma tokens_have_bracket (tok : string) (s : string) :
  In tok tokens -> contains "[" s = false -> contains tok s = false.
Proof.
  unfold contains. intros Hin H.
  simpl in Hin. intuition (subst; apply (find_in_needs_head "["%char); exact H).
Qed.

(** X1.  A response without an opening bracket holds no placeholder and comes
    back unchanged, whatever the prompt. *)
Theorem replacement_keeps_plain_response (response prompt : string) :
  contains "[" response = false ->
  StubLLMClient._apply_keyword_replacement response prompt = response
  /\ AutoGenLLMClient._apply_keyword_replacement response prompt = response.
Proof.
  intros H.
  assert (Hs : StubLLMClient._apply_keyword_replacement response prompt = response).
  { rewrite stub_replacement_is_substitute. unfold substitute.
    apply fold_replace_absent. apply List.Forall_forall. intros [tok ph] Hin.
    assert (Htok : In tok tokens).
    { rewrite <- (tokens_of_zip (detect_domain prompt)).
      exact (in_map fst _ _ Hin). }
    split; [apply tokens_nonempty, Htok | apply tokens_have_bracket; assumption]. }
  split; [exact Hs|]. rewrite <- Hs at 2.
  unfold StubLLMClient._apply_keyword_replacement,
    AutoGenLLMClient._apply_keyword_replacement.
  repeat (destruct (any_keyword_in _ prompt); [reflexivity|]). reflexivity.
Qed.

Lemma replacement_keeps_plain_response_witness :
  StubLLMClient._apply_keyword_replacement "# Test PRD" "fitness app" = "# Test PRD".
Proof.
  apply (replacement_keeps_plain_response "# Test PRD" "fitness app"). reflexivity.
Defined.

(** X2.  For a prompt of one of the four keyword domains, replacing twice
    gives what replacing once gives. *)
Theorem replacement_idempotent_on_domains (response prompt : string) :
  detect_domain prompt <> Generic ->
  StubLLMClient._apply_keyword_replacement
    (StubLLMClient._apply_keyword_replacement response prompt) prompt
  = StubLLMClient._apply_keyword_replacement response prompt.
Proof.
  intros Hd. rewrite !stub_replacement_is_substitute.
  set (s := substitute (detect_domain prompt) response).
  unfold substitute at 1. apply fold_replace_absent.
  apply List.Forall_forall. intros [tok ph] Hin.
  assert (Htok : In tok tokens).
  { rewrite <- (tokens_of_zip (detect_domain prompt)).
    exact (in_map fst _ _ Hin). }
  split; [apply tokens_nonempty, Htok|].
  apply substitute_leaves_no_token; assumption.
Qed.

Lemma replacement_idempotent_on_domains_witness :
  StubLLMClient._apply_keyword_replacement
    (StubLLMClient._apply_keyword_replacement "[[item]] of [Product]" "my budget") "my budget"
  = StubLLMClient._apply_keyword_replacement "[[item]] of [Product]" "my budget".
Proof.
  apply (replacement_idempotent_on_domains "[[item]] of [Product]" "my budget").
  vm_compute. discriminate.
Defined.

(** Without a keyword in the prompt the generic phrases can leave a
    token, which a second replacement removes. *)
Example generic_replacement_not_idempotent :
  StubLLMClient._apply_keyword_replacement "[[item]]" "a note app" = "[item]"
  /\ StubLLMClient._apply_keyword_replacement "[item]" "a note app" = "item".
Proof. split; reflexivity. Qed.

Lemma any_keyword_in_lower_eq (keywords : list string) (p q : string) :
  lower p = lower q -> any_keyword_in keywords p = any_keyword_in keywords q.
Proof. intros H. unfold any_keyword_in. rewrite H. reflexivity. Qed.

Lemma stub_replacement_lower_eq (response p q : string) :
  lower p = lower q ->
  StubLLMClient._apply_keyword_replacement response p
  = StubLLMClient._apply_keyword_replacement response q.
Proof.
  intros H. unfold StubLLMClient._apply_keyword_replacement.
  rewrite !(any_keyword_in_lower_eq _ p q H). reflexivity.
Qed.

(** X3.  The prompt enters keyword replacement through its lower-case
    form only: two prompts with the same [lower()], as two that differ
    in the case of their letters, give the same result and the same
    domain. *)
Theorem replacement_ignores_prompt_case (response p q : string) :
  lower p = lower q ->
  StubLLMClient._apply_keyword_replacement response p
  = StubLLMClient._apply_keyword_replacement response q
  /\ detect_domain p = detect_domain q.
Proof.
  intros H. split; [apply stub_replacement_lower_eq, H|].
  unfold detect_domain. cbn [List.find].
  rewrite !(any_keyword_in_lower_eq _ p q H). reflexivity.
Qed.

Lemma replacement_ignores_prompt_case_witness :
  StubLLMClient._apply_keyword_replacement "[Product]" "Plan my WORKOUT"
  = StubLLMClient._apply_keyword_replacement "[Product]" "plan my workout".
Proof.
  apply (replacement_ignores_prompt_case "[Product]" "Plan my WORKOUT" "plan my workout").
  reflexivity.
Defined.

(** ** Artifact paths and the methods of [Run] *)

Lemma dict_get_set_eq {V} (d : list (string * V)) (key : string) (v : V) :
  dict_get (dict_set d key v) key = Some v.
Proof.
  induction d as [|[k v0] d IH]; cbn.
  - rewrite String.eqb_refl. reflexivity.
  - destruct (String.eqb k key) eqn:Hk; cbn; rewrite Hk; [reflexivity | exact IH].
Qed.

Lemma dict_get_set_ne {V} (d : list (string * V)) (key other : string) (v : V) :
  other <> key -> dict_get (dict_set d key v) other = dict_get d other.
Proof.
  intros Hne. induction d as [|[k v0] d IH]; cbn.
  - destruct (String.eqb_spec key other); [congruence | reflexivity].
  - destruct (String.eqb_spec k key) as [->|Hk]; cbn.
    + destruct (String.eqb_spec key other); [congruence | reflexivity].
    + rewrite IH. reflexivity.
Qed.

(** X4.  [set_artifact_path] followed by [get_artifact_path]: the type just
    set reads back as the path given, every other type reads as before,
    and no other object is touched. *)
Theorem set_then_get_artifact_path (E : Env) (self : nat)
    (artifact_type path : string) (w : World) :
  exists w', set_artifact_path E self artifact_type path w = (Ok tt, w')
    /\ Run.get_artifact_path (heap w' self) artifact_type = path
    /\ (forall other, other <> artifact_type ->
          Run.get_artifact_path (heap w' self) other
          = Run.get_artifact_path (heap w self) other)
    /\ (forall l, l <> self -> heap w' l = heap w l).
Proof.
  unfold set_artifact_path. unfold_monad.
  eexists. split; [reflexivity|]. cbn. rewrite Nat.eqb_refl.
  unfold Run.get_artifact_path. cbn. split; [|split].
  - rewrite dict_get_set_eq. reflexivity.
  - intros other Hne. rewrite dict_get_set_ne by exact Hne. reflexivity.
  - intros l Hl. destruct (Nat.eqb_spec l self); [contradiction | reflexivity].
Qed.

(** X5.  No method of [Run] changes the id, the idea, the creation time, the
    answers, the assumptions or the metadata of the run; each changes
    only its own part of the rest. *)
Theorem run_methods_keep_fixed_fields (E : Env) (self : nat) (w : World) :
  (forall role content step md, exists m w',
     add_message E self role content step md w = (Ok m, w')
     /\ same_fixed_fields (heap w self) (heap w' self)
     /\ Run.status (heap w' self) = Run.status (heap w self)
     /\ Run.completed_at (heap w' self) = Run.completed_at (heap w self)
     /\ Run.artifacts (heap w' self) = Run.artifacts (heap w self))
  /\ (forall status, exists w',
        update_status E self status w = (Ok tt, w')
        /\ same_fixed_fields (heap w self) (heap w' self)
        /\ Run.messages (heap w' self) = Run.messages (heap w self)
        /\ Run.artifacts (heap w' self) = Run.artifacts (heap w self))
  /\ (forall artifact_type path, exists w',
        set_artifact_path E self artifact_type path w = (Ok tt, w')
        /\ same_fixed_fields (heap w self) (heap w' self)
        /\ Run.status (heap w' self) = Run.status (heap w self)
        /\ Run.completed_at (heap w' self) = Run.completed_at (heap w self)
        /\ Run.messages (heap w' self) = Run.messages (heap w self)).
Proof.
  split; [|split].
  - intros role content step md. unfold add_message. unfold_monad.
    eexists _, _. split; [reflexivity|]. cbn. rewrite Nat.eqb_refl.
    unfold same_fixed_fields. cbn. repeat split.
  - intros status. unfold update_status.
    destruct (decide (status = COMPLETED)); unfold_monad;
      (eexists; split; [reflexivity|]); cbn; rewrite Nat.eqb_refl;
      unfold same_fixed_fields; cbn; repeat split.
  - intros artifact_type path. unfold set_artifact_path. unfold_monad.
    eexists. split; [reflexivity|]. cbn. rewrite Nat.eqb_refl.
    unfold same_fixed_fields. cbn. repeat split.
Qed.

(** ** The store *)

Lemma run_path_not_dot (E : Env) (run_id : string) :
  String.eqb (run_path E run_id) "." = false.
Proof.
  apply String.eqb_neq. intros H. apply (f_equal chars) in H.
  unfold run_path in H. rewrite !chars_app in H.
  apply (f_equal (@length ascii)) in H. rewrite !length_app in H. cbn in H. lia.
Qed.

(** A write to a path other than the current directory, with the disk
    working. *)
Lemma write_file_ok (E : Env) (path content : string) (w : World) :
  String.eqb path "." = false -> io_at E (io_ops w) = IoOk ->
  exists w', write_file E path content w = (Ok tt, w')
    /\ files w' = <[path := content]> (files w)
    /\ heap w' = heap w /\ _runs_cache w' = _runs_cache w
    /\ next_ref w' = next_ref w /\ llm_calls w' = llm_calls w.
Proof.
  intros Hp Hio. unfold write_file. rewrite Hp. unfold_monad. rewrite Hio. cbn.
  eexists. split; [reflexivity|]. cbn. auto.
Qed.

(** A write that raises leaves the file as it was or empties it. *)
Lemma write_file_raises (E : Env) (path content : string) (w w' : World) (e : Exception) :
  write_file E path content w = (Raise e, w') ->
  (files w' = files w \/ files w' = <[path := EmptyString]> (files w))
  /\ heap w' = heap w /\ _runs_cache w' = _runs_cache w.
Proof.
  unfold write_file. destruct (String.eqb path ".").
  { intros H. inversion H; subst. auto. }
  unfold_monad. destruct (io_at E (io_ops w)) as [|[|]]; cbn; try discriminate;
    intros H; inversion H; subst; cbn; auto.
Qed.

Lemma get_run_hit (D : Deps) (E : Env) (run_id : string) (w : World) (run : nat) :
  _runs_cache w !! run_id = Some run ->
  get_run D E run_id w = (Ok (Some run), w).
Proof. intros H. unfold get_run. unfold_monad. rewrite H. reflexivity. Qed.

Lemma get_run_miss (D : Deps) (E : Env) (run_id : string) (w : World) :
  unknown_run D E run_id w -> get_run D E run_id w = (Ok None, w).
Proof.
  intros [Hc Hf]. unfold get_run. unfold_monad. rewrite Hc.
  destruct (files w !! run_path E run_id) as [data|]; cbn in *; [|reflexivity].
  rewrite Hf. reflexivity.
Qed.

(** X6.  A run that [get_run] found once is found again: the second call
    returns the very same object and changes nothing. *)
Theorem get_run_again_same_object (D : Deps) (E : Env) (run_id : string)
    (w w' : World) (run : nat) :
  get_run D E run_id w = (Ok (Some run), w') ->
  get_run D E run_id w' = (Ok (Some run), w').
Proof. intros H. apply get_run_hit. exact (get_run_cached D E run_id w w' run H). Qed.

Lemma get_run_again_same_object_witness :
  let w := mkWorld (fun _ => pending_run) 0 ∅
             {[ "data/runs/run-1/run.json" := "run:run-1" ]} 0 0 0 0 [] in
  exists w', get_run (fixed_codec pending_run) (sample_env (fun _ => IoOk)) "run-1" w
             = (Ok (Some 0), w')
    /\ get_run (fixed_codec pending_run) (sample_env (fun _ => IoOk)) "run-1" w'
       = (Ok (Some 0), w').
Proof.
  intros w. eexists. split; [reflexivity|].
  apply (get_run_again_same_object (fixed_codec pending_run)
           (sample_env (fun _ => IoOk)) "run-1" w _ 0).
  reflexivity.
Defined.

(** X7.  A run the store does not know: [get_run] returns [None] and leaves
    everything, the cache too, as it was, so that asking again gives
    [None] again; and [None] is returned for such runs only. *)
Theorem get_run_unknown_id (D : Deps) (E : Env) (run_id : string) (w : World) :
  unknown_run D E run_id w <-> get_run D E run_id w = (Ok None, w).
Proof.
  split; [apply get_run_miss|].
  unfold get_run, unknown_run. unfold_monad.
  destruct (_runs_cache w !! run_id) as [l'|]; cbn; [discriminate|].
  destruct (files w !! run_path E run_id) as [data|]; cbn; [|auto].
  destruct (decode_run D data) as [r|]; cbn; [discriminate | auto].
Qed.

(** X8.  After [create_run], [get_run] by the new id reads the run back from
    its [run.json]: the result is a second object, equal in content to
    the one [create_run] returned, and it is this second object that the
    cache holds from then on. *)
Theorem create_run_then_get_run (D : Deps) (E : Env) (idea : string)
    (w w1 : World) (created : nat) :
  create_run D E idea w = (Ok created, w1) ->
  _runs_cache w !! Run.id (heap w1 created) = None ->
  decode_run D (encode_run D (heap w1 created)) = Some (heap w1 created) ->
  exists run w2,
    get_run D E (Run.id (heap w1 created)) w1 = (Ok (Some run), w2)
    /\ run <> created
    /\ heap w2 run = heap w1 created
    /\ heap w2 created = heap w1 created
    /\ _runs_cache w2 !! Run.id (heap w1 created) = Some run
    /\ files w2 = files w1.
Proof.
  intros Hc Hnew Hrt.
  destruct (create_run_fresh D E idea w w1 created Hc)
    as (_ & _ & _ & _ & _ & Hfile & Hcache & Hnext & Hcr & _).
  exists (next_ref w1). eexists. unfold get_run. unfold_monad.
  rewrite Hcache, Hnew, Hfile, Hrt. cbn. split; [reflexivity|]. cbn.
  rewrite Nat.eqb_refl, lookup_insert_eq.
  destruct (Nat.eqb_spec created (next_ref w1)) as [Heq|Hne]; [lia|].
  repeat split; auto.
Qed.

Lemma create_run_then_get_run_witness :
  let D := fixed_codec created_run in
  let E := sample_env (fun _ => IoOk) in
  exists created w1 run w2,
    create_run D E "fitness app" empty_world = (Ok created, w1)
    /\ get_run D E (Run.id (heap w1 created)) w1 = (Ok (Some run), w2)
    /\ run <> created
    /\ heap w2 run = heap w1 created.
Proof.
  intros D E.
  assert (H1 : (create_run D E "fitness app" empty_world).1 = Ok 0)
    by (lazy; reflexivity).
  assert (H2 : heap (create_run D E "fitness app" empty_world).2 0 = created_run)
    by (lazy; reflexivity).
  destruct (create_run D E "fitness app" empty_world) as [res w1] eqn:Hc.
  cbn [fst snd] in H1, H2. subst res.
  destruct (create_run_then_get_run D E "fitness app" empty_world w1 0 Hc)
    as (run & w2 & Hg & Hne & Hr & _).
  - apply lookup_empty.
  - rewrite H2. reflexivity.
  - exists 0, w1, run, w2. auto.
Defined.

(** [update_run] with the disk working. *)
Lemma update_run_ok (D : Deps) (E : Env) (run : nat) (w : World) :
  io_at E (io_ops w) = IoOk ->
  exists w', update_run D E run w = (Ok true, w')
    /\ files w' = <[run_path E (Run.id (heap w run)) := encode_run D (heap w run)]> (files w)
    /\ heap w' = heap w
    /\ _runs_cache w' = <[Run.id (heap w run) := run]> (_runs_cache w).
Proof.
  intros Hio.
  destruct (write_file_ok E (run_path E (Run.id (heap w run)))
              (encode_run D (heap w run)) w (run_path_not_dot E _) Hio)
    as (w1 & Hw & Hf & Hh & Hc & _).
  assert (Hs : _save_run D E run w = (Ok tt, w1)).
  { unfold _save_run. rewrite (bind_ok (get_obj run) _ w _ _ eq_refl). exact Hw. }
  unfold update_run, try_except.
  rewrite (bind_ok _ _ _ _ _ Hs).
  rewrite (bind_ok (get_obj run) _ w1 _ _ eq_refl).
  unfold cache_put. unfold_monad. rewrite Hh.
  eexists. split; [reflexivity|]. cbn. rewrite Hc. auto.
Qed.

(** X9.  With the disk working, [update_run] returns [True], writes the
    encoded run to its [run.json] and puts the object into the cache
    under its id: [get_run] by that id then returns this very object. *)
Theorem update_run_then_get_run (D : Deps) (E : Env) (run : nat) (w : World) :
  io_at E (io_ops w) = IoOk ->
  exists w', update_run D E run w = (Ok true, w')
    /\ files w' = <[run_path E (Run.id (heap w run)) := encode_run D (heap w run)]> (files w)
    /\ heap w' = heap w
    /\ get_run D E (Run.id (heap w run)) w' = (Ok (Some run), w').
Proof.
  intros Hio. destruct (update_run_ok D E run w Hio) as (w' & Hu & Hf & Hh & Hc).
  exists w'. repeat split; try assumption.
  apply get_run_hit. rewrite Hc. apply lookup_insert_eq.
Qed.

Lemma update_run_then_get_run_witness :
  exists w', update_run sample_deps (sample_env (fun _ => IoOk)) 0 (world_with pending_run)
             = (Ok true, w')
    /\ files w' !! "data/runs/run-1/run.json" = Some "run:run-1"
    /\ get_run sample_deps (sample_env (fun _ => IoOk)) "run-1" w' = (Ok (Some 0), w').
Proof.
  destruct (update_run_then_get_run sample_deps (sample_env (fun _ => IoOk)) 0
              (world_with pending_run) eq_refl) as (w' & Hu & Hf & _ & Hg).
  exists w'. split; [exact Hu|]. split; [|exact Hg].
  rewrite Hf. apply lookup_insert_eq.
Defined.

(** What [save_artifact] does for a run that the cache holds. *)
Lemma save_artifact_of_cached (D : Deps) (E : Env) (run_id artifact_type content : string)
    (w : World) (run : nat) :
  _runs_cache w !! run_id = Some run ->
  exists w0,
    same_store w w0 /\ io_ops w0 = io_ops w
    /\ save_artifact D E run_id artifact_type content w
       = try_except
           ((if String.eqb artifact_type "conversation" then
               match json_loads D content with
               | Ok data =>
                   write_file E (Path (Run.get_artifact_path (heap w run) artifact_type))
                     (json_dumps D (Some 2%nat) data)
               | Raise e => raise e
               end
             else write_file E (Path (Run.get_artifact_path (heap w run) artifact_type))
                    content);;
            mret true)
           (fun e => mret false) w0.
Proof.
  intros Hc. unfold save_artifact.
  rewrite (bind_ok (note_saved _) _ w _ _ eq_refl).
  set (w0 := mkWorld _ _ _ _ _ _ _ _ _).
  exists w0. split; [unfold same_store; auto|]. split; [reflexivity|].
  rewrite (bind_ok _ _ _ _ _ (get_run_hit D E run_id w0 run Hc)).
  rewrite (bind_ok (get_obj run) _ w0 _ _ eq_refl). reflexivity.
Qed.

Lemma Path_registered (p : string) : p <> EmptyString -> Path p = p.
Proof. intros H. unfold Path. destruct (String.eqb_spec p EmptyString); congruence. Qed.

(** X10.  An artifact of a run the store does not know is not saved:
    [save_artifact] returns [False] and writes nothing. *)
Theorem save_artifact_unknown_run (D : Deps) (E : Env)
    (run_id artifact_type content : string) (w : World) :
  unknown_run D E run_id w ->
  exists w', save_artifact D E run_id artifact_type content w = (Ok false, w')
    /\ same_store w w'.
Proof.
  intros Hu. unfold save_artifact.
  rewrite (bind_ok (note_saved _) _ w _ _ eq_refl).
  set (w0 := mkWorld _ _ _ _ _ _ _ _ _).
  assert (Hu0 : unknown_run D E run_id w0) by exact Hu.
  rewrite (bind_ok _ _ _ _ _ (get_run_miss D E run_id w0 Hu0)).
  exists w0. split; [reflexivity|]. unfold same_store. auto.
Qed.

Lemma save_artifact_unknown_run_witness :
  exists w', save_artifact sample_deps (sample_env (fun _ => IoOk))
               "no-such-run" "prd_markdown" "# PRD" empty_world = (Ok false, w')
    /\ same_store empty_world w'.
Proof.
  apply (save_artifact_unknown_run sample_deps (sample_env (fun _ => IoOk))
           "no-such-run" "prd_markdown" "# PRD" empty_world).
  split; reflexivity.
Defined.

(** X11.  An artifact type for which the run has no path is not saved: the
    empty path stands for the current directory, which cannot be opened
    for writing, so [save_artifact] returns [False] and writes nothing,
    whatever the type, the content and the state of the disk. *)
Theorem save_artifact_unregistered_type (D : Deps) (E : Env)
    (run_id artifact_type content : string) (w : World) (run : nat) :
  _runs_cache w !! run_id = Some run ->
  dict_get (Run.artifacts (heap w run)) artifact_type = None ->
  exists w', save_artifact D E run_id artifact_type content w = (Ok false, w')
    /\ same_store w w'.
Proof.
  intros Hc Hnone.
  destruct (save_artifact_of_cached D E run_id artifact_type content w run Hc)
    as (w0 & Hs & _ & ->).
  unfold Run.get_artifact_path. rewrite Hnone. cbn [default].
  change (Path EmptyString) with ".". unfold try_except, write_file. cbn [String.eqb Ascii.eqb Bool.eqb].
  exists w0. split; [|exact Hs].
  destruct (String.eqb artifact_type "conversation"); [|reflexivity].
  destruct (json_loads D content); reflexivity.
Qed.

Lemma save_artifact_unregistered_type_witness :
  exists w', save_artifact sample_deps (sample_env (fun _ => IoOk))
               "run-1" "screenshot" "png" (world_with pending_run) = (Ok false, w')
    /\ same_store (world_with pending_run) w'.
Proof.
  apply (save_artifact_unregistered_type sample_deps (sample_env (fun _ => IoOk))
           "run-1" "screenshot" "png" (world_with pending_run) 0); reflexivity.
Defined.

(** X12.  Content of a type other than [conversation] is written as it is:
    with the disk working, [save_artifact] returns [True], the file at
    the registered path holds exactly the content, and no other file
    and no object changes. *)
Theorem save_artifact_writes_content (D : Deps) (E : Env)
    (run_id artifact_type content path : string) (w : World) (run : nat) :
  _runs_cache w !! run_id = Some run ->
  dict_get (Run.artifacts (heap w run)) artifact_type = Some path ->
  path <> EmptyString -> path <> "." ->
  artifact_type <> "conversation" ->
  io_at E (io_ops w) = IoOk ->
  exists w', save_artifact D E run_id artifact_type content w = (Ok true, w')
    /\ files w' = <[path := content]> (files w)
    /\ heap w' = heap w /\ _runs_cache w' = _runs_cache w.
Proof.
  intros Hc Hp Hne Hdot Hty Hio.
  destruct (save_artifact_of_cached D E run_id artifact_type content w run Hc)
    as (w0 & (Hf0 & Hh0 & Hc0) & Hio0 & ->).
  unfold Run.get_artifact_path. rewrite Hp. cbn [default from_option id].
  rewrite (Path_registered path Hne).
  apply String.eqb_neq in Hty, Hdot. rewrite Hty. rewrite <- Hio0 in Hio.
  destruct (write_file_ok E path content w0 Hdot Hio) as (w1 & Hw & Hf & Hh & Hk & _).
  unfold try_except. rewrite (bind_ok _ _ _ _ _ Hw).
  exists w1. split; [reflexivity|]. rewrite Hf, Hh, Hk, Hf0, Hh0, Hc0. auto.
Qed.

Lemma save_artifact_writes_content_witness :
  exists w', save_artifact sample_deps (sample_env (fun _ => IoOk))
               "run-1" "prd_markdown" "# PRD" (world_with pending_run) = (Ok true, w')
    /\ files w' !! "data/runs/run-1/PRD.md" = Some "# PRD".
Proof.
  destruct (save_artifact_writes_content sample_deps (sample_env (fun _ => IoOk))
              "run-1" "prd_markdown" "# PRD" "data/runs/run-1/PRD.md"
              (world_with pending_run) 0)
    as (w' & Hs & Hf & _); try reflexivity; try discriminate.
  exists w'. split; [exact Hs|]. rewrite Hf. apply lookup_insert_eq.
Defined.

(** X13.  The type [conversation] is parsed and printed again: content that
    is JSON is stored in the printed form with indent 2, not as given;
    content that [json.loads] refuses, with whatever exception, is not
    stored at all. *)
Theorem save_artifact_conversation (D : Deps) (E : Env)
    (run_id content path : string) (w : World) (run : nat) :
  _runs_cache w !! run_id = Some run ->
  dict_get (Run.artifacts (heap w run)) "conversation" = Some path ->
  path <> EmptyString -> path <> "." ->
  io_at E (io_ops w) = IoOk ->
  exists w', save_artifact D E run_id "conversation" content w
             = (Ok match json_loads D content with
                   | Ok data => true
                   | Raise e => false
                   end, w')
    /\ files w' = match json_loads D content with
                  | Ok data => <[path := json_dumps D (Some 2%nat) data]> (files w)
                  | Raise e => files w
                  end
    /\ heap w' = heap w /\ _runs_cache w' = _runs_cache w.
Proof.
  intros Hc Hp Hne Hdot Hio.
  destruct (save_artifact_of_cached D E run_id "conversation" content w run Hc)
    as (w0 & (Hf0 & Hh0 & Hc0) & Hio0 & ->).
  unfold Run.get_artifact_path. rewrite Hp. cbn [default from_option id].
  rewrite (Path_registered path Hne). rewrite String.eqb_refl.
  apply String.eqb_neq in Hdot. rewrite <- Hio0 in Hio. unfold try_except.
  destruct (json_loads D content) as [data|e].
  - destruct (write_file_ok E path (json_dumps D (Some 2%nat) data) w0 Hdot Hio)
      as (w1 & Hw & Hf & Hh & Hk & _).
    rewrite (bind_ok _ _ _ _ _ Hw).
    exists w1. split; [reflexivity|]. rewrite Hf, Hh, Hk, Hf0, Hh0, Hc0. auto.
  - exists w0. split; [reflexivity|]. auto.
Qed.

Lemma save_artifact_conversation_witness :
  exists w', save_artifact sample_deps (sample_env (fun _ => IoOk))
               "run-1" "conversation" "not json" (world_with pending_run)
             = (Ok false, w')
    /\ files w' = files (world_with pending_run).
Proof.
  destruct (save_artifact_conversation sample_deps (sample_env (fun _ => IoOk))
              "run-1" "not json" "data/runs/run-1/conversation.json"
              (world_with pending_run) 0)
    as (w' & Hs & Hf & _); try reflexivity; try discriminate.
  exists w'. split; [exact Hs | exact Hf].
Defined.

(** ** The pipeline for any generation backend *)

(** A write changes no file but its own. *)
Lemma write_file_other (E : Env) (path content : string) (w : World) (q : string) :
  q <> path -> files (write_file E path content w).2 !! q = files w !! q.
Proof.
  intros Hq. unfold write_file. destruct (String.eqb path "."); [reflexivity|].
  unfold_monad. destruct (io_at E (io_ops w)) as [|[|]]; cbn;
    try reflexivity; apply lookup_insert_ne; congruence.
Qed.

(** [save_artifact] for a cached run changes no file but the one at the
    path of the artifact. *)
Lemma save_artifact_other_files (D : Deps) (E : Env)
    (run_id artifact_type content : string) (w : World) (run : nat) (q : string) :
  _runs_cache w !! run_id = Some run ->
  q <> Path (Run.get_artifact_path (heap w run) artifact_type) ->
  files (save_artifact D E run_id artifact_type content w).2 !! q = files w !! q.
Proof.
  intros Hc Hq.
  destruct (save_artifact_of_cached D E run_id artifact_type content w run Hc)
    as (w0 & (Hf0 & _) & _ & ->).
  rewrite <- Hf0. unfold try_except.
  set (path := Path _) in *.
  assert (Hw : forall c, files
    (match (write_file E path c ≫= fun _ => mret true) w0 with
     | (Ok a, w') => (Ok a, w')
     | (Raise e, w') => (mret false : M bool) w'
     end).2 !! q = files w0 !! q).
  { intros c. pose proof (write_file_other E path c w0 q Hq) as H.
    unfold mbind, M_bind. destruct (write_file E path c w0) as [[[]|e] w1]; exact H. }
  destruct (String.eqb artifact_type "conversation"); [|apply Hw].
  destruct (json_loads D content) as [data|]; [apply Hw | reflexivity].
Qed.

Lemma update_status_files (E : Env) (l : nat) (status : RunStatus) (w : World) :
  files (update_status E l status w).2 = files w
  /\ io_ops (update_status E l status w).2 = io_ops w.
Proof.
  unfold update_status. destruct (decide (status = COMPLETED)); unfold_monad; auto.
Qed.

Section Pipeline.

Context (D : Deps) (E : Env) (key : string) (self : Orchestrator).

(** The generation call of a stage, by its outcome. *)
Ltac stage_call agent Hat l w c lg resp e Hg w1 Hh1 Hat1 :=
  rewrite (bind_ok (get_obj l) _ w _ _ eq_refl);
  match goal with
  | |- context [llm_generate self ?p agent] =>
      let H1 := fresh "H1" in
      destruct (LLMClient.generate (llm_client self) c p agent) as [resp|e] eqn:Hg;
      [ destruct (llm_generate_ok key self _ _ resp l w c lg Hat Hg)
          as (w1 & H1 & Hh1 & Hat1);
        rewrite (bind_ok _ _ _ _ _ H1)
      | destruct (llm_generate_raise key self _ _ e l w c lg Hat Hg)
          as (w1 & H1 & Hh1 & Hat1);
        rewrite (bind_raise _ _ _ _ _ H1);
        exists (Raise e), w1, lg; auto ]
  end.

Ltac stage_message_of role resp w1 Hat1 m w2 Hrole Hcontent Hstep Happ Hat2 :=
  match goal with
  | |- context [add_message E ?l role resp ?step ?md] =>
      let H2 := fresh "H2" in
      destruct (add_message_at E key l role resp step md w1 _ _ Hat1)
        as (m & w2 & H2 & Hrole & Hcontent & Hstep & Happ & Hat2);
      rewrite (bind_ok _ _ _ _ _ H2)
  end.

Ltac stage_update l w2 Hat2 w3 Hh3 Hat3 :=
  let b := fresh "b" in
  let H3 := fresh "H3" in
  destruct (update_run_at D E key l w2 _ _ Hat2) as (b & w3 & H3 & Hh3 & Hat3);
  rewrite (bind_ok _ _ _ _ _ H3).

Lemma strategist_stage_spec :
  stage_spec key self
    (mkStage STRATEGIST 1 "strategist" (strategist_prompt D) (fun _ => None)
       (_run_strategist D E self)).
Proof.
  intros l w c lg Hat.
  cbn [stage_run stage_prompt stage_agent stage_role stage_step stage_after].
  unfold _run_strategist, strategist_prompt.
  stage_call "strategist" Hat l w c lg resp e Hg w1 Hh1 Hat1.
  stage_message_of STRATEGIST resp w1 Hat1 m w2 Hrole Hcontent Hstep Happ Hat2.
  stage_update l w2 Hat2 w3 Hh3 Hat3.
  exists (Ok tt), w3, lg. split; [reflexivity|]. split; [exact Hat3|].
  split; [reflexivity|]. exists m. rewrite Hh3, <- Hh1. auto.
Qed.

Lemma architect_stage_spec :
  stage_spec key self
    (mkStage ARCHITECT 2 "architect" (architect_prompt D) (fun _ => None)
       (_run_architect D E self)).
Proof.
  intros l w c lg Hat.
  cbn [stage_run stage_prompt stage_agent stage_role stage_step stage_after].
  unfold _run_architect, architect_prompt.
  stage_call "architect" Hat l w c lg resp e Hg w1 Hh1 Hat1.
  stage_message_of ARCHITECT resp w1 Hat1 m w2 Hrole Hcontent Hstep Happ Hat2.
  stage_update l w2 Hat2 w3 Hh3 Hat3.
  exists (Ok tt), w3, lg. split; [reflexivity|]. split; [exact Hat3|].
  split; [reflexivity|]. exists m. rewrite Hh3, <- Hh1. auto.
Qed.

Lemma ux_writer_stage_spec :
  stage_spec key self
    (mkStage UX_WRITER 3 "ux_writer" (ux_writer_prompt D) (fun _ => None)
       (_run_ux_writer D E self)).
Proof.
  intros l w c lg Hat.
  cbn [stage_run stage_prompt stage_agent stage_role stage_step stage_after].
  unfold _run_ux_writer, ux_writer_prompt.
  stage_call "ux_writer" Hat l w c lg resp e Hg w1 Hh1 Hat1.
  stage_message_of UX_WRITER resp w1 Hat1 m w2 Hrole Hcontent Hstep Happ Hat2.
  stage_update l w2 Hat2 w3 Hh3 Hat3.
  exists (Ok tt), w3, lg. split; [reflexivity|]. split; [exact Hat3|].
  split; [reflexivity|]. exists m. rewrite Hh3, <- Hh1. auto.
Qed.

Lemma mockup_designer_stage_spec :
  stage_spec key self
    (mkStage MOCKUP_DESIGNER 4 "mockup_designer" (mockup_designer_prompt D)
       (parse_escapes D) (_run_mockup_designer D E self)).
Proof.
  intros l w c lg Hat.
  cbn [stage_run stage_prompt stage_agent stage_role stage_step stage_after].
  unfold _run_mockup_designer, mockup_designer_prompt.
  stage_call "mockup_designer" Hat l w c lg resp e Hg w1 Hh1 Hat1.
  stage_message_of MOCKUP_DESIGNER resp w1 Hat1 m w2 Hrole Hcontent Hstep Happ Hat2.
  destruct (parse_escapes D resp) as [e|] eqn:Hesc.
  - assert (Htry : try_except_class is_JSONDecodeError
      (mockup_data ← match json_loads D resp with
                     | Ok v => mret v
                     | Raise e => raise e
                     end;
       save_artifact D E (Run.id (heap w l)) "mockup_json"
         (json_dumps D (Some 2%nat) mockup_data))
      (fun _ => save_artifact D E (Run.id (heap w l)) "mockup_json" resp) w2
      = (Raise e, w2)).
    { unfold try_except_class, parse_escapes in *.
      destruct (json_loads D resp) as [v|e0]; [discriminate|].
      rewrite (bind_raise (raise e0) _ w2 _ _ eq_refl).
      destruct (is_JSONDecodeError e0); [discriminate|].
      injection Hesc as ->. reflexivity. }
    rewrite (bind_raise _ _ _ _ _ Htry).
    eexists (Raise e), w2, _. split; [reflexivity|]. split; [exact Hat2|].
    split; [reflexivity|]. exists m. rewrite <- Hh1. auto.
  - destruct (save_artifact_at D E key (Run.id (heap w l)) "mockup_json"
                (mockup_payload D resp) l w2 _ _ Hat2)
      as (b & w3 & H3 & Hh3 & Hat3).
    assert (Htry : try_except_class is_JSONDecodeError
      (mockup_data ← match json_loads D resp with
                     | Ok v => mret v
                     | Raise e => raise e
                     end;
       save_artifact D E (Run.id (heap w l)) "mockup_json"
         (json_dumps D (Some 2%nat) mockup_data))
      (fun _ => save_artifact D E (Run.id (heap w l)) "mockup_json" resp) w2
      = (Ok b, w3)).
    { unfold try_except_class, mockup_payload, parse_escapes in *.
      destruct (json_loads D resp) as [v|e0].
      - rewrite (bind_ok (mret v) _ w2 _ _ eq_refl), H3. reflexivity.
      - rewrite (bind_raise (raise e0) _ w2 _ _ eq_refl).
        destruct (is_JSONDecodeError e0); [exact H3 | discriminate]. }
    rewrite (bind_ok _ _ _ _ _ Htry).
    stage_update l w3 Hat3 w4 Hh4 Hat4.
    eexists (Ok tt), w4, _. split; [reflexivity|]. split; [exact Hat4|].
    split; [reflexivity|]. exists m. rewrite Hh4, Hh3, <- Hh1. auto.
Qed.

Lemma synthesizer_stage_spec :
  stage_spec key self
    (mkStage SYNTHESIZER 5 "synthesizer" (synthesizer_prompt D) (fun _ => None)
       (_run_synthesizer D E self)).
Proof.
  intros l w c lg Hat.
  cbn [stage_run stage_prompt stage_agent stage_role stage_step stage_after].
  unfold _run_synthesizer, _format_conversation_history, synthesizer_prompt, transcript.
  rewrite (bind_ok (get_obj l ≫= _) _ w w _ eq_refl).
  match goal with
  | |- context [llm_generate self ?p "synthesizer"] =>
      destruct (LLMClient.generate (llm_client self) c p "synthesizer")
        as [resp|e] eqn:Hg;
      [ destruct (llm_generate_ok key self _ _ resp l w c lg Hat Hg)
          as (w1 & H1 & Hh1 & Hat1);
        rewrite (bind_ok _ _ _ _ _ H1)
      | destruct (llm_generate_raise key self _ _ e l w c lg Hat Hg)
          as (w1 & H1 & Hh1 & Hat1);
        rewrite (bind_raise _ _ _ _ _ H1);
        exists (Raise e), w1, lg; auto ]
  end.
  stage_message_of SYNTHESIZER resp w1 Hat1 m w2 Hrole Hcontent Hstep Happ Hat2.
  rewrite (bind_ok (get_obj l) _ w2 _ _ eq_refl).
  destruct (save_artifact_at D E key (Run.id (heap w2 l)) "prd_markdown" resp l w2 _ _ Hat2)
    as (b & w3 & H3 & Hh3 & Hat3).
  rewrite (bind_ok _ _ _ _ _ H3).
  destruct (_generate_pdf_at E key l resp l w3 _ _ Hat3) as (w4 & H4 & Hh4 & Hat4).
  rewrite (bind_ok _ _ _ _ _ H4).
  stage_update l w4 Hat4 w5 Hh5 Hat5.
  eexists (Ok tt), w5, _. split; [reflexivity|]. split; [exact Hat5|].
  split; [reflexivity|]. exists m. rewrite Hh5, Hh4, Hh3, <- Hh1. auto.
Qed.

Lemma stages_spec : Forall (stage_spec key self) (stages D E self).
Proof.
  unfold stages. repeat constructor.
  - apply strategist_stage_spec.
  - apply architect_stage_spec.
  - apply ux_writer_stage_spec.
  - apply mockup_designer_stage_spec.
  - apply synthesizer_stage_spec.
Qed.

(** A sequence of stage functions followed by [k]: the calls made are a
    trace of the stages; when none raises, [k] runs in the state the
    stages leave, and when one raises, [k] does not run. *)
Lemma stages_run (sts : list Stage) :
  Forall (stage_spec key self) sts ->
  forall l w c lg, at_obj key l w c lg ->
  exists new res w1 lg1,
    stages_trace (llm_client self) sts c (heap w l) new res
    /\ Run.messages (heap w1 l) = Run.messages (heap w l) ++ new
    /\ Run.status (heap w1 l) = Run.status (heap w l)
    /\ Run.id (heap w1 l) = Run.id (heap w l)
    /\ Run.idea (heap w1 l) = Run.idea (heap w l)
    /\ Run.artifacts (heap w1 l) = Run.artifacts (heap w l)
    /\ at_obj key l w1 (calls_made new res + c) lg1
    /\ forall (A : Type) (k : M A),
         foldr (fun st k => stage_run st l ;; k) k sts w
         = match res with
           | Finished => k w1
           | CallRaised e | StepRaised e => (Raise e, w1)
           end.
Proof.
  induction 1 as [|st sts Hst _ IH]; intros l w c lg Hat.
  - exists [], Finished, w, lg. rewrite app_nil_r.
    repeat match goal with |- _ /\ _ => split end;
      try reflexivity; try exact Hat; constructor.
  - destruct (Hst l w c lg Hat) as (res0 & w' & lg' & Hrun & Hat' & Hm).
    destruct (LLMClient.generate (llm_client self) c (stage_prompt st (heap w l))
                (stage_agent st)) as [resp|e] eqn:Hg.
    + destruct Hm as (Hres0 & m & Happ & Hrole & Hstep & Hcontent). subst resp.
      apply appended_fields in Happ as Hf. destruct Hf as (M & S0 & I & J & _).
      assert (A0 : Run.artifacts (heap w' l) = Run.artifacts (heap w l))
        by (destruct Happ as [now ->]; reflexivity).
      destruct (stage_after st (Message.content m)) as [e|] eqn:Hafter.
      * exists [m], (StepRaised e), w', lg'.
        split; [eapply trace_abort; eauto|].
        repeat match goal with |- _ /\ _ => split end; try assumption.
        intros A k. cbn [foldr]. rewrite Hres0 in Hrun.
        apply (bind_raise _ _ _ _ _ Hrun).
      * destruct (IH l w' (S c) lg' Hat')
          as (new & res & w1 & lg1 & Htr & Hms & Hst1 & Hid & Hidea & Hart & Hat1 & Hk).
        exists (m :: new), res, w1, lg1.
        split; [eapply trace_step; eauto|].
        rewrite Hms, Hst1, Hid, Hidea, Hart, M, S0, I, J, A0, <- app_assoc.
        repeat match goal with |- _ /\ _ => split end; try reflexivity.
        -- replace (calls_made (m :: new) res + c) with (calls_made new res + S c);
             [exact Hat1|].
           destruct res; cbn [calls_made length]; lia.
        -- intros A k. cbn [foldr]. rewrite Hres0 in Hrun.
           rewrite (bind_ok _ _ _ _ _ Hrun). apply Hk.
    + destruct Hm as (-> & Hh).
      exists [], (CallRaised e), w', lg'. rewrite app_nil_r, Hh.
      split; [constructor; exact Hg|].
      repeat match goal with |- _ /\ _ => split end; try reflexivity.
      * exact Hat'.
      * intros A k. cbn [foldr]. apply (bind_raise _ _ _ _ _ Hrun).
Qed.

(** [update_run] writes files and the cache; no object changes. *)
Lemma update_run_heap (run : nat) (w : World) :
  heap (update_run D E run w).2 = heap w.
Proof.
  unfold update_run, try_except, _save_run, write_file. unfold_monad.
  destruct (String.eqb (run_path E (Run.id (heap w run))) "."); cbn; [reflexivity|].
  destruct (io_at E (io_ops w)) as [|[|]]; reflexivity.
Qed.

(** The steps of [run_agents] before the [try], with the run as they
    leave it. *)
Lemma run_agents_begin (run : nat) (w w0 : World) :
  cache_valid w ->
  get_run D E key w = (Ok (Some run), w0) ->
  exists w1,
    run_agents D E self key w
    = try_except (run_agents_body D E self run)
        (fun e => update_status E run FAILED ;; update_run D E run ;; raise e) w1
    /\ heap w1 run
       = Run.set_updated_at (utcnow_at E (clock_reads w0))
           (Run.set_status RUNNING (heap w0 run))
    /\ at_obj key run w1 (llm_calls w) (saved w).
Proof.
  intros Hv Hg.
  destruct (run_agents_start D E key self run w w0 Hv Hg)
    as (b & w1 & Hpre & Hrun & _ & _ & _ & _ & Hat1).
  destruct (update_status_spec E run RUNNING w0) as (wa & Ha & Hh & _).
  rewrite (bind_ok _ _ _ _ _ Ha) in Hpre.
  pose proof (update_run_heap run wa) as Hu. rewrite Hpre in Hu. cbn [snd] in Hu.
  exists w1. split; [exact Hrun|]. split; [|exact Hat1].
  rewrite Hu, Hh. reflexivity.
Qed.

(** The steps after the stages: the run is completed and stamped, and
    the conversation handed to the store is taken from the run as it is
    then. *)
Lemma closing_steps_at (l : nat) (w : World) (c : nat)
    (lg : list (string * string * string)) :
  at_obj key l w c lg ->
  exists w',
    closing_steps D E l w = (Ok l, w')
    /\ heap w' l
       = Run.set_completed_at (Some (utcnow_at E (S (clock_reads w))))
           (Run.set_updated_at (utcnow_at E (clock_reads w))
              (Run.set_status COMPLETED (heap w l)))
    /\ at_obj key l w' c
         (lg ++ [(Run.id (heap w l), "conversation",
                  json_dumps D (Some 2%nat) (conversation_data D (heap w' l)))]).
Proof.
  intros Hat. unfold closing_steps.
  destruct (update_status_at E key l COMPLETED w _ _ Hat)
    as (wa & Ha & _ & _ & _ & _ & Hata).
  destruct (update_status_spec E l COMPLETED w) as (wa' & Ha' & Hh & _).
  rewrite Ha in Ha'. inversion Ha'; subst wa'; clear Ha'.
  rewrite (bind_ok _ _ _ _ _ Ha).
  destruct (update_run_at D E key l wa _ _ Hata) as (b & w2 & H2 & Hh2 & Hat2).
  rewrite (bind_ok _ _ _ _ _ H2).
  destruct (save_artifact_at D E key (Run.id (heap w2 l)) "conversation"
              (json_dumps D (Some 2%nat) (conversation_data D (heap w2 l)))
              l w2 _ _ Hat2) as (b' & w3 & H3 & Hh3 & Hat3).
  assert (Hsc : _save_conversation_artifact D E l w2 = (Ok tt, w3)).
  { unfold _save_conversation_artifact.
    rewrite (bind_ok (get_obj l) _ w2 _ _ eq_refl).
    rewrite (bind_ok _ _ _ _ _ H3). reflexivity. }
  rewrite (bind_ok _ _ _ _ _ Hsc). exists w3. split; [reflexivity|].
  rewrite Hh3, Hh2, Hh. split; [reflexivity|].
  rewrite Hh2, Hh in Hat3. exact Hat3.
Qed.

(** With the disk working, the closing steps leave in [run.json] the
    run as it is in the end, unless the conversation is stored at the
    very path of [run.json]. *)
Lemma closing_steps_files (l : nat) (w : World) (c : nat)
    (lg : list (string * string * string)) :
  at_obj key l w c lg ->
  (forall n, io_at E n = IoOk) ->
  Path (Run.get_artifact_path (heap w l) "conversation") <> run_path E (Run.id (heap w l)) ->
  files (closing_steps D E l w).2 !! run_path E (Run.id (heap w l))
  = Some (encode_run D (heap (closing_steps D E l w).2 l)).
Proof.
  intros Hat Hio Hp.
  destruct (closing_steps_at l w c lg Hat) as (w' & Hc & Hh & _).
  rewrite Hc. cbn [snd]. unfold closing_steps in Hc.
  destruct (update_status_spec E l COMPLETED w) as (wa & Ha & Hha & _).
  rewrite (bind_ok _ _ _ _ _ Ha) in Hc.
  destruct (update_run_ok D E l wa (Hio _)) as (w2 & H2 & Hf2 & Hh2 & Hc2).
  rewrite (bind_ok _ _ _ _ _ H2) in Hc.
  unfold _save_conversation_artifact in Hc.
  set (conv := json_dumps D (Some 2%nat) (conversation_data D (heap w2 l))).
  destruct (save_artifact_spec D E l (Run.id (heap w2 l)) "conversation" conv w2)
    as (b & w3 & H3 & _).
  assert (Hsc : (r ← get_obj l;
                 save_artifact D E (Run.id r) "conversation"
                   (json_dumps D (Some 2%nat) (conversation_data D r));; mret tt) w2
                = (Ok tt, w3)).
  { rewrite (bind_ok (get_obj l) _ w2 _ _ eq_refl).
    fold conv. rewrite (bind_ok _ _ _ _ _ H3). reflexivity. }
  rewrite (bind_ok _ _ _ _ _ Hsc) in Hc.
  inversion Hc; subst w3; clear Hc.
  assert (Hid : Run.id (heap wa l) = Run.id (heap w l)) by (rewrite Hha; reflexivity).
  assert (Hart : Run.artifacts (heap wa l) = Run.artifacts (heap w l))
    by (rewrite Hha; reflexivity).
  pose proof (save_artifact_other_files D E (Run.id (heap w2 l)) "conversation" conv w2 l
                (run_path E (Run.id (heap w l)))) as Ho.
  rewrite H3 in Ho. cbn [snd] in Ho. rewrite Ho.
  - rewrite Hf2, Hid, lookup_insert_eq, Hh, Hha. reflexivity.
  - rewrite Hh2, Hc2. apply lookup_insert_eq.
  - unfold Run.get_artifact_path in *. rewrite Hh2, Hart. congruence.
Qed.

(** With the disk working, the [except] branch leaves in [run.json]
    the run as it is in the end. *)
Lemma handler_files (l : nat) (e : Exception) (w : World) :
  (forall n, io_at E n = IoOk) ->
  files ((update_status E l FAILED ;; update_run D E l ;; raise e : M nat) w).2
    !! run_path E (Run.id (heap w l))
  = Some (encode_run D
            (heap ((update_status E l FAILED ;; update_run D E l ;; raise e : M nat) w).2 l)).
Proof.
  intros Hio.
  destruct (update_status_spec E l FAILED w) as (wa & Ha & Hha & _).
  rewrite (bind_ok _ _ _ _ _ Ha).
  destruct (update_run_ok D E l wa (Hio _)) as (w2 & H2 & Hf2 & Hh2 & _).
  rewrite (bind_ok _ _ _ _ _ H2). cbn [raise snd].
  assert (Hid : Run.id (heap wa l) = Run.id (heap w l)) by (rewrite Hha; reflexivity).
  rewrite Hf2, Hh2, Hid. apply lookup_insert_eq.
Qed.

Lemma run_agents_body_stages (run : nat) :
  run_agents_body D E self run
  = foldr (fun st k => stage_run st run ;; k) (closing_steps D E run) (stages D E self).
Proof. reflexivity. Qed.

(** [run_agents] on a run that exists, whatever the generation backend
    does: the calls are a trace of the five stages from the run in
    status running. *)
Lemma run_agents_trace (run : nat) (w w0 : World) :
  cache_valid w ->
  get_run D E key w = (Ok (Some run), w0) ->
  exists new res w' lg,
    stages_trace (llm_client self) (stages D E self) (llm_calls w)
      (Run.set_updated_at (utcnow_at E (clock_reads w0))
         (Run.set_status RUNNING (heap w0 run))) new res
    /\ Run.messages (heap w' run) = Run.messages (heap w0 run) ++ new
    /\ Run.id (heap w' run) = Run.id (heap w0 run)
    /\ Run.idea (heap w' run) = Run.idea (heap w0 run)
    /\ _runs_cache w' !! key = Some run
    /\ match res with
       | Finished =>
           run_agents D E self key w = (Ok run, w')
           /\ Run.status (heap w' run) = COMPLETED
           /\ is_Some (Run.completed_at (heap w' run))
           /\ llm_calls w' = length new + llm_calls w
           /\ saved w' = lg ++ [(Run.id (heap w0 run), "conversation",
                                 json_dumps D (Some 2%nat)
                                   (conversation_data D (heap w' run)))]
       | CallRaised e =>
           run_agents D E self key w = (Raise e, w')
           /\ Run.status (heap w' run) = FAILED
           /\ llm_calls w' = S (length new + llm_calls w)
       | StepRaised e =>
           run_agents D E self key w = (Raise e, w')
           /\ Run.status (heap w' run) = FAILED
           /\ llm_calls w' = length new + llm_calls w
       end.
Proof.
  intros Hv Hg.
  destruct (run_agents_begin run w w0 Hv Hg) as (w1 & Hrun & Hh1 & Hat1).
  destruct (stages_run (stages D E self) stages_spec run w1 _ _ Hat1)
    as (new & res & w2 & lg2 & Htr & Hms & Hst & Hid & Hidea & _ & Hat2 & Hfold).
  specialize (Hfold nat (closing_steps D E run)).
  rewrite Hh1 in Htr, Hms, Hst, Hid, Hidea. cbn in Hms, Hst, Hid, Hidea.
  rewrite Hrun, run_agents_body_stages. unfold try_except. rewrite Hfold.
  assert (Hfail : forall e : Exception,
    exists w3,
      (update_status E run FAILED ;; update_run D E run ;; raise e) w2
        = (Raise e : Result nat, w3)
      /\ Run.messages (heap w3 run) = Run.messages (heap w0 run) ++ new
      /\ Run.id (heap w3 run) = Run.id (heap w0 run)
      /\ Run.idea (heap w3 run) = Run.idea (heap w0 run)
      /\ _runs_cache w3 !! key = Some run
      /\ Run.status (heap w3 run) = FAILED
      /\ llm_calls w3 = calls_made new res + llm_calls w).
  { intros e.
    destruct (update_status_at E key run FAILED w2 _ _ Hat2)
      as (wa & Ha & Sa & Ma & Ia & Ja & Hata).
    destruct (update_run_at D E key run wa _ _ Hata) as (b & w3 & Hb & Hhb & Hatb).
    rewrite (bind_ok _ _ _ _ _ Ha), (bind_ok _ _ _ _ _ Hb).
    exists w3. split; [reflexivity|].
    rewrite Hhb, Ma, Ia, Ja, Sa, Hms, Hid, Hidea.
    destruct Hatb as (_ & Hc & _ & Hk).
    repeat match goal with |- _ /\ _ => split end; try reflexivity; assumption. }
  destruct res as [|e|e].
  - destruct (closing_steps_at run w2 _ _ Hat2) as (w3 & Hc & Hh3 & Hat3).
    rewrite Hc. exists new, Finished, w3, lg2. split; [exact Htr|].
    destruct Hat3 as (_ & Hcalls & Hsaved & Hk).
    rewrite Hid in Hsaved. rewrite Hsaved, Hcalls, Hh3. cbn.
    rewrite Hms, Hid, Hidea.
    repeat match goal with |- _ /\ _ => split end; try reflexivity; try assumption.
    eexists; reflexivity.
  - destruct (Hfail e) as (w3 & Hh & Ms & Id & Ia & Hk & St & Hc). rewrite Hh.
    exists new, (CallRaised e), w3, (saved w3). split; [exact Htr|].
    repeat match goal with |- _ /\ _ => split end; try reflexivity; assumption.
  - destruct (Hfail e) as (w3 & Hh & Ms & Id & Ia & Hk & St & Hc). rewrite Hh.
    exists new, (StepRaised e), w3, (saved w3). split; [exact Htr|].
    repeat match goal with |- _ /\ _ => split end; try reflexivity; assumption.
Qed.

End Pipeline.

(** The shape of a trace: the messages are those of the first stages,
    in order; a trace that finished covers every stage, one that a
    call ended stops at the call that raised, and one that a stage
    ended stops behind the message of that stage. *)
Lemma stages_trace_shape (client : LLMClient) (sts : list Stage) (c : nat) (r : Run.t)
    (new : list Message.t) (res : Ending) :
  stages_trace client sts c r new res ->
  map Message.role new = take (length new) (map stage_role sts)
  /\ map Message.step new = take (length new) (map stage_step sts)
  /\ match res with
     | Finished => length new = length sts
     | CallRaised e =>
         length new < length sts
         /\ exists prompt agent_name,
              LLMClient.generate client (length new + c) prompt agent_name = Raise e
     | StepRaised e =>
         exists n st m prompt,
           length new = S n
           /\ sts !! n = Some st
           /\ last new = Some m
           /\ stage_after st (Message.content m) = Some e
           /\ LLMClient.generate client (n + c) prompt (stage_agent st)
              = Ok (Message.content m)
     end.
Proof.
  induction 1 as [c r|st sts c r e Hg|st sts c r r' m e Hg Hrole Hstep Happ Hafter
                  |st sts c r r' m new res Hg Hrole Hstep Happ Hafter _ IH].
  - cbn. auto.
  - cbn. repeat split; [lia|]. eauto.
  - cbn [map length take]. rewrite Hrole, Hstep, take_0. repeat split.
    exists 0, st, m, (stage_prompt st r). auto.
  - destruct IH as (IHr & IHs & IHres). cbn [map length take].
    rewrite IHr, IHs, Hrole, Hstep. repeat split.
    destruct res as [|e|e].
    + cbn [length]. lia.
    + destruct IHres as (Hlt & p & a & Hraise). split; [cbn [length]; lia|].
      exists p, a. rewrite Nat.add_succ_r in Hraise. exact Hraise.
    + destruct IHres as (n & st' & m' & p & Hlen & Hn & Hlast & Hst' & Hcall).
      exists (S n), st', m', p. repeat split; try assumption.
      * congruence.
      * destruct new as [|m0 new0]; [discriminate|]. exact Hlast.
      * rewrite Nat.add_succ_r in Hcall. exact Hcall.
Qed.

(** In the five stages only the fourth raises behind its message. *)
Lemma stages_step_raised (D : Deps) (E : Env) (self : Orchestrator) (n : nat)
    (st : Stage) (response : string) (e : Exception) :
  stages D E self !! n = Some st ->
  stage_after st response = Some e ->
  n = 3 /\ stage_agent st = "mockup_designer" /\ parse_escapes D response = Some e.
Proof.
  intros Hn Hafter. unfold stages in Hn.
  do 5 (destruct n as [|n];
        [injection Hn as <-; cbn [stage_after] in Hafter;
         first [discriminate | repeat split; exact Hafter]|]).
  discriminate.
Qed.

(** ** The status of the run that the pipeline finds *)

(** C10.  [run_agents] asks nothing of the status of the run.  From any
    status, a run with messages on record included, it sets the status
    to running and enters the [try] block; and when the five stages,
    called in turn from there, all return, it has appended five
    messages, so that the run holds five more than before, and has set
    the status to completed. *)
Theorem run_agents_any_status (D : Deps) (E : Env) (self : Orchestrator)
    (run_id : string) (run : nat) (w w0 : World) :
  cache_valid w ->
  get_run D E run_id w = (Ok (Some run), w0) ->
  exists b w1,
    (update_status E run RUNNING ≫= fun _ => update_run D E run) w0 = (Ok b, w1)
    /\ Run.status (heap w1 run) = RUNNING
    /\ run_agents D E self run_id w
       = try_except (run_agents_body D E self run)
           (fun e => update_status E run FAILED ;; update_run D E run ;; raise e) w1
    /\ forall w5,
         run_stages D E self run w1 = (Ok tt, w5) ->
         exists new w',
           run_agents_body D E self run w1 = (Ok run, w')
           /\ run_agents D E self run_id w = (Ok run, w')
           /\ Run.status (heap w' run) = COMPLETED
           /\ Run.messages (heap w' run) = Run.messages (heap w0 run) ++ new
           /\ length new = 5
           /\ length (Run.messages (heap w' run))
              = length (Run.messages (heap w0 run)) + 5.
Proof.
  intros Hv Hg.
  destruct (run_agents_start D E run_id self run w w0 Hv Hg)
    as (b & w1 & Hpre & Hrun & S1 & M1 & _ & _ & Hat1).
  exists b, w1. split; [exact Hpre|]. split; [exact S1|]. split; [exact Hrun|].
  intros w5 Hstages.
  destruct (stages_run run_id self (stages D E self)
              (stages_spec D E run_id self) run w1 _ _ Hat1)
    as (new & res & w2 & lg2 & Htr & Hms & _ & _ & _ & _ & Hat2 & Hfold).
  assert (Hs : run_stages D E self run w1
               = match res with
                 | Finished => (Ok tt, w2)
                 | CallRaised e | StepRaised e => (Raise e, w2)
                 end) by exact (Hfold unit (mret tt)).
  rewrite Hstages in Hs.
  destruct res as [|e|e]; [|discriminate ..].
  apply stages_trace_shape in Htr as (_ & _ & Hlen). cbn in Hlen.
  specialize (Hfold nat (closing_steps D E run)). cbn beta iota in Hfold.
  destruct (closing_steps_at D E run_id run w2 _ _ Hat2) as (w3 & Hc & Hh3 & _).
  assert (Hbody : run_agents_body D E self run w1 = (Ok run, w3)).
  { rewrite run_agents_body_stages, Hfold. exact Hc. }
  exists new, w3. split; [exact Hbody|].
  split; [rewrite Hrun; unfold try_except; rewrite Hbody; reflexivity|].
  rewrite Hh3. cbn. rewrite Hms, M1, length_app, Hlen. auto.
Qed.

Lemma run_agents_any_status_witness :
  Run.status (heap (world_with completed_run) 0) = COMPLETED
  /\ exists w',
       run_agents sample_deps (sample_env (fun _ => IoOk))
         (sample_orchestrator five_responses) "run-1" (world_with completed_run)
       = (Ok 0, w')
       /\ Run.status (heap w' 0) = COMPLETED
       /\ length (Run.messages (heap w' 0)) = 6.
Proof.
  split; [reflexivity|].
  destruct (run_agents_any_status sample_deps (sample_env (fun _ => IoOk))
              (sample_orchestrator five_responses) "run-1" 0
              (world_with completed_run) (world_with completed_run)
              (cache_valid_world_with completed_run) eq_refl)
    as (b & w1 & Hpre & _ & _ & H).
  destruct (run_agents_start sample_deps (sample_env (fun _ => IoOk)) "run-1"
              (sample_orchestrator five_responses) 0
              (world_with completed_run) (world_with completed_run)
              (cache_valid_world_with completed_run) eq_refl)
    as (b' & w1' & Hpre' & _ & _ & _ & _ & _ & Hat1).
  assert (Hw : w1' = w1) by congruence. subst w1'.
  destruct (run_stages_ok sample_deps (sample_env (fun _ => IoOk)) "run-1"
              (sample_orchestrator five_responses) 0 w1 _ _ Hat1
              five_responses_succeed five_responses_parsed) as (w5 & Hs).
  destruct (H w5 Hs) as (new & w' & _ & Hrun & St & _ & _ & Hlen).
  exists w'. auto.
Defined.

(** ** The pipeline when the fourth answer is parsed or refused as not JSON *)

(** X28.  When the five generation calls return and the fourth answer is
    parsed or refused with a [JSONDecodeError], the run that
    [run_agents] returns has status completed and holds exactly five
    messages, with the steps 1, 2, 3, 4, 5 in the order in which they
    were appended and the roles strategist, architect, ux_writer,
    mockup_designer, synthesizer in this order.  The run is one that
    holds no message yet, as [create_run] leaves it. *)
Theorem run_agents_five_messages (D : Deps) (E : Env) (self : Orchestrator)
    (idea run_id : string) (run : nat) (w w0 : World) :
  cache_valid w ->
  get_run D E run_id w = (Ok (Some run), w0) ->
  Run.idea (heap w0 run) = idea ->
  Run.messages (heap w0 run) = [] ->
  generation_succeeds (llm_client self) (llm_calls w) 5 ->
  parse_is_handled D (llm_client self) (3 + llm_calls w) ->
  exists w',
    run_agents D E self run_id w = (Ok run, w')
    /\ _runs_cache w' !! run_id = Some run
    /\ Run.idea (heap w' run) = idea
    /\ Run.status (heap w' run) = COMPLETED
    /\ length (Run.messages (heap w' run)) = 5
    /\ map Message.step (Run.messages (heap w' run)) = [1; 2; 3; 4; 5]%Z
    /\ map Message.role (Run.messages (heap w' run))
       = [STRATEGIST; ARCHITECT; UX_WRITER; MOCKUP_DESIGNER; SYNTHESIZER].
Proof.
  intros Hv Hg Hidea Hnil Hgen Hparse.
  destruct (run_agents_success D E run_id self run w w0 Hv Hg Hgen Hparse)
    as (m1 & m2 & m3 & m4 & m5 & conv & b & w1 & w' & _ & _ & _ & Hrun & St & Ia & Hca
        & Ms & [R1 S1] & [R2 S2] & [R3 S3] & [R4 S4] & [R5 S5] & _).
  exists w'. rewrite Ms, Hnil, Ia, Hidea. cbn.
  rewrite R1, R2, R3, R4, R5, S1, S2, S3, S4, S5.
  repeat match goal with |- _ /\ _ => split end; try assumption; reflexivity.
Qed.

Lemma run_agents_five_messages_witness :
  exists w',
    run_agents sample_deps (sample_env (fun _ => IoOk))
      (sample_orchestrator five_responses) "run-1" (world_with pending_run)
    = (Ok 0, w')
    /\ _runs_cache w' !! "run-1" = Some 0
    /\ Run.idea (heap w' 0) = "fitness app"
    /\ Run.status (heap w' 0) = COMPLETED
    /\ length (Run.messages (heap w' 0)) = 5
    /\ map Message.step (Run.messages (heap w' 0)) = [1; 2; 3; 4; 5]%Z
    /\ map Message.role (Run.messages (heap w' 0))
       = [STRATEGIST; ARCHITECT; UX_WRITER; MOCKUP_DESIGNER; SYNTHESIZER].
Proof.
  apply (run_agents_five_messages sample_deps (sample_env (fun _ => IoOk))
           (sample_orchestrator five_responses) "fitness app" "run-1" 0
           (world_with pending_run) (world_with pending_run)).
  - apply cache_valid_world_with.
  - reflexivity.
  - reflexivity.
  - reflexivity.
  - apply five_responses_succeed.
  - apply five_responses_parsed.
Defined.

(** X29.  When the five generation calls return and the fourth answer is
    parsed or refused with a [JSONDecodeError], what stage 4 hands to
    [save_artifact] under [mockup_json] is the
    [json.dumps(..., indent=2)] of the parsed value when the answer
    parses, and the answer itself, unchanged, when it is refused; the
    run is completed either way, and the store is handed this, the PRD
    and the conversation, in this order. *)
Theorem mockup_artifact_content (D : Deps) (E : Env) (self : Orchestrator)
    (run_id : string) (run : nat) (w w0 : World) :
  cache_valid w ->
  get_run D E run_id w = (Ok (Some run), w0) ->
  generation_succeeds (llm_client self) (llm_calls w) 5 ->
  parse_is_handled D (llm_client self) (3 + llm_calls w) ->
  exists m4 prd conv w',
    run_agents D E self run_id w = (Ok run, w')
    /\ Run.status (heap w' run) = COMPLETED
    /\ Run.messages (heap w' run) !! (length (Run.messages (heap w0 run)) + 3) = Some m4
    /\ stage_message MOCKUP_DESIGNER 4 m4
    /\ saved w' = saved w ++
         [(Run.id (heap w0 run), "mockup_json",
           match json_loads D (Message.content m4) with
           | Ok mockup_data => json_dumps D (Some 2%nat) mockup_data
           | Raise e => Message.content m4
           end);
          (Run.id (heap w0 run), "prd_markdown", prd);
          (Run.id (heap w0 run), "conversation", conv)].
Proof.
  intros Hv Hg Hgen Hparse.
  destruct (run_agents_success D E run_id self run w w0 Hv Hg Hgen Hparse)
    as (m1 & m2 & m3 & m4 & m5 & conv & b & w1 & w' & _ & _ & _ & Hrun & St & _ & _
        & Ms & _ & _ & _ & P4 & _ & Hs).
  exists m4, (Message.content m5), conv, w'.
  repeat match goal with |- _ /\ _ => split end; try assumption.
  rewrite Ms. rewrite lookup_app_r by lia.
  replace (length (Run.messages (heap w0 run)) + 3 - length (Run.messages (heap w0 run)))
    with 3 by lia.
  reflexivity.
Qed.

Lemma mockup_artifact_content_witness :
  exists m4 w',
    run_agents sample_deps (sample_env (fun _ => IoOk))
      (sample_orchestrator five_responses) "run-1" (world_with pending_run)
    = (Ok 0, w')
    /\ Run.status (heap w' 0) = COMPLETED
    /\ stage_message MOCKUP_DESIGNER 4 m4
    /\ saved w' !! 0
       = Some ("run-1", "mockup_json",
               match json_loads sample_deps (Message.content m4) with
               | Ok mockup_data => json_dumps sample_deps (Some 2%nat) mockup_data
               | Raise e => Message.content m4
               end).
Proof.
  destruct (mockup_artifact_content sample_deps (sample_env (fun _ => IoOk))
              (sample_orchestrator five_responses) "run-1" 0
              (world_with pending_run) (world_with pending_run)
              (cache_valid_world_with pending_run) eq_refl five_responses_succeed
              five_responses_parsed)
    as (m4 & prd & conv & w' & Hrun & St & _ & P4 & Hs).
  exists m4, w'. rewrite Hs. auto.
Defined.

(** ** The outcomes of the pipeline *)

(** X14.  Whatever text the generation backend returns and whatever
    exception of the class [Exception] it raises, [run_agents] on a run
    that exists ends in one of three ways.  Either all five calls
    returned: the run is returned, completed, with five new messages.
    Or the call after the [n] < 5 new messages raised: that exception
    is raised again and the run is failed.  Or four calls returned and
    [json.loads] raised on the fourth answer an exception that is no
    [JSONDecodeError]: that exception is raised again and the run is
    failed with four new messages.  In each case the new messages
    follow the earlier ones and have the roles and steps of the first
    stages. *)
Theorem run_agents_completes_or_fails (D : Deps) (E : Env) (self : Orchestrator)
    (run_id : string) (run : nat) (w w0 : World) :
  cache_valid w ->
  get_run D E run_id w = (Ok (Some run), w0) ->
  exists res new w',
    run_agents D E self run_id w = (res, w')
    /\ Run.messages (heap w' run) = Run.messages (heap w0 run) ++ new
    /\ map Message.role new
       = take (length new) [STRATEGIST; ARCHITECT; UX_WRITER; MOCKUP_DESIGNER; SYNTHESIZER]
    /\ map Message.step new = take (length new) [1; 2; 3; 4; 5]%Z
    /\ ((res = Ok run /\ length new = 5
         /\ Run.status (heap w' run) = COMPLETED
         /\ llm_calls w' = llm_calls w + 5)
        \/ (exists e prompt agent_name,
              res = Raise e /\ length new < 5
              /\ Run.status (heap w' run) = FAILED
              /\ llm_calls w' = llm_calls w + length new + 1
              /\ LLMClient.generate (llm_client self) (llm_calls w + length new)
                   prompt agent_name = Raise e)
        \/ (exists e m prompt,
              res = Raise e /\ length new = 4
              /\ Run.status (heap w' run) = FAILED
              /\ llm_calls w' = llm_calls w + 4
              /\ last new = Some m
              /\ LLMClient.generate (llm_client self) (llm_calls w + 3)
                   prompt "mockup_designer" = Ok (Message.content m)
              /\ parse_escapes D (Message.content m) = Some e)).
Proof.
  intros Hv Hg.
  destruct (run_agents_trace D E run_id self run w w0 Hv Hg)
    as (new & res & w' & lg & Htr & Hms & _ & _ & _ & Hres).
  apply stages_trace_shape in Htr as (Hr & Hs & Hshape). cbn in Hr, Hs, Hshape.
  destruct res as [|e|e].
  - destruct Hres as (Hrun & Hst & _ & Hcalls & _).
    exists (Ok run), new, w'. repeat split; try assumption.
    left. repeat split; try assumption; lia.
  - destruct Hres as (Hrun & Hst & Hcalls).
    destruct Hshape as (Hlt & p & a & Hraise).
    exists (Raise e), new, w'. repeat split; try assumption.
    right. left. exists e, p, a. rewrite (Nat.add_comm (llm_calls w)).
    repeat split; try assumption; lia.
  - destruct Hres as (Hrun & Hst & Hcalls).
    destruct Hshape as (n & st & m & p & Hlen & Hn & Hlast & Hafter & Hcall).
    destruct (stages_step_raised D E self n st _ e Hn Hafter) as (-> & Hagent & Hesc).
    exists (Raise e), new, w'. repeat split; try assumption.
    right. right. exists e, m, p. rewrite Hagent, Nat.add_comm in Hcall.
    repeat split; try assumption; lia.
Qed.

Lemma run_agents_completes_or_fails_witness :
  exists res new w',
    run_agents sample_deps (sample_env (fun _ => IoOk))
      (sample_orchestrator failing_third) "run-1" (world_with pending_run) = (res, w')
    /\ Run.messages (heap w' 0) = Run.messages (heap (world_with pending_run) 0) ++ new
    /\ map Message.role new
       = take (length new) [STRATEGIST; ARCHITECT; UX_WRITER; MOCKUP_DESIGNER; SYNTHESIZER]
    /\ map Message.step new = take (length new) [1; 2; 3; 4; 5]%Z
    /\ ((res = Ok 0 /\ length new = 5
         /\ Run.status (heap w' 0) = COMPLETED
         /\ llm_calls w' = llm_calls (world_with pending_run) + 5)
        \/ (exists e prompt agent_name,
              res = Raise e /\ length new < 5
              /\ Run.status (heap w' 0) = FAILED
              /\ llm_calls w' = llm_calls (world_with pending_run) + length new + 1
              /\ LLMClient.generate (llm_client (sample_orchestrator failing_third))
                   (llm_calls (world_with pending_run) + length new)
                   prompt agent_name = Raise e)
        \/ (exists e m prompt,
              res = Raise e /\ length new = 4
              /\ Run.status (heap w' 0) = FAILED
              /\ llm_calls w' = llm_calls (world_with pending_run) + 4
              /\ last new = Some m
              /\ LLMClient.generate (llm_client (sample_orchestrator failing_third))
                   (llm_calls (world_with pending_run) + 3)
                   prompt "mockup_designer" = Ok (Message.content m)
              /\ parse_escapes sample_deps (Message.content m) = Some e)).
Proof.
  apply (run_agents_completes_or_fails sample_deps (sample_env (fun _ => IoOk))
           (sample_orchestrator failing_third) "run-1" 0
           (world_with pending_run) (world_with pending_run)).
  - apply cache_valid_world_with.
  - reflexivity.
Defined.

Lemma last_content_snoc (role : AgentRole) (messages : list Message.t) (m : Message.t) :
  last_content role (messages ++ [m])
  = if decide (Message.role m = role) then Message.content m
    else last_content role messages.
Proof.
  unfold last_content. rewrite filter_app, filter_cons, filter_nil.
  destruct (decide (Message.role m = role)).
  - rewrite last_snoc. reflexivity.
  - rewrite app_nil_r. reflexivity.
Qed.

Lemma stages_trace_cons_inv (client : LLMClient) (st : Stage) (sts : list Stage)
    (c : nat) (r : Run.t) (new : list Message.t) :
  stages_trace client (st :: sts) c r new Finished ->
  exists m now new',
    new = m :: new'
    /\ LLMClient.generate client c (stage_prompt st r) (stage_agent st)
       = Ok (Message.content m)
    /\ Message.role m = stage_role st
    /\ stages_trace client sts (S c)
         (Run.set_updated_at now (Run.set_messages (Run.messages r ++ [m]) r)) new'
         Finished.
Proof.
  intros H.
  inversion H as [| | |? ? ? ? r' m new' ? Hg Hrole Hstep [now Happ] Hafter Htr]; subst.
  exists m, now, new'. auto.
Qed.

Lemma stages_trace_nil_inv (client : LLMClient) (c : nat) (r : Run.t)
    (new : list Message.t) (res : Ending) :
  stages_trace client [] c r new res -> new = [].
Proof. intros H. inversion H. reflexivity. Qed.

(** X15.  A run of [run_agents] that returns has made five generation calls,
    and each stage was given what the stages before it produced: the
    architect the strategist's response, the UX writer the architect's,
    the mockup designer the architect's and the UX writer's, and the
    synthesizer the transcript of the earlier messages and the four new
    ones.  The responses are the contents of the five new messages. *)
Theorem stages_read_earlier_responses (D : Deps) (E : Env) (self : Orchestrator)
    (run_id : string) (run result : nat) (w w0 w' : World) :
  cache_valid w ->
  get_run D E run_id w = (Ok (Some run), w0) ->
  run_agents D E self run_id w = (Ok result, w') ->
  exists m1 m2 m3 m4 m5,
    Run.messages (heap w' run) = Run.messages (heap w0 run) ++ [m1; m2; m3; m4; m5]
    /\ LLMClient.generate (llm_client self) (llm_calls w)
         (get_agent_prompt D "strategist"
            [("idea", PStr (Run.idea (heap w0 run)));
             ("max_questions", PInt max_strategist_questions)])
         "strategist" = Ok (Message.content m1)
    /\ LLMClient.generate (llm_client self) (1 + llm_calls w)
         (get_agent_prompt D "architect"
            [("idea", PStr (Run.idea (heap w0 run)));
             ("strategist_analysis", PStr (Message.content m1));
             ("user_answers",
              PStr (json_dumps D None (json_of_answers (Run.user_answers (heap w0 run)))))])
         "architect" = Ok (Message.content m2)
    /\ LLMClient.generate (llm_client self) (2 + llm_calls w)
         (get_agent_prompt D "ux_writer"
            [("idea", PStr (Run.idea (heap w0 run)));
             ("architect_analysis", PStr (Message.content m2))])
         "ux_writer" = Ok (Message.content m3)
    /\ LLMClient.generate (llm_client self) (3 + llm_calls w)
         (get_agent_prompt D "mockup_designer"
            [("idea", PStr (Run.idea (heap w0 run)));
             ("architect_analysis", PStr (Message.content m2));
             ("ux_writer_analysis", PStr (Message.content m3))])
         "mockup_designer" = Ok (Message.content m4)
    /\ LLMClient.generate (llm_client self) (4 + llm_calls w)
         (get_agent_prompt D "synthesizer"
            [("conversation_history",
              PStr (transcript (Run.messages (heap w0 run) ++ [m1; m2; m3; m4])));
             ("prd_template", PStr (get_prd_template D))])
         "synthesizer" = Ok (Message.content m5).
Proof.
  intros Hv Hg Hrun.
  destruct (run_agents_trace D E run_id self run w w0 Hv Hg)
    as (new & res & w1 & lg & Htr & Hms & _ & _ & _ & Hres).
  destruct res as [|e|e]; [|destruct Hres as (Hr & _); congruence ..].
  destruct Hres as (Hr & _). rewrite Hrun in Hr. inversion Hr; subst result w1; clear Hr.
  unfold stages in Htr.
  apply stages_trace_cons_inv in Htr as (m1 & now1 & new1 & -> & G1 & R1 & Htr).
  apply stages_trace_cons_inv in Htr as (m2 & now2 & new2 & -> & G2 & R2 & Htr).
  apply stages_trace_cons_inv in Htr as (m3 & now3 & new3 & -> & G3 & R3 & Htr).
  apply stages_trace_cons_inv in Htr as (m4 & now4 & new4 & -> & G4 & R4 & Htr).
  apply stages_trace_cons_inv in Htr as (m5 & now5 & new5 & -> & G5 & R5 & Htr).
  apply stages_trace_nil_inv in Htr as ->.
  cbn [stage_prompt stage_agent stage_role] in *.
  unfold strategist_prompt in G1. unfold architect_prompt in G2.
  unfold ux_writer_prompt in G3. unfold mockup_designer_prompt in G4.
  unfold synthesizer_prompt in G5.
  cbn [Run.set_updated_at Run.set_messages Run.set_status
       Run.idea Run.messages Run.user_answers] in *.
  rewrite last_content_snoc, R1, decide_True in G2 by reflexivity.
  rewrite last_content_snoc, R2, decide_True in G3 by reflexivity.
  rewrite (last_content_snoc UX_WRITER), R3, decide_True in G4 by reflexivity.
  rewrite (last_content_snoc ARCHITECT), R3, decide_False in G4 by discriminate.
  rewrite (last_content_snoc ARCHITECT), R2, decide_True in G4 by reflexivity.
  rewrite <- !app_assoc in G5. cbn [app] in G5.
  exists m1, m2, m3, m4, m5.
  repeat match goal with |- _ /\ _ => split end; assumption.
Qed.

Lemma stages_read_earlier_responses_witness :
  exists m1 m2 m3 m4 m5 w',
    run_agents sample_deps (sample_env (fun _ => IoOk))
      (sample_orchestrator five_responses) "run-1" (world_with pending_run) = (Ok 0, w')
    /\ Run.messages (heap w' 0) = [m1; m2; m3; m4; m5]
    /\ Message.content m2 = "Architect response"
    /\ LLMClient.generate (mock_client five_responses) 2
         (get_agent_prompt sample_deps "ux_writer"
            [("idea", PStr "fitness app");
             ("architect_analysis", PStr (Message.content m2))])
         "ux_writer" = Ok (Message.content m3).
Proof.
  destruct (run_agents_success sample_deps (sample_env (fun _ => IoOk)) "run-1"
              (sample_orchestrator five_responses) 0
              (world_with pending_run) (world_with pending_run)
              (cache_valid_world_with pending_run) eq_refl five_responses_succeed
              five_responses_parsed)
    as (_ & _ & _ & _ & _ & _ & _ & _ & w' & _ & _ & _ & Hrun & _).
  destruct (stages_read_earlier_responses sample_deps (sample_env (fun _ => IoOk))
              (sample_orchestrator five_responses) "run-1" 0 0
              (world_with pending_run) (world_with pending_run) w'
              (cache_valid_world_with pending_run) eq_refl Hrun)
    as (m1 & m2 & m3 & m4 & m5 & Hms & _ & G2 & G3 & _).
  exists m1, m2, m3, m4, m5, w'.
  split; [exact Hrun|]. split; [exact Hms|]. split; [|exact G3].
  cbn in G2. congruence.
Defined.

(** X16.  The conversation that a returning [run_agents] hands to the store
    last is printed from the run as it is returned: completed, with its
    completion time, and with every message. *)
Theorem conversation_artifact_is_final_run (D : Deps) (E : Env) (self : Orchestrator)
    (run_id : string) (run result : nat) (w w0 w' : World) :
  cache_valid w ->
  get_run D E run_id w = (Ok (Some run), w0) ->
  run_agents D E self run_id w = (Ok result, w') ->
  result = run
  /\ last (saved w')
     = Some (Run.id (heap w' run), "conversation",
             json_dumps D (Some 2%nat) (conversation_data D (heap w' run)))
  /\ Run.status (heap w' run) = COMPLETED
  /\ is_Some (Run.completed_at (heap w' run))
  /\ _runs_cache w' !! run_id = Some run.
Proof.
  intros Hv Hg Hrun.
  destruct (run_agents_trace D E run_id self run w w0 Hv Hg)
    as (new & res & w1 & lg & _ & _ & Hid & _ & Hk & Hres).
  destruct res as [|e|e]; [|destruct Hres as (Hr & _); congruence ..].
  destruct Hres as (Hr & Hst & Hcomp & _ & Hsaved).
  rewrite Hrun in Hr. inversion Hr; subst result w1; clear Hr.
  rewrite Hsaved, last_snoc, Hid. auto.
Qed.

Lemma conversation_artifact_is_final_run_witness :
  exists w',
    run_agents sample_deps (sample_env (fun _ => IoOk))
      (sample_orchestrator five_responses) "run-1" (world_with pending_run) = (Ok 0, w')
    /\ last (saved w')
       = Some (Run.id (heap w' 0), "conversation",
               json_dumps sample_deps (Some 2%nat) (conversation_data sample_deps (heap w' 0)))
    /\ Run.status (heap w' 0) = COMPLETED.
Proof.
  destruct (run_agents_success sample_deps (sample_env (fun _ => IoOk)) "run-1"
              (sample_orchestrator five_responses) 0
              (world_with pending_run) (world_with pending_run)
              (cache_valid_world_with pending_run) eq_refl five_responses_succeed
              five_responses_parsed)
    as (_ & _ & _ & _ & _ & _ & _ & _ & w' & _ & _ & _ & Hrun & _).
  destruct (conversation_artifact_is_final_run sample_deps (sample_env (fun _ => IoOk))
              (sample_orchestrator five_responses) "run-1" 0 0
              (world_with pending_run) (world_with pending_run) w'
              (cache_valid_world_with pending_run) eq_refl Hrun)
    as (_ & Hl & Hst & _).
  exists w'. split; [exact Hrun|]. split; [exact Hl | exact Hst].
Defined.

(** ** The transcript *)

Lemma append_assoc_chars (a b c : string) : (a +:+ b) +:+ c = a +:+ (b +:+ c).
Proof. apply chars_inj. rewrite !chars_app. symmetry. apply app_assoc. Qed.

Lemma append_empty_r (a : string) : a +:+ EmptyString = a.
Proof. apply chars_inj. rewrite chars_app. apply app_nil_r. Qed.

Lemma concat_cons (sep x : string) (l : list string) :
  l <> [] -> String.concat sep (x :: l) = x +:+ sep +:+ String.concat sep l.
Proof. destruct l; [congruence | reflexivity]. Qed.

Lemma concat_three (sep h c : string) (l : list string) :
  l <> [] ->
  String.concat sep (h :: c :: EmptyString :: l)
  = h +:+ sep +:+ c +:+ sep +:+ sep +:+ String.concat sep l.
Proof. destruct l; [congruence | reflexivity]. Qed.

Lemma transcript_blocks (messages : list Message.t) :
  transcript messages = String.concat newline (map message_block messages).
Proof.
  unfold transcript.
  set (f := fun message : Message.t => _).
  induction messages as [|m ms IH]; [reflexivity|].
  destruct ms as [|m' ms].
  - subst f. cbn [flat_map map app String.concat]. unfold message_block.
    rewrite !append_assoc_chars, append_empty_r. reflexivity.
  - change (map message_block (m :: m' :: ms))
      with (message_block m :: map message_block (m' :: ms)).
    rewrite (concat_cons newline (message_block m)) by (cbn [map]; discriminate).
    rewrite <- IH.
    change (flat_map f (m :: m' :: ms))
      with (("=== " +:+ upper (AgentRole_value (Message.role m))
               +:+ " (Step " +:+ str_int (Message.step m) +:+ ") ===")
            :: Message.content m :: EmptyString :: flat_map f (m' :: ms)).
    rewrite concat_three by (subst f; cbn [flat_map app]; discriminate).
    unfold message_block. rewrite !append_assoc_chars. reflexivity.
Qed.

(** X17.  [_format_conversation_history] changes nothing and returns the
    blocks of the messages in their order, joined by a newline: each
    block is the header line of the message with its role in upper case
    and its step, the content, and an empty line.  A run without
    messages gives the empty string. *)
Theorem format_conversation_history_blocks (run : nat) (w : World) :
  _format_conversation_history run w
  = (Ok (String.concat newline (map message_block (Run.messages (heap w run)))), w).
Proof.
  unfold _format_conversation_history.
  rewrite (bind_ok (get_obj run) _ w _ _ eq_refl).
  rewrite <- transcript_blocks. reflexivity.
Qed.

(** ** Persistence and the outcome of the pipeline *)

(** [update_run] never raises and changes no object; it returns
    [False] when its write fails. *)
Lemma update_run_absorbs (D : Deps) (E : Env) (l : nat) (w : World) :
  exists b w', update_run D E l w = (Ok b, w')
    /\ heap w' = heap w
    /\ (io_at E (io_ops w) <> IoOk -> b = false).
Proof.
  unfold update_run, try_except, _save_run, write_file. unfold_monad.
  destruct (String.eqb (run_path E (Run.id (heap w l))) "."); cbn.
  { eexists _, _. repeat split. }
  destruct (io_at E (io_ops w)) as [|[|]] eqn:Ho; cbn;
    eexists _, _; repeat split; congruence.
Qed.

Lemma last_content_said (role : AgentRole) (messages messages' : list Message.t) :
  map said messages' = map said messages ->
  last_content role messages' = last_content role messages.
Proof.
  revert messages'.
  induction messages as [|m ms IH] using rev_ind; intros messages' H.
  - destruct messages'; [reflexivity | discriminate].
  - destruct messages' as [|m' ms' _] using rev_ind.
    + apply (f_equal length) in H. rewrite !length_map, length_app in H.
      cbn in H. lia.
    + rewrite !map_app in H. cbn [map] in H.
      apply app_inj_tail in H as [H1 H2]. unfold said in H2.
      injection H2 as Hr Hs Hc.
      rewrite !last_content_snoc, Hr, Hc, (IH ms' H1). reflexivity.
Qed.

Lemma transcript_said (messages messages' : list Message.t) :
  map said messages' = map said messages ->
  transcript messages' = transcript messages.
Proof.
  intros H. rewrite !transcript_blocks. f_equal.
  revert messages' H. induction messages as [|m ms IH]; intros [|m' ms'] H;
    try discriminate; [reflexivity|].
  cbn [map] in H. unfold said at 1 3 in H. injection H as Hr Hs Hc H.
  cbn [map]. rewrite (IH ms' H). unfold message_block. rewrite Hr, Hs, Hc. reflexivity.
Qed.

(** The stages make the same calls whatever the disk does. *)
Lemma stages_same_calls (D : Deps) (E E' : Env) (self : Orchestrator) :
  Forall2 same_calls (stages D E self) (stages D E' self).
Proof.
  unfold stages.
  repeat (apply List.Forall2_cons;
          [unfold same_calls;
           cbn [stage_role stage_step stage_agent stage_after stage_prompt];
           do 4 (split; [reflexivity|]);
           intros r r' (Hi & Hu & Hm);
           unfold strategist_prompt, architect_prompt, ux_writer_prompt,
             mockup_designer_prompt, synthesizer_prompt;
           rewrite ?Hi, ?Hu, ?(last_content_said _ _ _ Hm), ?(transcript_said _ _ Hm);
           reflexivity|]).
  apply List.Forall2_nil.
Qed.

(** Two traces of stages that make the same calls, from runs that are
    alike, end the same way with messages that say the same. *)
Lemma stages_trace_alike (client : LLMClient) (sts sts' : list Stage) :
  Forall2 same_calls sts sts' ->
  forall c r r' new new' res res',
    alike r r' ->
    stages_trace client sts c r new res ->
    stages_trace client sts' c r' new' res' ->
    res' = res /\ map said new' = map said new.
Proof.
  induction 1 as [|st st' sts sts' (Hrole & Hstep & Hagent & Hafter & Hprompt) _ IH];
    intros c r r' new new' res res' Hal H1 H2.
  - inversion H1; inversion H2; subst. auto.
  - specialize (Hprompt r r' Hal).
    assert (Hnext : forall m m' now now',
      Message.role m = stage_role st -> Message.role m' = stage_role st' ->
      Message.step m = stage_step st -> Message.step m' = stage_step st' ->
      Message.content m' = Message.content m ->
      said m' = said m
      /\ alike (Run.set_updated_at now (Run.set_messages (Run.messages r ++ [m]) r))
               (Run.set_updated_at now' (Run.set_messages (Run.messages r' ++ [m']) r'))).
    { intros m m' now now' R R' S S' C.
      assert (Hs : said m' = said m) by (unfold said; congruence).
      split; [exact Hs|]. destruct Hal as (Hi & Hu & Hm).
      unfold alike. cbn. rewrite !map_app, Hm. cbn [map]. rewrite Hs. auto. }
    inversion H1 as [|? ? ? ? e G|? ? ? ? r1 m e G R S [now A] F
                     |? ? ? ? r1 m new1 ? G R S [now A] F T]; subst;
      inversion H2 as [|? ? ? ? e' G'|? ? ? ? r1' m' e' G' R' S' [now' A'] F'
                       |? ? ? ? r1' m' new1' ? G' R' S' [now' A'] F' T']; subst;
      rewrite Hprompt, Hagent in G'; rewrite G in G';
      try discriminate.
    + injection G' as ->. auto.
    + injection G' as C. symmetry in C. rewrite Hafter, C in F'. rewrite F in F'.
      injection F' as ->. destruct (Hnext m m' now now' R R' S S' C) as [Hs _].
      cbn [map]. rewrite Hs. auto.
    + injection G' as C. symmetry in C. rewrite Hafter, C in F'. rewrite F in F'. discriminate.
    + injection G' as C. symmetry in C. rewrite Hafter, C in F'. rewrite F in F'. discriminate.
    + injection G' as C. symmetry in C. destruct (Hnext m m' now now' R R' S S' C) as [Hs Hal'].
      destruct (IH _ _ _ _ _ _ _ Hal' T T') as [-> Hnew].
      cbn [map]. rewrite Hs, Hnew. auto.
Qed.

(** C8 as the code has it.  A failure to persist the run is absorbed:
    [update_run] catches it and returns [False] without touching any
    object, the orchestrator does not look at that result, and the
    pipeline goes on.  Whichever writes fail, [run_agents] returns or
    raises as it does with any other disk, one that takes every write
    among them, and leaves the run with the same status and with
    messages that say the same. *)
Theorem persistence_failure_is_absorbed (D : Deps) (E : Env) (self : Orchestrator)
    (run_id : string) (run : nat) (w w0 : World) (io : nat -> IOResult) :
  cache_valid w ->
  get_run D E run_id w = (Ok (Some run), w0) ->
  (forall l w1, exists b w2,
     update_run D E l w1 = (Ok b, w2)
     /\ heap w2 = heap w1
     /\ (io_at E (io_ops w1) <> IoOk -> b = false))
  /\ exists res w' w'',
       run_agents D E self run_id w = (res, w')
       /\ run_agents D (with_io io E) self run_id w = (res, w'')
       /\ Run.status (heap w' run) = Run.status (heap w'' run)
       /\ map said (Run.messages (heap w' run))
          = map said (Run.messages (heap w'' run)).
Proof.
  intros Hv Hg. split; [intros l w1; apply update_run_absorbs|].
  destruct (run_agents_trace D E run_id self run w w0 Hv Hg)
    as (new & res & w' & lg & Htr & Hms & _ & _ & _ & Hres).
  destruct (run_agents_trace D (with_io io E) run_id self run w w0 Hv Hg)
    as (new2 & res2 & w'' & lg2 & Htr2 & Hms2 & _ & _ & _ & Hres2).
  destruct (stages_trace_alike (llm_client self) _ _
              (stages_same_calls D E (with_io io E) self) _ _ _ _ _ _ _
              (conj eq_refl (conj eq_refl eq_refl)) Htr Htr2) as [-> Hnew].
  exists (match res with
          | Finished => Ok run
          | CallRaised e | StepRaised e => Raise e
          end), w', w''.
  rewrite Hms, Hms2, !map_app, Hnew.
  destruct res as [|e|e].
  - destruct Hres as (Hr & St & _), Hres2 as (Hr2 & St2 & _).
    rewrite St, St2. auto.
  - destruct Hres as (Hr & St & _), Hres2 as (Hr2 & St2 & _).
    rewrite St, St2. auto.
  - destruct Hres as (Hr & St & _), Hres2 as (Hr2 & St2 & _).
    rewrite St, St2. auto.
Qed.

(** The disk of this sample refuses the second write, the one of stage
    1, and takes every other. *)
Lemma persistence_failure_is_absorbed_witness :
  io_at (sample_env (fun n => if Nat.eqb n 1 then IoError false else IoOk)) 1 <> IoOk
  /\ exists w',
       run_agents sample_deps
         (sample_env (fun n => if Nat.eqb n 1 then IoError false else IoOk))
         (sample_orchestrator five_responses) "run-1" (world_with pending_run)
       = (Ok 0, w')
       /\ Run.status (heap w' 0) = COMPLETED.
Proof.
  split; [discriminate|].
  destruct (persistence_failure_is_absorbed sample_deps
              (sample_env (fun n => if Nat.eqb n 1 then IoError false else IoOk))
              (sample_orchestrator five_responses) "run-1" 0
              (world_with pending_run) (world_with pending_run) (fun _ => IoOk)
              (cache_valid_world_with pending_run) eq_refl)
    as (_ & res & w' & w'' & H1 & H2 & St & _).
  exists w'. rewrite H1, St.
  pose proof (f_equal fst H2) as Hres.
  pose proof (f_equal (fun p => Run.status (heap p.2 0)) H2) as Hst.
  vm_compute in Hres. cbn beta in Hst. cbn [snd] in Hst.
  rewrite <- Hres, <- Hst. split; [reflexivity | vm_compute; reflexivity].
Defined.

(** C8 fails as stated: with the disk refusing every write, persisting
    the run fails in stage 1 already ([update_run] returns [False]), yet
    [run_agents] returns normally and the run is completed, not failed. *)
Lemma failed_persistence_is_not_fatal :
  let E := sample_env (fun _ => IoError false) in
  let self := sample_orchestrator five_responses in
  let w := world_with pending_run in
  (update_run sample_deps E 0 w).1 = Ok false
  /\ (run_agents sample_deps E self "run-1" w).1 = Ok 0
  /\ Run.status (heap (run_agents sample_deps E self "run-1" w).2 0) = COMPLETED
  /\ ~ (exists e, (run_agents sample_deps E self "run-1" w).1 = Raise e
                  /\ Run.status (heap (run_agents sample_deps E self "run-1" w).2 0) = FAILED).
Proof.
  cbv zeta. split; [vm_compute; reflexivity|].
  split; [vm_compute; reflexivity|].
  split; [vm_compute; reflexivity|].
  intros (e & _ & H). vm_compute in H. discriminate.
Qed.

(** ** The choice of the client *)

(** X18.  [get_llm_client] returns the AutoGen client exactly when the key is
    set, is not the placeholder and [autogen] can be imported, and the
    stub in every other case, with the default settings among them.  The
    client carries the seed of the settings, and its type is never
    [AUTOGEN]: the AutoGen client is typed [OPENAI]. *)
Theorem get_llm_client_choice (settings : Settings) (autogen_installed : bool) :
  (client_class (get_llm_client settings autogen_installed) = IsAutoGenLLMClient
   <-> openai_api_key settings <> EmptyString
       /\ openai_api_key settings <> "your_openai_api_key_here"
       /\ autogen_installed = true)
  /\ seed (get_llm_client settings autogen_installed) = agent_seed settings
  /\ llm_type (get_llm_client settings autogen_installed)
     = match client_class (get_llm_client settings autogen_installed) with
       | IsStubLLMClient => STUB
       | IsAutoGenLLMClient => OPENAI
       end
  /\ get_llm_client default_settings autogen_installed
     = new_StubLLMClient (agent_seed default_settings).
Proof.
  unfold get_llm_client, new_AutoGenLLMClient.
  destruct (String.eqb_spec (openai_api_key settings) EmptyString) as [He|He];
    destruct (String.eqb_spec (openai_api_key settings) "your_openai_api_key_here")
      as [Hp|Hp];
    destruct autogen_installed; cbn;
    (split; [split; [try discriminate; auto | intros (? & ? & ?); congruence]
            | repeat split]).
Qed.

(** ** The run on disk *)

(** X21.  With the disk working, [run.json] holds the run as it is in memory
    when [run_agents] ends, whether it returns or raises: the last write
    to the file is the one after the last change of the run.  The one
    exception is excluded: a run whose conversation artifact is stored
    at the path of its [run.json]. *)
Theorem run_json_holds_final_run (D : Deps) (E : Env) (self : Orchestrator)
    (run_id : string) (run : nat) (w w0 : World) :
  cache_valid w ->
  get_run D E run_id w = (Ok (Some run), w0) ->
  (forall n, io_at E n = IoOk) ->
  Path (Run.get_artifact_path (heap w0 run) "conversation")
    <> run_path E (Run.id (heap w0 run)) ->
  exists res w',
    run_agents D E self run_id w = (res, w')
    /\ files w' !! run_path E (Run.id (heap w0 run)) = Some (encode_run D (heap w' run)).
Proof.
  intros Hv Hg Hio Hp.
  destruct (run_agents_begin D E run_id self run w w0 Hv Hg) as (w1 & Hrun & Hh1 & Hat1).
  destruct (stages_run run_id self (stages D E self)
              (stages_spec D E run_id self) run w1 _ _ Hat1)
    as (new & res & w2 & lg2 & _ & _ & _ & Hid & _ & Hart & Hat2 & Hfold).
  specialize (Hfold nat (closing_steps D E run)).
  rewrite Hh1 in Hid, Hart. cbn in Hid, Hart.
  rewrite Hrun, run_agents_body_stages. unfold try_except. rewrite Hfold.
  assert (Hfail : forall e : Exception,
    exists res w',
      (update_status E run FAILED;; update_run D E run;; raise e : M nat) w2 = (res, w')
      /\ files w' !! run_path E (Run.id (heap w0 run))
         = Some (encode_run D (heap w' run))).
  { intros e. pose proof (handler_files D E run e w2 Hio) as Hf. rewrite Hid in Hf.
    destruct ((update_status E run FAILED;; update_run D E run;; raise e : M nat) w2)
      as [r w'].
    exists r, w'. split; [reflexivity | exact Hf]. }
  destruct res as [|e|e]; [|apply Hfail ..].
  destruct (closing_steps_at D E run_id run w2 _ _ Hat2) as (w3 & Hc & _).
  pose proof (closing_steps_files D E run_id run w2 _ _ Hat2 Hio) as Hf.
  rewrite Hc in Hf |- *. rewrite Hid in Hf.
  exists (Ok run), w3. split; [reflexivity|]. apply Hf.
  unfold Run.get_artifact_path in *. rewrite Hart. exact Hp.
Qed.

Lemma run_json_holds_final_run_witness :
  exists res w',
    run_agents sample_deps (sample_env (fun _ => IoOk))
      (sample_orchestrator failing_third) "run-1" (world_with pending_run) = (res, w')
    /\ files w' !! "data/runs/run-1/run.json" = Some (encode_run sample_deps (heap w' 0)).
Proof.
  apply (run_json_holds_final_run sample_deps (sample_env (fun _ => IoOk))
           (sample_orchestrator failing_third) "run-1" 0
           (world_with pending_run) (world_with pending_run)).
  - apply cache_valid_world_with.
  - reflexivity.
  - reflexivity.
  - vm_compute. discriminate.
Defined.

(** ** Failures of the disk and of the renderer *)

Lemma set_artifact_path_frame (E : Env) (l : nat) (artifact_type path : string)
    (w : World) :
  exists w', set_artifact_path E l artifact_type path w = (Ok tt, w')
    /\ io_ops w' = io_ops w /\ files w' = files w
    /\ _runs_cache w' = _runs_cache w /\ next_ref w' = next_ref w
    /\ Run.id (heap w' l) = Run.id (heap w l)
    /\ (forall l', l' <> l -> heap w' l' = heap w l').
Proof.
  unfold set_artifact_path. unfold_monad.
  eexists. split; [reflexivity|]. cbn. rewrite Nat.eqb_refl.
  repeat match goal with |- _ /\ _ => split end; try reflexivity.
  intros l' Hl'. destruct (Nat.eqb_spec l' l); [contradiction | reflexivity].
Qed.

(** A write that the disk refuses raises. *)
Lemma write_file_refused (E : Env) (path content : string) (w : World) :
  io_at E (io_ops w) <> IoOk ->
  exists e w', write_file E path content w = (Raise e, w').
Proof.
  intros Hio. unfold write_file. destruct (String.eqb path "."); [eauto|].
  unfold_monad. destruct (io_at E (io_ops w)) as [|[|]]; cbn; [congruence|eauto..].
Qed.

(** X22.  When the disk refuses the write of [run.json], [create_run] raises:
    unlike [update_run], it does not catch the error.  No run is put
    into the cache, no object that existed changes, and [run.json] of
    the new id is untouched or left empty. *)
Theorem create_run_write_refused (D : Deps) (E : Env) (idea : string) (w : World) :
  io_at E (io_ops w) <> IoOk ->
  exists e w',
    create_run D E idea w = (Raise e, w')
    /\ _runs_cache w' = _runs_cache w
    /\ (forall l, l < next_ref w -> heap w' l = heap w l)
    /\ (files w' = files w
        \/ files w' = <[run_path E (uuid4_at E (uuid_draws w)) := EmptyString]> (files w)).
Proof.
  intros Hio. unfold create_run.
  rewrite (bind_ok (uuid4 E) _ w _ _ eq_refl).
  rewrite (bind_ok (utcnow E) _ _ _ _ eq_refl).
  rewrite (bind_ok (utcnow E) _ _ _ _ eq_refl).
  rewrite (bind_ok (alloc _) _ _ _ _ eq_refl).
  cbn [next_ref].
  set (l := next_ref w).
  set (w0 := mkWorld _ _ _ _ _ _ _ _ _).
  assert (F0 : io_ops w0 = io_ops w /\ files w0 = files w
               /\ _runs_cache w0 = _runs_cache w
               /\ Run.id (heap w0 l) = uuid4_at E (uuid_draws w)
               /\ (forall l', l' <> l -> heap w0 l' = heap w l')).
  { subst w0. cbn. rewrite Nat.eqb_refl. repeat split.
    intros l' Hl'. destruct (Nat.eqb_spec l' l); [contradiction | reflexivity]. }
  clearbody w0. destruct F0 as (O0 & G0 & K0 & I0 & H0).
  set (run_dir := runs_dir E +:+ "/" +:+ uuid4_at E (uuid_draws w)).
  destruct (set_artifact_path_frame E l "prd_markdown" (run_dir +:+ "/PRD.md") w0)
    as (w1 & R1 & O1 & G1 & K1 & _ & I1 & H1).
  rewrite (bind_ok _ _ _ _ _ R1).
  destruct (set_artifact_path_frame E l "prd_pdf" (run_dir +:+ "/PRD.pdf") w1)
    as (w2 & R2 & O2 & G2 & K2 & _ & I2 & H2).
  rewrite (bind_ok _ _ _ _ _ R2).
  destruct (set_artifact_path_frame E l "conversation"
              (run_dir +:+ "/conversation.json") w2)
    as (w3 & R3 & O3 & G3 & K3 & _ & I3 & H3).
  rewrite (bind_ok _ _ _ _ _ R3).
  destruct (set_artifact_path_frame E l "mockup_json" (run_dir +:+ "/mockup.json") w3)
    as (w4 & R4 & O4 & G4 & K4 & _ & I4 & H4).
  rewrite (bind_ok _ _ _ _ _ R4).
  destruct (set_artifact_path_frame E l "bundle" (run_dir +:+ "/bundle.zip") w4)
    as (w5 & R5 & O5 & G5 & K5 & _ & I5 & H5).
  rewrite (bind_ok _ _ _ _ _ R5).
  assert (Hio5 : io_at E (io_ops w5) <> IoOk) by (rewrite O5, O4, O3, O2, O1, O0; exact Hio).
  destruct (write_file_refused E (run_path E (Run.id (heap w5 l)))
              (encode_run D (heap w5 l)) w5 Hio5) as (e & w6 & Hw).
  assert (Hsave : _save_run D E l w5 = (Raise e, w6)).
  { unfold _save_run. rewrite (bind_ok (get_obj l) _ w5 _ _ eq_refl). exact Hw. }
  rewrite (bind_raise _ _ _ _ _ Hsave).
  apply write_file_raises in Hw as (Hf & Hh & Hk).
  exists e, w6. split; [reflexivity|].
  rewrite Hk, Hh, K5, K4, K3, K2, K1, K0. split; [reflexivity|]. split.
  - intros l' Hl'. rewrite H5, H4, H3, H2, H1, H0 by (subst l; lia). reflexivity.
  - rewrite I5, I4, I3, I2, I1, I0, G5, G4, G3, G2, G1, G0 in Hf. exact Hf.
Qed.

Lemma create_run_write_refused_witness :
  exists e w',
    create_run sample_deps (sample_env (fun _ => IoError true)) "fitness app" empty_world
    = (Raise e, w')
    /\ _runs_cache w' = _runs_cache empty_world.
Proof.
  destruct (create_run_write_refused sample_deps (sample_env (fun _ => IoError true))
              "fitness app" empty_world) as (e & w' & Hr & Hc & _).
  - discriminate.
  - exists e, w'. split; [exact Hr | exact Hc].
Defined.

Lemma put_files_store (fs : list (string * string)) (w : World) :
  exists w', foldr (fun f k => put_file f.1 f.2 ;; k) (mret tt) fs w = (Ok tt, w')
    /\ heap w' = heap w /\ _runs_cache w' = _runs_cache w
    /\ saved w' = saved w /\ llm_calls w' = llm_calls w.
Proof.
  revert w. induction fs as [|f fs IH]; intros w.
  - exists w. auto.
  - cbn [foldr]. unfold mbind at 1, M_bind at 1. unfold put_file at 1. cbn beta iota.
    set (w0 := mkWorld _ _ _ _ _ _ _ _ _).
    destruct (IH w0) as (w' & Hr & Hh & Hc & Hs & Hl).
    exists w'. auto.
Qed.

(** X23.  [_generate_pdf] never raises and returns nothing, whether the
    renderer reports success or failure.  It changes files only; and
    for a run without a path for [prd_pdf] it does nothing at all. *)
Theorem generate_pdf_never_raises (E : Env) (run : nat) (prd_content : string)
    (w : World) :
  exists w',
    _generate_pdf E run prd_content w = (Ok tt, w')
    /\ heap w' = heap w /\ _runs_cache w' = _runs_cache w /\ saved w' = saved w
    /\ (Run.get_artifact_path (heap w run) "prd_pdf" = EmptyString -> w' = w).
Proof.
  unfold _generate_pdf, try_except.
  rewrite (bind_ok (get_obj run) _ w _ _ eq_refl).
  destruct (String.eqb_spec (Run.get_artifact_path (heap w run) "prd_pdf") EmptyString)
    as [He|He].
  { exists w. auto. }
  assert (Hgen : exists b w',
    generate_from_markdown E prd_content
      (Run.get_artifact_path (heap w run) "prd_pdf") w = (Ok b, w')
    /\ heap w' = heap w /\ _runs_cache w' = _runs_cache w /\ saved w' = saved w).
  { unfold generate_from_markdown.
    rewrite (bind_ok tick_io _ w _ _ eq_refl).
    set (w0 := mkWorld _ _ _ _ _ _ _ _ _).
    destruct (put_files_store
                (render_files (render_at E (io_ops w) prd_content
                                 (Run.get_artifact_path (heap w run) "prd_pdf"))) w0)
      as (w' & Hr & Hh & Hc & Hs & _).
    cbn [fst]. rewrite (bind_ok _ _ _ _ _ Hr).
    eexists _, w'. split; [reflexivity|]. rewrite Hh, Hc, Hs. auto. }
  destruct Hgen as (b & w' & Hr & Hh & Hc & Hs).
  rewrite (bind_ok _ _ _ _ _ Hr).
  exists w'. split; [reflexivity|].
  repeat split; try assumption. intros H. contradiction.
Qed.

(** ** Listing the runs *)

Lemma insert_desc_perm {A} (key : A -> Z) (x : A) (l : list A) :
  insert_desc key x l ≡ₚ x :: l.
Proof.
  induction l as [|y l IH]; cbn; [reflexivity|].
  destruct (key x <? key y)%Z; [|reflexivity].
  rewrite IH. apply Permutation_swap.
Qed.

Lemma sort_desc_perm {A} (key : A -> Z) (l : list A) : sort_desc key l ≡ₚ l.
Proof.
  induction l as [|x l IH]; cbn; [reflexivity|].
  rewrite insert_desc_perm, IH. reflexivity.
Qed.

Lemma insert_desc_newest_first (created_at : nat -> Z) (x : nat) (l : list nat) :
  newest_first created_at l -> newest_first created_at (insert_desc created_at x l).
Proof.
  induction l as [|y l IH]; cbn; [auto|]. intros [Hy Hl].
  destruct (Z.ltb_spec (created_at x) (created_at y)); cbn.
  - split; [|apply IH, Hl]. rewrite insert_desc_perm. constructor; [lia | exact Hy].
  - split; [|split; assumption]. constructor; [lia|].
    eapply Forall_impl; [exact Hy|]. cbn. intros; lia.
Qed.

Lemma sort_desc_newest_first (created_at : nat -> Z) (l : list nat) :
  newest_first created_at (sort_desc created_at l).
Proof.
  induction l as [|x l IH]; cbn; [exact I|]. apply insert_desc_newest_first, IH.
Qed.

Lemma newest_first_drop (created_at : nat -> Z) (n : nat) (l : list nat) :
  newest_first created_at l -> newest_first created_at (drop n l).
Proof.
  revert l. induction n as [|n IH]; intros [|x l]; cbn; auto.
  intros [_ H]. apply IH, H.
Qed.

Lemma newest_first_take (created_at : nat -> Z) (n : nat) (l : list nat) :
  newest_first created_at l -> newest_first created_at (take n l).
Proof.
  revert l. induction n as [|n IH]; intros [|x l]; cbn; auto.
  intros [Hx H]. split; [apply Forall_take, Hx | apply IH, H].
Qed.

Lemma py_slice_length {A} (l : list A) (start stop : Z) :
  (0 <= stop - start)%Z -> length (py_slice l start stop) <= Z.to_nat (stop - start).
Proof.
  intros H. unfold py_slice, slice_index. rewrite length_take, length_drop.
  destruct (Z.ltb_spec start 0), (Z.ltb_spec stop 0); lia.
Qed.

(** For indices that are not negative the slice is the part after the
    first [start] elements, cut to [stop - start] elements. *)
Lemma py_slice_nonneg {A} (l : list A) (start len : Z) :
  (0 <= start)%Z -> (0 <= len)%Z ->
  py_slice l start (start + len) = take (Z.to_nat len) (drop (Z.to_nat start) l).
Proof.
  intros Hs Hl. unfold py_slice, slice_index.
  destruct (Z.ltb_spec start 0); [lia|].
  destruct (Z.ltb_spec (start + len) 0); [lia|].
  destruct (Z.le_gt_cases (Z.of_nat (length l)) start) as [Hge|Hlt].
  - rewrite !(drop_ge l) by lia. rewrite !take_nil. reflexivity.
  - replace (Z.to_nat (Z.min start (Z.of_nat (length l)))) with (Z.to_nat start) by lia.
    destruct (Z.le_gt_cases (start + len) (Z.of_nat (length l))) as [Hin|Hout].
    + f_equal. lia.
    + rewrite !take_ge; [reflexivity| |]; rewrite length_drop; lia.
Qed.

Section ListRunsFacts.

Context (D : Deps) (E : Env).

Lemma get_run_none_unknown (run_id : string) (w w' : World) :
  get_run D E run_id w = (Ok None, w') -> unknown_run D E run_id w.
Proof.
  unfold get_run, unknown_run. unfold_monad.
  destruct (_runs_cache w !! run_id) as [l'|]; cbn; [discriminate|].
  destruct (files w !! run_path E run_id) as [data|]; cbn; [|auto].
  destruct (decode_run D data) as [r|]; cbn; [discriminate | auto].
Qed.

(** [get_run] changes no file, keeps what the cache holds, and leaves a
    run unknown that was unknown. *)
Lemma get_run_store (run_id : string) (w : World) :
  exists o w', get_run D E run_id w = (Ok o, w')
    /\ files w' = files w
    /\ (forall key l, _runs_cache w !! key = Some l -> _runs_cache w' !! key = Some l)
    /\ (forall l, l < next_ref w -> heap w' l = heap w l)
    /\ next_ref w <= next_ref w'
    /\ (forall name, unknown_run D E name w -> unknown_run D E name w').
Proof.
  unfold get_run, unknown_run. unfold_monad.
  destruct (_runs_cache w !! run_id) as [run|] eqn:Hmiss; cbn.
  { eexists _, _. split; [reflexivity|]. auto 10. }
  destruct (files w !! run_path E run_id) as [data|] eqn:Hfile; cbn.
  2:{ eexists _, _. split; [reflexivity|]. auto 10. }
  destruct (decode_run D data) as [r|] eqn:Hdec; cbn.
  2:{ eexists _, _. split; [reflexivity|]. auto 10. }
  eexists _, _. split; [reflexivity|]. cbn.
  repeat match goal with |- _ /\ _ => split end; auto.
  - intros key l Hk. rewrite lookup_insert_ne; [exact Hk | congruence].
  - intros l Hl. destruct (Nat.eqb_spec l (next_ref w)); [lia | reflexivity].
  - intros name [Hc Hf]. split; [|exact Hf].
    rewrite lookup_insert_ne; [exact Hc|].
    intros <-. rewrite Hfile in Hf. cbn in Hf. congruence.
Qed.

(** The loop never raises; every run it adds is cached under the name
    of a directory entry; and it has the frame of [get_run]. *)
Lemma collect_runs_spec (entries : list (string * bool)) (runs : list nat) (w : World) :
  exists more w', collect_runs D E entries runs w = (Ok (runs ++ more), w')
    /\ Forall (fun r => exists name, In (name, true) entries
                          /\ _runs_cache w' !! name = Some r) more
    /\ files w' = files w
    /\ (forall key l, _runs_cache w !! key = Some l -> _runs_cache w' !! key = Some l)
    /\ (forall l, l < next_ref w -> heap w' l = heap w l)
    /\ next_ref w <= next_ref w'
    /\ (forall name, unknown_run D E name w -> unknown_run D E name w').
Proof.
  revert runs w. induction entries as [|[name is_dir] rest IH]; intros runs w.
  - exists [], w. rewrite app_nil_r. cbn. auto 10.
  - cbn [collect_runs]. destruct is_dir.
    2:{ destruct (IH runs w) as (more & w' & Hr & Hm & Hrest).
        exists more, w'. split; [exact Hr|]. split; [|exact Hrest].
        eapply Forall_impl; [exact Hm|]. cbn. intros r (n & Hin & Hc). eauto. }
    destruct (get_run_store name w) as (o & w1 & Hg & Hf1 & Hc1 & Hh1 & Hn1 & Hu1).
    rewrite (bind_ok _ _ _ _ _ Hg).
    destruct o as [run|].
    + destruct (IH (runs ++ [run]) w1) as (more & w' & Hr & Hm & Hf & Hc & Hh & Hn & Hu).
      exists (run :: more), w'. rewrite <- app_assoc in Hr. split; [exact Hr|].
      repeat match goal with |- _ /\ _ => split end.
      * constructor.
        -- exists name. split; [left; reflexivity|].
           apply Hc. eapply get_run_cached, Hg.
        -- eapply Forall_impl; [exact Hm|]. cbn. intros r (n & Hin & Hk). eauto.
      * congruence.
      * auto.
      * intros l Hl. rewrite Hh by lia. auto.
      * lia.
      * auto.
    + destruct (IH runs w1) as (more & w' & Hr & Hm & Hf & Hc & Hh & Hn & Hu).
      exists more, w'. split; [exact Hr|].
      repeat match goal with |- _ /\ _ => split end.
      * eapply Forall_impl; [exact Hm|]. cbn. intros r (n & Hin & Hk). eauto.
      * congruence.
      * auto.
      * intros l Hl. rewrite Hh by lia. auto.
      * lia.
      * auto.
Qed.

(** Run again in the state it left, the loop finds the same runs and
    changes nothing. *)
Lemma collect_runs_stable (entries : list (string * bool)) (runs found : list nat)
    (w w' : World) :
  collect_runs D E entries runs w = (Ok found, w') ->
  collect_runs D E entries runs w' = (Ok found, w').
Proof.
  revert runs w. induction entries as [|[name is_dir] rest IH]; intros runs w H.
  - cbn in *. inversion H; subst. reflexivity.
  - cbn [collect_runs] in *. destruct is_dir; [|eapply IH, H].
    destruct (get_run_store name w) as (o & w1 & Hg & _).
    rewrite (bind_ok _ _ _ _ _ Hg) in H.
    destruct o as [run|].
    + destruct (collect_runs_spec rest (runs ++ [run]) w1)
        as (more & w2 & Hr & _ & _ & Hc & _).
      assert (w2 = w') by congruence. subst w2. clear Hr.
      assert (Hhit : _runs_cache w' !! name = Some run)
        by (apply Hc; eapply get_run_cached, Hg).
      rewrite (bind_ok _ _ _ _ _ (get_run_hit D E name w' run Hhit)).
      eapply IH, H.
    + apply get_run_not_found in Hg as Hw. subst w1.
      apply get_run_none_unknown in Hg as Hu.
      destruct (collect_runs_spec rest runs w) as (more & w2 & Hr & _ & _ & _ & _ & _ & Hk).
      assert (w2 = w') by congruence. subst w2. clear Hr.
      rewrite (bind_ok _ _ _ _ _ (get_run_miss D E name w' (Hk name Hu))).
      eapply IH, H.
Qed.

(** [list_runs] by the result of its loop. *)
Lemma list_runs_of_collected (entries : list (string * bool)) (limit offset : Z)
    (found : list nat) (w w' : World) :
  collect_runs D E entries [] w = (Ok found, w') ->
  list_runs D E entries limit offset w
  = (Ok (py_slice (sort_desc (fun r => Run.created_at (heap w' r)) found)
           offset (offset + limit)), w').
Proof.
  intros H. unfold list_runs. rewrite (bind_ok _ _ _ _ _ H). reflexivity.
Qed.

End ListRunsFacts.

(** X24.  A listing that [list_runs] returns: its runs are objects that
    the cache holds under the names of directories of the listing,
    newest first; for a limit that is not negative there are at most
    [limit] of them, whatever the offset; files and the objects that
    existed are as before. *)
Theorem list_runs_page (D : Deps) (E : Env) (entries : list (string * bool))
    (limit offset : Z) (w w' : World) (page : list nat) :
  list_runs D E entries limit offset w = (Ok page, w') ->
  newest_first (fun r => Run.created_at (heap w' r)) page
  /\ Forall (fun r => exists name, In (name, true) entries
                        /\ _runs_cache w' !! name = Some r) page
  /\ ((0 <= limit)%Z -> length page <= Z.to_nat limit)
  /\ files w' = files w
  /\ (forall l, l < next_ref w -> heap w' l = heap w l).
Proof.
  intros H.
  destruct (collect_runs_spec D E entries [] w)
    as (found & w1 & Hr & Hm & Hf & _ & Hh & _). cbn [app] in Hr.
  rewrite (list_runs_of_collected D E _ _ _ _ _ _ Hr) in H.
  injection H as Hp Hw. subst w1 page.
  repeat match goal with |- _ /\ _ => split end; try assumption.
  - unfold py_slice. apply newest_first_take, newest_first_drop, sort_desc_newest_first.
  - unfold py_slice. apply Forall_take, Forall_drop.
    rewrite sort_desc_perm. exact Hm.
  - intros Hl. etransitivity; [apply py_slice_length; lia|]. apply Nat.eq_le_incl.
    f_equal. lia.
Qed.

Lemma list_runs_page_witness :
  let D := fixed_codec pending_run in
  let E := sample_env (fun _ => IoOk) in
  let w := mkWorld (fun _ => pending_run) 0 ∅
             {[ "data/runs/run-1/run.json" := "run:run-1" ]} 0 0 0 0 [] in
  exists w', list_runs D E [("run-1", true); ("notes.txt", false)] 20 0 w = (Ok [0], w')
    /\ _runs_cache w' !! "run-1" = Some 0
    /\ length [0] <= Z.to_nat 20
    /\ files w' = files w.
Proof.
  intros D E w. eexists. split; [reflexivity|].
  destruct (list_runs_page D E [("run-1", true); ("notes.txt", false)] 20 0 w _ [0]
              eq_refl) as (_ & Hc & Hl & Hf & _).
  split; [reflexivity|]. split; [apply Hl; lia | exact Hf].
Defined.

(** X25.  Called again with the same arguments in the state that the first
    call left, [list_runs] returns the same list and changes nothing:
    every run it found is served from the cache, and no other run
    appears. *)
Theorem list_runs_again (D : Deps) (E : Env) (entries : list (string * bool))
    (limit offset : Z) (w w' : World) (page : list nat) :
  list_runs D E entries limit offset w = (Ok page, w') ->
  list_runs D E entries limit offset w' = (Ok page, w').
Proof.
  intros H.
  destruct (collect_runs_spec D E entries [] w) as (found & w1 & Hr & _).
  cbn [app] in Hr.
  rewrite (list_runs_of_collected D E _ _ _ _ _ _ Hr) in H.
  injection H as Hp Hw. subst w1 page.
  apply (list_runs_of_collected D E entries limit offset found w' w').
  apply (collect_runs_stable D E entries [] found w w' Hr).
Qed.

Lemma list_runs_again_witness :
  let D := fixed_codec pending_run in
  let E := sample_env (fun _ => IoOk) in
  let w := mkWorld (fun _ => pending_run) 0 ∅
             {[ "data/runs/run-1/run.json" := "run:run-1" ]} 0 0 0 0 [] in
  exists w', list_runs D E [("run-1", true); ("notes.txt", false)] 20 0 w = (Ok [0], w')
    /\ list_runs D E [("run-1", true); ("notes.txt", false)] 20 0 w' = (Ok [0], w').
Proof.
  intros D E w. eexists. split; [reflexivity|].
  apply (list_runs_again D E [("run-1", true); ("notes.txt", false)] 20 0 w _ [0]).
  reflexivity.
Defined.

(** X26.  Pages follow one another: in a state that a call of [list_runs]
    left, and for an offset and limits that are not negative, the page
    of [limit] runs from [offset] followed by the page of [more] runs
    from [offset + limit] is the page of [limit + more] runs from
    [offset]; no run is listed twice or skipped between them. *)
Theorem list_runs_pages_join (D : Deps) (E : Env) (entries : list (string * bool))
    (limit0 offset0 limit more offset : Z) (w w' : World) (page0 : list nat) :
  list_runs D E entries limit0 offset0 w = (Ok page0, w') ->
  (0 <= offset)%Z -> (0 <= limit)%Z -> (0 <= more)%Z ->
  exists page1 page2,
    list_runs D E entries limit offset w' = (Ok page1, w')
    /\ list_runs D E entries more (offset + limit) w' = (Ok page2, w')
    /\ list_runs D E entries (limit + more) offset w' = (Ok (page1 ++ page2), w').
Proof.
  intros H Ho Hl Hm.
  destruct (collect_runs_spec D E entries [] w) as (found & w1 & Hr & _).
  cbn [app] in Hr.
  rewrite (list_runs_of_collected D E _ _ _ _ _ _ Hr) in H.
  injection H as Hp Hw. subst w1.
  apply (collect_runs_stable D E) in Hr.
  eexists _, _.
  rewrite !(list_runs_of_collected D E _ _ _ _ _ _ Hr).
  split; [reflexivity|]. split; [reflexivity|]. f_equal. f_equal.
  rewrite !py_slice_nonneg by lia.
  rewrite Z2Nat.inj_add by lia. rewrite Z2Nat.inj_add by lia.
  rewrite <- drop_drop. symmetry. apply take_take_drop.
Qed.

Lemma list_runs_pages_join_witness :
  let D := fixed_codec pending_run in
  let E := sample_env (fun _ => IoOk) in
  let w := mkWorld (fun _ => pending_run) 0 ∅
             {[ "data/runs/run-1/run.json" := "run:run-1" ]} 0 0 0 0 [] in
  exists w' page1 page2,
    list_runs D E [("run-1", true)] 20 0 w = (Ok [0], w')
    /\ list_runs D E [("run-1", true)] 1 0 w' = (Ok page1, w')
    /\ list_runs D E [("run-1", true)] 1 (0 + 1) w' = (Ok page2, w')
    /\ list_runs D E [("run-1", true)] (1 + 1) 0 w' = (Ok (page1 ++ page2), w').
Proof.
  intros D E w. eexists.
  assert (H : list_runs D E [("run-1", true)] 20 0 w = (Ok [0], _)) by reflexivity.
  destruct (list_runs_pages_join D E [("run-1", true)] 20 0 1 1 0 w _ [0] H)
    as (page1 & page2 & H1 & H2 & H3); try lia.
  exists page1, page2. split; [exact H|]. auto.
Defined.

(** ** Runs do not interfere *)

Create HintDb frame.

Lemma others_ret {A} (l : nat) (a : A) : others_kept l (mret a : M A).
Proof. intros w. cbn. auto. Qed.

Lemma others_raise {A} (l : nat) (e : Exception) : others_kept l (raise e : M A).
Proof. intros w. cbn. auto. Qed.

Lemma others_bind {A B} (l : nat) (c : M A) (k : A -> M B) :
  others_kept l c -> (forall a, others_kept l (k a)) -> others_kept l (c ≫= k).
Proof.
  intros Hc Hk w. unfold mbind, M_bind. specialize (Hc w).
  destruct (c w) as [[a|e] w1]; cbn [snd] in *; [|exact Hc].
  destruct Hc as [Hn Hh]. destruct (Hk a w1) as [Hn' Hh'].
  split; [lia|]. intros l' Hl Hne. rewrite Hh' by (lia || assumption). auto.
Qed.

Lemma others_try_except {A} (l : nat) (body : M A) (handler : Exception -> M A) :
  others_kept l body -> (forall e, others_kept l (handler e)) ->
  others_kept l (try_except body handler).
Proof.
  intros Hc Hk w. unfold try_except. specialize (Hc w).
  destruct (body w) as [[a|e] w1]; cbn [snd] in *; [exact Hc|].
  destruct Hc as [Hn Hh]. destruct (Hk e w1) as [Hn' Hh'].
  split; [lia|]. intros l' Hl Hne. rewrite Hh' by (lia || assumption). auto.
Qed.

Lemma others_try_except_class {A} (l : nat) (is_C : Exception -> bool) (body : M A)
    (handler : Exception -> M A) :
  others_kept l body -> (forall e, others_kept l (handler e)) ->
  others_kept l (try_except_class is_C body handler).
Proof.
  intros Hc Hk w. unfold try_except_class. specialize (Hc w).
  destruct (body w) as [[a|e] w1]; cbn [snd] in *; [exact Hc|].
  destruct (is_C e); [|exact Hc].
  destruct Hc as [Hn Hh]. destruct (Hk e w1) as [Hn' Hh'].
  split; [lia|]. intros l' Hl Hne. rewrite Hh' by (lia || assumption). auto.
Qed.

Lemma others_gets {A} (l : nat) (f : World -> A) : others_kept l (gets f).
Proof. intros w. cbn. auto. Qed.

Lemma others_modify_obj (l : nat) (f : Run.t -> Run.t) : others_kept l (modify_obj l f).
Proof.
  intros w. cbn. split; [lia|]. intros l' _ Hne.
  destruct (Nat.eqb_spec l' l); [contradiction | reflexivity].
Qed.

Lemma others_alloc (l : nat) (r : Run.t) : others_kept l (alloc r).
Proof.
  intros w. cbn. split; [lia|]. intros l' Hl _.
  destruct (Nat.eqb_spec l' (next_ref w)); [lia | reflexivity].
Qed.

Lemma others_cache_put (l : nat) (key : string) (ref : nat) : others_kept l (cache_put key ref).
Proof. intros w. cbn. auto. Qed.

Lemma others_put_file (l : nat) (path content : string) : others_kept l (put_file path content).
Proof. intros w. cbn. auto. Qed.

Lemma others_note_saved (l : nat) (call : string * string * string) :
  others_kept l (note_saved call).
Proof. intros w. cbn. auto. Qed.

Lemma others_tick_clock (l : nat) : others_kept l tick_clock.
Proof. intros w. cbn. auto. Qed.

Lemma others_tick_uuid (l : nat) : others_kept l tick_uuid.
Proof. intros w. cbn. auto. Qed.

Lemma others_tick_llm (l : nat) : others_kept l tick_llm.
Proof. intros w. cbn. auto. Qed.

Lemma others_tick_io (l : nat) : others_kept l tick_io.
Proof. intros w. cbn. auto. Qed.

#[local] Hint Resolve others_ret others_raise others_gets others_modify_obj others_alloc
  others_cache_put others_put_file others_note_saved others_tick_clock others_tick_uuid
  others_tick_llm others_tick_io : frame.

(** Take a computation apart along its binds, handlers and branches. *)
Ltac frame :=
  repeat first
    [ solve [auto with frame]
    | apply others_bind; [|intros ?]
    | apply others_try_except_class; [|intros ?]
    | apply others_try_except; [|intros ?]
    | match goal with
      | |- others_kept _ (if ?b then _ else _) => destruct b
      | |- others_kept _ (match ?x with _ => _ end) => destruct x
      end ].

Section Others.

Context (D : Deps) (E : Env) (l : nat).

Lemma others_utcnow : others_kept l (utcnow E).
Proof. unfold utcnow. frame. Qed.

Lemma others_uuid4 : others_kept l (uuid4 E).
Proof. unfold uuid4. frame. Qed.

Hint Resolve others_utcnow others_uuid4 : frame.

Lemma others_add_message (role : AgentRole) (content : string) (step : Z)
    (md : option (list (string * JSON))) :
  others_kept l (add_message E l role content step md).
Proof. unfold add_message. cbv zeta. frame. Qed.

Lemma others_update_status (status : RunStatus) : others_kept l (update_status E l status).
Proof. unfold update_status. frame. Qed.

Lemma others_write_file (path content : string) : others_kept l (write_file E path content).
Proof. unfold write_file. frame. Qed.

Hint Resolve others_add_message others_update_status others_write_file : frame.

Lemma others_get_run (run_id : string) : others_kept l (get_run D E run_id).
Proof. unfold get_run. frame. Qed.

Lemma others_update_run (run : nat) : others_kept l (update_run D E run).
Proof. unfold update_run, _save_run, get_obj. frame. Qed.

Hint Resolve others_get_run others_update_run : frame.

Lemma others_save_artifact (run_id artifact_type content : string) :
  others_kept l (save_artifact D E run_id artifact_type content).
Proof. unfold save_artifact, get_obj. cbv zeta. frame. Qed.

Lemma others_put_files (fs : list (string * string)) :
  others_kept l (foldr (fun f k => put_file f.1 f.2 ;; k) (mret tt) fs).
Proof. induction fs as [|f fs IH]; cbn [foldr]; frame. Qed.

Hint Resolve others_save_artifact others_put_files : frame.

Lemma others_generate_pdf (run : nat) (prd_content : string) :
  others_kept l (_generate_pdf E run prd_content).
Proof. unfold _generate_pdf, generate_from_markdown, get_obj. cbv zeta. frame. Qed.

Lemma others_save_conversation : others_kept l (_save_conversation_artifact D E l).
Proof. unfold _save_conversation_artifact, get_obj. frame. Qed.

Hint Resolve others_generate_pdf others_save_conversation : frame.

Context (self : Orchestrator).

Lemma others_llm_generate (prompt agent_name : string) :
  others_kept l (llm_generate self prompt agent_name).
Proof. unfold llm_generate. frame. Qed.

Hint Resolve others_llm_generate : frame.

Lemma others_stages :
  Forall (fun st => others_kept l (stage_run st l)) (stages D E self).
Proof.
  unfold stages.
  repeat (apply List.Forall_cons; [cbn [stage_run]|]); [..|apply List.Forall_nil].
  - unfold _run_strategist, get_obj. cbv zeta. frame.
  - unfold _run_architect, get_obj. cbv zeta. frame.
  - unfold _run_ux_writer, get_obj. cbv zeta. frame.
  - unfold _run_mockup_designer, get_obj. cbv zeta. frame.
  - unfold _run_synthesizer, _format_conversation_history, get_obj. cbv zeta. frame.
Qed.

Lemma others_run_agents_body : others_kept l (run_agents_body D E self l).
Proof.
  rewrite run_agents_body_stages.
  induction others_stages as [|st sts Hst _ IH]; cbn [foldr].
  - unfold closing_steps. frame.
  - frame.
Qed.

End Others.

(** X27.  [run_agents] changes no run but its own: every other [Run] object
    that existed before the call is the same after it, whether the call
    returns or raises. *)
Theorem run_agents_changes_one_run (D : Deps) (E : Env) (self : Orchestrator)
    (run_id : string) (run : nat) (w w0 : World) :
  get_run D E run_id w = (Ok (Some run), w0) ->
  forall l, l < next_ref w -> l <> run ->
    heap (run_agents D E self run_id w).2 l = heap w l.
Proof.
  intros Hg l Hl Hne. unfold run_agents. rewrite (bind_ok _ _ _ _ _ Hg).
  destruct (others_get_run D E run run_id w) as [Hn Hh].
  rewrite Hg in Hn, Hh. cbn [snd] in Hn, Hh.
  assert (Hrest : others_kept run
    (update_status E run RUNNING;;
     update_run D E run;;
     try_except (run_agents_body D E self run)
       (fun e => update_status E run FAILED;; update_run D E run;; raise e))).
  { pose proof (others_run_agents_body D E run self).
    pose proof (others_update_status E run).
    pose proof (others_update_run D E run run).
    frame. }
  destruct (Hrest w0) as [_ Hh']. rewrite Hh' by (lia || assumption). auto.
Qed.

Lemma run_agents_changes_one_run_witness :
  heap (run_agents sample_deps (sample_env (fun _ => IoOk))
          (sample_orchestrator failing_third) "run-1" two_runs_world).2 1
  = heap two_runs_world 1.
Proof.
  apply (run_agents_changes_one_run sample_deps (sample_env (fun _ => IoOk))
           (sample_orchestrator failing_third) "run-1" 0 two_runs_world two_runs_world).
  - reflexivity.
  - cbn. lia.
  - lia.
Defined.
